(** * The REST API authorizer of osml-cdk-constructs

    A shallow embedding of
    [lib/osml/osml_authorizer/lambda/lambda_function.py]
    and the properties of its token pipeline.

    Conventions of the embedding.
    - A Python [str] is a [string]; a character stands for a code point in
      the range 0..255.
    - A Python exception is a value of [exn]; a call that may raise returns
      an [outcome].
    - Code that talks to the network threads a [World] (clock and the log of
      the fetches made so far) through a small state-and-error monad.
    - [print] only writes to the log stream and is left out. *)

From Stdlib Require Import String Ascii List ZArith Lia Bool Arith.
Import ListNotations.

Local Open Scope string_scope.

(** ** Python strings *)

Module PyString.

Definition code (c : ascii) : nat := nat_of_ascii c.

Definition between (lo hi : nat) (c : ascii) : bool :=
  (lo <=? code c)%nat && (code c <=? hi)%nat.

(** [str.lower] on one code point below 256: the ASCII capitals and the
    Latin-1 capitals (all of U+00C0..U+00DE but the multiplication sign
    U+00D7) move up by 32, every other code point is its own lower case. *)
Definition lower_char (c : ascii) : ascii :=
  if between 65 90 c then ascii_of_nat (code c + 32)
  else if between 192 222 c && negb (code c =? 215)%nat
       then ascii_of_nat (code c + 32)
       else c.

Fixpoint lower (s : string) : string :=
  match s with
  | EmptyString => EmptyString
  | String c s' => String (lower_char c) (lower s')
  end.

(** The text [s] has before the suffix [rest] (used for [group(n)]). *)
Definition consumed (s rest : string) : string :=
  substring 0 (String.length s - String.length rest) s.

End PyString.

(** ** The fragment of [re] the authorizer uses

    A backtracking matcher in continuation-passing style: alternatives are
    tried in the order Python's engine tries them (greedy first) and the
    first one under which the rest of the pattern matches wins. *)

Module Re.

Inductive regex : Type :=
| Lit (c : ascii)                 (* one literal character *)
| Cls (p : ascii -> bool)         (* a class [...] or an escape such as \s *)
| Cat (r1 r2 : regex)             (* r1 r2 *)
| Opt (r : regex)                 (* r?   greedy *)
| Plus (r : regex)                (* r+   greedy *)
| NonCapturing (r : regex)        (* (?:r) *)
| Group (n : nat) (r : regex).    (* (r), the n-th capturing group *)

Definition captures := list (nat * string).

Fixpoint group_of (n : nat) (caps : captures) : option string :=
  match caps with
  | [] => None
  | (m, t) :: caps' => if (m =? n)%nat then Some t else group_of n caps'
  end.

Definition or_else {A} (x : option A) (y : option A) : option A :=
  match x with Some _ => x | None => y end.

Fixpoint run {A} (r : regex) (s : string) (caps : captures)
         (k : string -> captures -> option A) {struct r} : option A :=
  match r with
  | Lit c =>
      match s with
      | String c' s' => if Ascii.eqb c' c then k s' caps else None
      | EmptyString => None
      end
  | Cls p =>
      match s with
      | String c' s' => if p c' then k s' caps else None
      | EmptyString => None
      end
  | Cat r1 r2 => run r1 s caps (fun s1 caps1 => run r2 s1 caps1 k)
  | Opt r1 => or_else (run r1 s caps k) (k s caps)
  | Plus r1 =>
      (fix loop (fuel : nat) (s0 : string) (caps0 : captures) : option A :=
         match fuel with
         | O => None
         | S fuel' =>
             run r1 s0 caps0
                 (fun s1 caps1 => or_else (loop fuel' s1 caps1) (k s1 caps1))
         end) (S (String.length s)) s caps
  | NonCapturing r1 => run r1 s caps k
  | Group n r1 =>
      run r1 s caps (fun s1 caps1 => k s1 ((n, PyString.consumed s s1) :: caps1))
  end.

(** [re.match(pattern, s)]: the pattern must match at the start of [s]; it
    need not reach the end of [s]. The result is the match object, here
    the groups it captured, or [None]. *)
Definition re_match (pattern : regex) (s : string) : option captures :=
  run pattern s [] (fun _ caps => Some caps).

(** A literal word. *)
Fixpoint word (w : string) (tail : regex) : regex :=
  match w with
  | EmptyString => tail
  | String c w' => Cat (Lit c) (word w' tail)
  end.

(** [\s] on a [str] pattern, for code points below 256. *)
Definition whitespace (c : ascii) : bool :=
  PyString.between 9 13 c || PyString.between 28 32 c
  || (PyString.code c =? 133)%nat || (PyString.code c =? 160)%nat.

End Re.

(** ** Values, exceptions, outcomes *)

(** A Python [float]: a finite one is the fraction [num/den] (every binary
    float is one), and the parser also yields the infinities (a literal
    such as 1e400) and NaN. *)
Inductive pyfloat : Type :=
| Finite (num : Z) (den : positive)
| Infinity (negative : bool)
| NaN.

(** JSON-shaped Python values; a [dict] keeps its items in insertion order. *)
#[warnings="-register-all"]
Inductive pyval : Type :=
| PyNone
| PyBool (b : bool)
| PyInt (z : Z)
| PyStr (s : string)
| PyList (l : list pyval)
| PyDict (d : list (string * pyval))
| PyFloat (f : pyfloat).

Module Dict.

Fixpoint get {V} (k : string) (d : list (string * V)) : option V :=
  match d with
  | [] => None
  | (k', v) :: d' => if String.eqb k' k then Some v else get k d'
  end.

(** [d[k] = v]: an existing key keeps its place, a new key goes last. *)
Fixpoint set {V} (k : string) (v : V) (d : list (string * V)) : list (string * V) :=
  match d with
  | [] => [(k, v)]
  | (k', v') :: d' =>
      if String.eqb k' k then (k', v) :: d' else (k', v') :: set k v d'
  end.

End Dict.

(** Python's truth value of an object ([if x], [not x], [x or y]). *)
Definition truthy (v : pyval) : bool :=
  match v with
  | PyNone => false
  | PyBool b => b
  | PyInt z => negb (z =? 0)%Z
  | PyStr s => negb (String.eqb s "")
  | PyList l => match l with [] => false | _ => true end
  | PyDict d => match d with [] => false | _ => true end
  | PyFloat (Finite num _) => negb (num =? 0)%Z
  | PyFloat _ => true
  end.

(** The subclasses of [jwt.exceptions.PyJWTError] the pipeline can meet. *)
Inductive jwt_error : Type :=
| DecodeError
| InvalidAlgorithmError
| InvalidSignatureError
| ExpiredSignatureError
| ImmatureSignatureError
| InvalidIssuedAtError
| InvalidIssuerError
| InvalidAudienceError
| MissingRequiredClaimError (claim : string)
| PyJWKSetError
| PyJWKClientError
| PyJWKClientConnectionError.

Inductive exn : Type :=
| ValueError (msg : string)
| KeyError (key : string)
| TypeError
| PyJWTError (e : jwt_error)
| RequestException              (* requests: connection failure, timeout, ... *)
| JSONDecodeError               (* the body passed to [.json()] is not JSON *)
| OSError                       (* ssl: the CA bundle cannot be loaded *)
| OverflowError                 (* [int()] of an infinite float *)
| AttributeError.               (* a key of the key set that is not an object *)

Inductive outcome (A : Type) : Type :=
| Returns (a : A)
| Raises (e : exn).
Arguments Returns {A} a.
Arguments Raises {A} e.

(** [v[k]] for a string key. *)
Definition getitem (v : pyval) (k : string) : outcome pyval :=
  match v with
  | PyDict d =>
      match Dict.get k d with
      | Some x => Returns x
      | None => Raises (KeyError k)
      end
  | _ => Raises TypeError
  end.

(** ** The world outside the function *)

Record Response : Type := { status_code : Z; content : string }.

(** What the process has done to the network so far, and the time. *)
Record World : Type := {
  clock : Z;
  discovery_fetches : list string;  (* URLs fetched with requests.get, latest first *)
  keyset_fetches : list pyval       (* URIs fetched by a key-set client, latest first *)
}.

Inductive fetched : Type :=
| Fetched (data : pyval)            (* the body, parsed as JSON *)
| ConnectionFailed                  (* URLError or TimeoutError *)
| FetchFault (e : exn).             (* any other exception of the fetch *)

(** A key of a key set, as [jwt.PyJWK] exposes it. *)
Record PyJWK : Type := {
  key_id : option string;
  public_key_use : option string;
  key : string                      (* the key material, opaque *)
}.

(** [PyJWK(obj)] while a key set is read: the key; a [PyJWTError], on which
    the key is skipped; or any other exception, which nothing catches. *)
Inductive jwk_built : Type :=
| Built (k : PyJWK)
| Unusable
| BuildFault (e : exn).

(** The configuration of the process and the behaviour of everything the
    function calls but does not define: the network, the parsers and the
    cryptography. Nothing is assumed about them. *)
Record Env : Type := {
  has_crypto : bool;                                   (* jwt.algorithms.has_crypto *)
  environ : list (string * string);                    (* os.environ *)
  http_get : World -> string -> option string -> outcome Response;
                                                       (* requests.get(url, verify=..) *)
  json_loads : string -> option pyval;                 (* json.loads; None: not JSON *)
  load_verify_locations : string -> outcome unit;      (* SSLContext.load_verify_locations *)
  urlopen_json : World -> pyval -> fetched;            (* urlopen(uri) and json.load *)
  base64url_decode : string -> option string;          (* None: bad padding *)
  jwk_of : pyval -> jwk_built;                         (* PyJWK(obj) *)
  int_of_str : string -> option Z;                     (* int(s); None: ValueError *)
  sig_verify : string -> string -> string -> string -> outcome bool
                                  (* algorithm, key, signing input, signature *)
}.

(** [os.environ.get(name, default)] *)
Definition environ_get (E : Env) (name default : string) : string :=
  match Dict.get name (environ E) with Some v => v | None => default end.

(** [os.getenv(name, None)] *)
Definition getenv (E : Env) (name : string) : option string :=
  Dict.get name (environ E).

(** ** State and exceptions *)

Definition Py (A : Type) : Type := World -> outcome A * World.

Definition ret {A} (a : A) : Py A := fun w => (Returns a, w).
Definition lift {A} (o : outcome A) : Py A := fun w => (o, w).

Definition bind {A B} (m : Py A) (f : A -> Py B) : Py B :=
  fun w =>
    match m w with
    | (Returns a, w') => f a w'
    | (Raises e, w') => (Raises e, w')
    end.

Notation "x <- m ;; f" := (bind m (fun x => f))
  (at level 100, m at next level, right associativity).
Notation "m ;;; f" := (bind m (fun _ => f))
  (at level 100, right associativity).

(** [try: body except jwt.exceptions.PyJWTError as e: handler(e)] *)
Definition try_except_PyJWTError {A} (body : Py A) (handler : jwt_error -> Py A) : Py A :=
  fun w =>
    match body w with
    | (Raises (PyJWTError e), w') => handler e w'
    | r => r
    end.

(** ** The libraries the function calls

    Modelled from the spec: PyJWT ([jwt.decode], [jwt.PyJWKClient]) and
    requests are dependencies of the function, not code of the repository.
    Their models below follow the steps the specification gives for the key
    resolver (4.2) and the token validator (4.3), in the order and with the
    exception classes of PyJWT 2.9, the first release whose key-set client
    takes [ssl_context]. Decoding, cryptography and the network are the
    oracles of [Env]. *)

(** [s.split(".", 1)]: around the first dot of [s]. *)
Fixpoint split_dot (s : string) : option (string * string) :=
  match s with
  | EmptyString => None
  | String c s' =>
      if Ascii.eqb c "." then Some (EmptyString, s')
      else match split_dot s' with
           | Some (a, b) => Some (String c a, b)
           | None => None
           end
  end.

(** [s.rsplit(".", 1)]: around the last dot of [s]. *)
Fixpoint rsplit_dot (s : string) : option (string * string) :=
  match s with
  | EmptyString => None
  | String c s' =>
      match rsplit_dot s' with
      | Some (a, b) => Some (String c a, b)
      | None => if Ascii.eqb c "." then Some (EmptyString, s') else None
      end
  end.

Module Jwt.

Definition fail {A} (e : jwt_error) : outcome A := Raises (PyJWTError e).

(** The parts of a compact serialization. *)
Record JWS : Type := {
  header : list (string * pyval);
  payload : string;
  signing_input : string;
  signature : string
}.

(** Modelled from the spec: the token is three base64url segments, header,
    payload and signature; the header must decode to a JSON object. *)
Definition load (E : Env) (token : string) : outcome JWS :=
  match rsplit_dot token with
  | None => fail DecodeError
  | Some (signing_input, crypto_segment) =>
      match split_dot signing_input with
      | None => fail DecodeError
      | Some (header_segment, payload_segment) =>
          match base64url_decode E header_segment with
          | None => fail DecodeError
          | Some header_data =>
              match json_loads E header_data with
              | Some (PyDict header) =>
                  match base64url_decode E payload_segment with
                  | None => fail DecodeError
                  | Some payload =>
                      match base64url_decode E crypto_segment with
                      | None => fail DecodeError
                      | Some signature =>
                          match Dict.get "b64" header with
                          | Some (PyBool false) => fail DecodeError
                          | _ => Returns {| header := header;
                                            payload := payload;
                                            signing_input := signing_input;
                                            signature := signature |}
                          end
                      end
                  end
              | _ => fail DecodeError
              end
          end
      end
  end.

(** The algorithm the header of the token declares. *)
Definition declared_alg (j : JWS) : option pyval := Dict.get "alg" (header j).

(** Modelled from the spec: the signature is verified with the resolved key
    under an algorithm of the allowed list only; a token whose header
    declares any other algorithm is rejected before any verification. *)
Definition verify_signature (E : Env) (j : JWS) (key : string)
           (algorithms : list string) : outcome unit :=
  match declared_alg j with
  | Some (PyStr alg) =>
      if negb (truthy (PyStr alg)) || negb (existsb (String.eqb alg) algorithms)
      then fail InvalidAlgorithmError
      else match sig_verify E alg key (signing_input j) (signature j) with
           | Returns true => Returns tt
           | Returns false => fail InvalidSignatureError
           | Raises e => Raises e
           end
  | _ => fail InvalidAlgorithmError
  end.

(** The payload must be a JSON object. *)
Definition decode_payload (E : Env) (j : JWS) : outcome (list (string * pyval)) :=
  match json_loads E (payload j) with
  | Some (PyDict claims) => Returns claims
  | _ => fail DecodeError
  end.

(** [int(f)] of a float: towards zero; an infinity is an [OverflowError],
    NaN a [ValueError]. *)
Definition int_of_float (f : pyfloat) : outcome Z :=
  match f with
  | Finite num den => Returns (Z.quot num (Zpos den))
  | Infinity _ => Raises OverflowError
  | NaN => Raises (ValueError "cannot convert float NaN to integer")
  end.

(** [int(v)] *)
Definition py_int (E : Env) (v : pyval) : outcome Z :=
  match v with
  | PyInt z => Returns z
  | PyBool b => Returns (if b then 1 else 0)%Z
  | PyFloat f => int_of_float f
  | PyStr s =>
      match int_of_str E s with
      | Some z => Returns z
      | None => Raises (ValueError "invalid literal for int()")
      end
  | _ => Raises TypeError
  end.

(** A time claim, when present: [int(payload[name])], where a
    [ValueError] becomes [not_int], then the check against the clock. *)
Definition validate_time (E : Env) (claims : list (string * pyval))
           (name : string) (not_int : jwt_error)
           (bad : Z -> bool) (error : jwt_error) : outcome unit :=
  match Dict.get name claims with
  | None => Returns tt
  | Some v =>
      match py_int E v with
      | Returns t => if bad t then fail error else Returns tt
      | Raises (ValueError _) => fail not_int
      | Raises e => Raises e
      end
  end.

Definition validate_iss (claims : list (string * pyval)) (issuer : string)
  : outcome unit :=
  match Dict.get "iss" claims with
  | None => fail (MissingRequiredClaimError "iss")
  | Some (PyStr iss) =>
      if String.eqb iss issuer then Returns tt else fail InvalidIssuerError
  | Some _ => fail InvalidIssuerError
  end.

Definition is_str (v : pyval) : bool :=
  match v with PyStr _ => true | _ => false end.

Definition str_is (s : string) (v : pyval) : bool :=
  match v with PyStr s' => String.eqb s' s | _ => false end.

Definition validate_aud (claims : list (string * pyval)) (audience : string)
  : outcome unit :=
  match Dict.get "aud" claims with
  | None => fail (MissingRequiredClaimError "aud")
  | Some aud =>
      if negb (truthy aud) then fail (MissingRequiredClaimError "aud")
      else
        match (match aud with
               | PyStr _ => Some [aud]
               | PyList l => Some l
               | _ => None
               end) with
        | None => fail InvalidAudienceError
        | Some audience_claims =>
            if negb (forallb is_str audience_claims) then fail InvalidAudienceError
            else if existsb (str_is audience) audience_claims then Returns tt
                 else fail InvalidAudienceError
        end
  end.

Definition seq (a : outcome unit) (b : outcome unit) : outcome unit :=
  match a with Returns _ => b | Raises e => Raises e end.

(** Modelled from the spec: [iat] not in the future, [nbf] in the past,
    [exp] in the future, each when present; [iss] equal to the issuer;
    [aud] equal to or containing the audience. No clock skew. *)
Definition validate_claims (E : Env) (now : Z) (claims : list (string * pyval))
           (issuer audience : string) : outcome unit :=
  seq (validate_time E claims "iat" InvalidIssuedAtError
                     (fun iat => now <? iat)%Z ImmatureSignatureError)
 (seq (validate_time E claims "nbf" DecodeError
                     (fun nbf => now <? nbf)%Z ImmatureSignatureError)
 (seq (validate_time E claims "exp" DecodeError
                     (fun exp => exp <=? now)%Z ExpiredSignatureError)
 (seq (validate_iss claims issuer)
      (validate_aud claims audience)))).

(** [jwt.decode(token, key, algorithms=.., issuer=.., audience=..,
    options={verify_signature, verify_exp, verify_nbf, verify_iat,
    verify_aud, verify_iss: True})] *)
Definition decode (E : Env) (token key : string) (algorithms : list string)
           (issuer audience : string) : Py (list (string * pyval)) :=
  fun w =>
    (match load E token with
     | Raises e => Raises e
     | Returns j =>
         match verify_signature E j key algorithms with
         | Raises e => Raises e
         | Returns _ =>
             match decode_payload E j with
             | Raises e => Raises e
             | Returns claims =>
                 match validate_claims E (clock w) claims issuer audience with
                 | Raises e => Raises e
                 | Returns _ => Returns claims
                 end
             end
         end
     end, w).

End Jwt.

Module Jwks.

(** [jwt.jwk_set_cache.JWKSetCache]: the key set last fetched and when. *)
Record JWKSetCache : Type := {
  lifespan : Z;
  jwk_set_with_timestamp : option (pyval * Z)
}.

(** [jwt.PyJWKClient]: the cache is a field of the client object. *)
Record PyJWKClient : Type := {
  uri : pyval;
  jwk_set_cache : option JWKSetCache
}.

(** [PyJWKClient(uri, cache_jwk_set=.., lifespan=..)]: a new client starts
    with an empty cache. *)
Definition new (uri : pyval) (cache_jwk_set : bool) (lifespan : Z)
  : outcome PyJWKClient :=
  if cache_jwk_set then
    if (lifespan <=? 0)%Z then Jwt.fail PyJWKClientError
    else Returns {| uri := uri;
                    jwk_set_cache := Some {| lifespan := lifespan;
                                             jwk_set_with_timestamp := None |} |}
  else Returns {| uri := uri; jwk_set_cache := None |}.

Definition cache_get (c : JWKSetCache) (now : Z) : option pyval :=
  match jwk_set_with_timestamp c with
  | Some (data, timestamp) =>
      if ((-1 <? lifespan c) && (timestamp + lifespan c <? now))%Z
      then None else Some data
  | None => None
  end.

Definition cache_put (c : JWKSetCache) (now : Z) (data : pyval) : JWKSetCache :=
  {| lifespan := lifespan c;
     jwk_set_with_timestamp :=
       match data with PyNone => None | _ => Some (data, now) end |}.

Definition put (c : PyJWKClient) (now : Z) (data : pyval) : PyJWKClient :=
  {| uri := uri c;
     jwk_set_cache :=
       match jwk_set_cache c with
       | Some cache => Some (cache_put cache now data)
       | None => None
       end |}.

Definition log_keyset_fetch (u : pyval) (w : World) : World :=
  {| clock := clock w;
     discovery_fetches := discovery_fetches w;
     keyset_fetches := u :: keyset_fetches w |}.

(** Modelled from the spec: one network fetch of the key set from the URI
    of the client; the result goes into the cache of this client. *)
Definition fetch_data (E : Env) (c : PyJWKClient) : Py (pyval * PyJWKClient) :=
  fun w =>
    let w' := log_keyset_fetch (uri c) w in
    match urlopen_json E w (uri c) with
    | Fetched data => (Returns (data, put c (clock w) data), w')
    | ConnectionFailed => (Jwt.fail PyJWKClientConnectionError, w')
    | FetchFault e => (Raises e, w')
    end.

(** The keys of the set, in order: a key that cannot be used is skipped,
    any other exception of [PyJWK(obj)] ends the reading. *)
Fixpoint usable_keys (E : Env) (keys : list pyval) : outcome (list PyJWK) :=
  match keys with
  | [] => Returns []
  | k :: keys' =>
      match jwk_of E k with
      | Built jwk =>
          match usable_keys E keys' with
          | Returns jwks => Returns (jwk :: jwks)
          | Raises e => Raises e
          end
      | Unusable => usable_keys E keys'
      | BuildFault e => Raises e
      end
  end.

(** [PyJWKSet.from_dict(data)] *)
Definition jwk_set_from (E : Env) (data : pyval) : outcome (list PyJWK) :=
  match data with
  | PyDict d =>
      match Dict.get "keys" d with
      | Some (PyList (k :: keys)) =>
          match usable_keys E (k :: keys) with
          | Returns [] => Jwt.fail PyJWKSetError
          | Returns jwks => Returns jwks
          | Raises e => Raises e
          end
      | _ => Jwt.fail PyJWKSetError
      end
  | _ => Jwt.fail PyJWKClientError
  end.

(** Modelled from the spec: the key set is served from the cache of the
    client while the entry is younger than the lifespan, and fetched
    otherwise. *)
Definition get_jwk_set (E : Env) (c : PyJWKClient) (refresh : bool)
  : Py (list PyJWK * PyJWKClient) :=
  fun w =>
    let cached :=
      match jwk_set_cache c with
      | Some cache => if refresh then None else cache_get cache (clock w)
      | None => None
      end in
    let fetched_or_cached :=
      match cached with
      | Some data => ret (data, c)
      | None => fetch_data E c
      end in
    (dc <- fetched_or_cached ;;
     lift (match jwk_set_from E (fst dc) with
           | Returns jwks => Returns (jwks, snd dc)
           | Raises e => Raises e
           end)) w.

Definition is_signing_key (k : PyJWK) : bool :=
  match public_key_use k with
  | Some use => String.eqb use "sig"
  | None => true
  end
  && match key_id k with
     | Some kid => negb (String.eqb kid "")
     | None => false
     end.

Definition get_signing_keys (E : Env) (c : PyJWKClient) (refresh : bool)
  : Py (list PyJWK * PyJWKClient) :=
  kc <- get_jwk_set E c refresh ;;
  match filter is_signing_key (fst kc) with
  | [] => lift (Jwt.fail PyJWKClientError)
  | signing_keys => ret (signing_keys, snd kc)
  end.

Definition has_kid (kid : option pyval) (k : PyJWK) : bool :=
  match kid, key_id k with
  | Some (PyStr s), Some id => String.eqb id s
  | _, _ => false
  end.

Definition match_kid (signing_keys : list PyJWK) (kid : option pyval)
  : option PyJWK :=
  find (has_kid kid) signing_keys.

(** Modelled from the spec: the key whose identifier is the one the token
    header declares; without one, the key set is fetched once more, and
    the lookup fails if there is still none. *)
Definition get_signing_key (E : Env) (c : PyJWKClient) (kid : option pyval)
  : Py (PyJWK * PyJWKClient) :=
  kc <- get_signing_keys E c false ;;
  match match_kid (fst kc) kid with
  | Some k => ret (k, snd kc)
  | None =>
      kc' <- get_signing_keys E (snd kc) true ;;
      match match_kid (fst kc') kid with
      | Some k => ret (k, snd kc')
      | None => lift (Jwt.fail PyJWKClientError)
      end
  end.

(** [client.get_signing_key_from_jwt(token)]: the header is read without
    verifying anything. *)
Definition get_signing_key_from_jwt (E : Env) (c : PyJWKClient) (token : string)
  : Py (PyJWK * PyJWKClient) :=
  j <- lift (Jwt.load E token) ;;
  _claims <- lift (Jwt.decode_payload E j) ;;
  get_signing_key E c (Dict.get "kid" (Jwt.header j)).

End Jwks.

(** [requests.get(url, verify=.., timeout=120)]: one network fetch. *)
Definition requests_get (E : Env) (url : string) (verify : option string)
  : Py Response :=
  fun w =>
    (http_get E w url verify,
     {| clock := clock w;
        discovery_fetches := url :: discovery_fetches w;
        keyset_fetches := keyset_fetches w |}).

(** [resp.json()] *)
Definition response_json (E : Env) (resp : Response) : outcome pyval :=
  match json_loads E (content resp) with
  | Some v => Returns v
  | None => Raises JSONDecodeError
  end.

(** ** The authorizer: [lambda_function.py] *)

(** The Lambda event: what the function reads of it. *)
Record Event : Type := {
  headers : list (string * string);   (* event["headers"].items(), in order *)
  methodArn : string                  (* event["methodArn"] *)
}.

Definition policy : Type := list (string * pyval).

(** [[A-Za-z0-9-_]]: after the range [0-9] the dash is a literal dash. *)
Definition token_char (c : ascii) : bool :=
  PyString.between 65 90 c || PyString.between 97 122 c
  || PyString.between 48 57 c || Ascii.eqb c "-" || Ascii.eqb c "_".

Definition segment : Re.regex := Re.Plus (Re.Cls token_char).

(** [r'(?:Bearer\s)?([A-Za-z0-9-_]+\.[A-Za-z0-9-_]+\.[A-Za-z0-9-_]+)'] *)
Definition pattern : Re.regex :=
  Re.Cat
    (Re.Opt (Re.NonCapturing (Re.word "Bearer" (Re.Cls Re.whitespace))))
    (Re.Group 1
       (Re.Cat segment
          (Re.Cat (Re.Lit ".")
             (Re.Cat segment
                (Re.Cat (Re.Lit ".") segment))))).

(** [{ k.lower(): v for k, v in event["headers"].items() }] *)
Definition normalize_headers (items : list (string * string))
  : list (string * string) :=
  fold_left (fun acc kv => Dict.set (PyString.lower (fst kv)) (snd kv) acc)
            items [].

(** [get_id_token(event)]. The result is [auth_token_match.group(1)], a
    [str], or [None] for a group that took no part in the match. *)
Definition get_id_token (event : Event) : outcome (option string) :=
  let normalized_headers := normalize_headers (headers event) in
  match Dict.get "authorization" normalized_headers with
  | Some value =>
      match Re.re_match pattern value with
      | Some auth_token_match => Returns (Re.group_of 1 auth_token_match)
      | None => Raises (ValueError "Invalid authorization header format.")
      end
  | None => Raises (ValueError "Missing authorization token.")
  end.

(** [generate_policy(effect=.., resource=.., username=..)] *)
Definition generate_policy (effect resource : string) (username : pyval) : policy :=
  [ ("principalId", username);
    ("policyDocument",
      PyDict [ ("Version", PyStr "2012-10-17");
               ("Statement",
                 PyList [ PyDict [ ("Action", PyStr "execute-api:Invoke");
                                   ("Effect", PyStr effect);
                                   ("Resource", PyStr resource) ] ]) ]) ].

(** The default of the parameter [username]. *)
Definition default_username : pyval := PyStr "username".

(** [cert_path or True], the [verify] argument: [None] stands for [True],
    the default trust store. *)
Definition cert_or_default (cert_path : option string) : option string :=
  match cert_path with
  | Some p => if String.eqb p "" then None else Some p
  | None => None
  end.

(** [id_token_is_valid(id_token=.., audience=.., authority=..)]: the decoded
    claims, or [False]. *)
Definition id_token_is_valid (E : Env) (id_token audience authority : string)
  : Py pyval :=
  if negb (has_crypto E) then ret (PyBool false)
  else
    let cert_path := getenv E "SSL_CERT_FILE" in
    resp <- requests_get E (authority ++ "/.well-known/openid-configuration")
                         (cert_or_default cert_path) ;;
    if negb (status_code resp =? 200)%Z then ret (PyBool false)
    else
      oidc_metadata <- lift (response_json E resp) ;;
      try_except_PyJWTError
        (lift (match cert_or_default cert_path with
               | Some p => load_verify_locations E p
               | None => Returns tt
               end) ;;;
         jwks_uri <- lift (getitem oidc_metadata "jwks_uri") ;;
         jwks_client <- lift (Jwks.new jwks_uri true 360) ;;
         signing_key <- Jwks.get_signing_key_from_jwt E jwks_client id_token ;;
         data <- Jwt.decode E id_token (key (fst signing_key)) ["RS256"]
                            authority audience ;;
         ret (PyDict data))
        (fun e => ret (PyBool false)).

(** [not id_token] *)
Definition no_token (id_token : option string) : bool :=
  match id_token with
  | Some t => String.eqb t ""
  | None => true
  end.

(** [lambda_handler(event, context)] *)
Definition lambda_handler (E : Env) (event : Event) : Py policy :=
  id_token <- lift (get_id_token event) ;;
  if no_token id_token then
    ret (generate_policy "Deny" (methodArn event) default_username)
  else
    let id_token := match id_token with Some t => t | None => "" end in
    let authority := environ_get E "AUTHORITY" "" in
    let audience := environ_get E "AUDIENCE" "" in
    jwt_data <- id_token_is_valid E id_token audience authority ;;
    if truthy jwt_data then
      username <- lift (getitem jwt_data "sub") ;;
      let policy := generate_policy "Allow" (methodArn event) username in
      username' <- lift (getitem jwt_data "sub") ;;
      ret (Dict.set "context" (PyDict [("username", username')]) policy)
    else
      ret (generate_policy "Deny" (methodArn event) default_username).

(** ** Reading the pattern without the engine

    What [re.match pattern] computes, written as a scanner: the longest run
    of token characters, a dot, the longest run, a dot, the longest run.
    The lemmas below show the engine and the scanner agree. *)

Module Scanner.

(** The longest prefix of [s] made of characters satisfying [p]. *)
Fixpoint run_of (p : ascii -> bool) (s : string) : string :=
  match s with
  | String c s' => if p c then String c (run_of p s') else EmptyString
  | EmptyString => EmptyString
  end.

(** What follows that prefix. *)
Fixpoint after_run (p : ascii -> bool) (s : string) : string :=
  match s with
  | String c s' => if p c then after_run p s' else s
  | EmptyString => EmptyString
  end.

Fixpoint all_of (p : ascii -> bool) (s : string) : bool :=
  match s with
  | String c s' => p c && all_of p s'
  | EmptyString => true
  end.

(** One or more [p], the longest first, then [k]. *)
Fixpoint greedy {A} (p : ascii -> bool) (k : string -> option A) (s : string)
  : option A :=
  match s with
  | String c s' => if p c then Re.or_else (greedy p k s') (k s') else None
  | EmptyString => None
  end.

(** [s] without the word [w] it starts with. *)
Fixpoint strip_word (w s : string) : option string :=
  match w with
  | EmptyString => Some s
  | String c w' =>
      match s with
      | String c' s' => if Ascii.eqb c' c then strip_word w' s' else None
      | EmptyString => None
      end
  end.

(** [s] without a leading [Bearer] and one white-space character. *)
Definition strip_bearer (s : string) : option string :=
  match strip_word "Bearer" s with
  | Some (String c s') => if Re.whitespace c then Some s' else None
  | _ => None
  end.

(** A run of token characters and the dot after it. *)
Definition segment_dot (s : string) : option (string * string) :=
  match run_of token_char s, after_run token_char s with
  | String c seg, String d rest =>
      if Ascii.eqb d "." then Some (String c seg, rest) else None
  | _, _ => None
  end.

(** The three-segment token [s] starts with, and what follows it. *)
Definition scan (s : string) : option (string * string) :=
  match segment_dot s with
  | Some (s1, r1) =>
      match segment_dot r1 with
      | Some (s2, r2) =>
          match run_of token_char r2 with
          | EmptyString => None
          | s3 => Some (s1 ++ "." ++ s2 ++ "." ++ s3, after_run token_char r2)
          end
      | None => None
      end
  | None => None
  end.

(** The token [re.match pattern] captures in [s]. *)
Definition token_of (s : string) : option string :=
  match strip_bearer s with
  | Some s' =>
      match scan s' with
      | Some (tok, _) => Some tok
      | None => option_map fst (scan s)
      end
  | None => option_map fst (scan s)
  end.

End Scanner.

(** ** The words of the claims *)

(** A segment of a token: one or more URL-safe base64 characters. *)
Definition is_segment (s : string) : Prop :=
  s <> "" /\ Scanner.all_of token_char s = true.

(** The header value begins with the token shape: an optional [Bearer] and
    white-space character, then three segments separated by dots. *)
Definition begins_with_token (value : string) : Prop :=
  exists pre s1 s2 s3 rest,
    (pre = "" \/ exists c, Re.whitespace c = true /\ pre = "Bearer" ++ String c "")
    /\ is_segment s1 /\ is_segment s2 /\ is_segment s3
    /\ value = pre ++ s1 ++ "." ++ s2 ++ "." ++ s3 ++ rest.

(** No header of the request is named [authorization], in any case. *)
Definition no_authorization_header (event : Event) : Prop :=
  forall k v, In (k, v) (headers event) -> PyString.lower k <> "authorization".

(** The value the function reads as the authorization header. *)
Definition authorization_value (event : Event) : option string :=
  Dict.get "authorization" (normalize_headers (headers event)).

Definition deny (event : Event) : policy :=
  generate_policy "Deny" (methodArn event) default_username.

(** The [Effect] of the first statement of a policy document. *)
Definition effect_of (p : policy) : option pyval :=
  match Dict.get "policyDocument" p with
  | Some (PyDict doc) =>
      match Dict.get "Statement" doc with
      | Some (PyList (PyDict st :: _)) => Dict.get "Effect" st
      | _ => None
      end
  | _ => None
  end.

Definition discovery_url (authority : string) : string :=
  authority ++ "/.well-known/openid-configuration".

Definition AUTHORITY (E : Env) : string := environ_get E "AUTHORITY" "".
Definition AUDIENCE (E : Env) : string := environ_get E "AUDIENCE" "".

(** The [verify] argument the function passes to [requests.get]. *)
Definition verify_arg (E : Env) : option string :=
  cert_or_default (getenv E "SSL_CERT_FILE").

(** The world once the discovery document has been fetched. *)
Definition after_discovery (E : Env) (w : World) : World :=
  snd (requests_get E (discovery_url (AUTHORITY E)) (verify_arg E) w).

(** The custom CA bundle, if one is configured, loads. *)
Definition trust_store_ok (E : Env) : Prop :=
  match verify_arg E with
  | Some p => load_verify_locations E p = Returns tt
  | None => True
  end.

(** The discovery endpoint answers 200 with a JSON object whose [jwks_uri]
    is [uri]. *)
Definition discovery_ok (E : Env) (w : World) (uri : pyval) : Prop :=
  exists resp meta,
    http_get E w (discovery_url (AUTHORITY E)) (verify_arg E) = Returns resp
    /\ status_code resp = 200%Z
    /\ json_loads E (content resp) = Some meta
    /\ getitem meta "jwks_uri" = Returns uri.

(** The key set at [uri] holds the signing key [k] under the key identifier
    the header of the token declares. *)
Definition key_in_set (E : Env) (w : World) (uri : pyval) (j : Jwt.JWS) (k : PyJWK)
  : Prop :=
  exists data jwks,
    urlopen_json E w uri = Fetched data
    /\ Jwks.jwk_set_from E data = Returns jwks
    /\ Jwks.match_kid (filter Jwks.is_signing_key jwks)
                      (Dict.get "kid" (Jwt.header j)) = Some k.

(** The header declares RS256 and the signature verifies under [k]. *)
Definition signature_verifies (E : Env) (j : Jwt.JWS) (k : PyJWK) : Prop :=
  Jwt.declared_alg j = Some (PyStr "RS256")
  /\ sig_verify E "RS256" (key k) (Jwt.signing_input j) (Jwt.signature j)
     = Returns true.

(** The payload is the claim set [claims], and its [iss], [aud], [exp],
    [nbf] and [iat] are valid at the time [now]. *)
Definition claims_valid (E : Env) (now : Z) (j : Jwt.JWS)
           (claims : list (string * pyval)) : Prop :=
  Jwt.decode_payload E j = Returns claims
  /\ Jwt.validate_claims E now claims (AUTHORITY E) (AUDIENCE E) = Returns tt.

(** The decision the claims describe for an allowed request. *)
Definition allow (event : Event) (sub : pyval) : policy :=
  [ ("principalId", sub);
    ("policyDocument",
      PyDict [ ("Version", PyStr "2012-10-17");
               ("Statement",
                 PyList [ PyDict [ ("Action", PyStr "execute-api:Invoke");
                                   ("Effect", PyStr "Allow");
                                   ("Resource", PyStr (methodArn event)) ] ]) ]);
    ("context", PyDict [ ("username", sub) ]) ].

(** Two validations of the same token, the second [dt] time units after the
    first; the world after both. *)
Definition advance (dt : Z) (w : World) : World :=
  {| clock := clock w + dt;
     discovery_fetches := discovery_fetches w;
     keyset_fetches := keyset_fetches w |}.

Definition validate_twice (E : Env) (id_token : string) (dt : Z) (w : World) : World :=
  let w1 := snd (id_token_is_valid E id_token (AUDIENCE E) (AUTHORITY E) w) in
  snd (id_token_is_valid E id_token (AUDIENCE E) (AUTHORITY E) (advance dt w1)).

(** The [try] statement of [id_token_is_valid], as a function of the parsed
    discovery document: the block and its handler. *)
Definition protected_block (E : Env) (id_token audience authority : string)
           (oidc_metadata : pyval) : Py pyval :=
  try_except_PyJWTError
    (lift (match verify_arg E with
           | Some p => load_verify_locations E p
           | None => Returns tt
           end) ;;;
     jwks_uri <- lift (getitem oidc_metadata "jwks_uri") ;;
     jwks_client <- lift (Jwks.new jwks_uri true 360) ;;
     signing_key <- Jwks.get_signing_key_from_jwt E jwks_client id_token ;;
     data <- Jwt.decode E id_token (key (fst signing_key)) ["RS256"]
                        authority audience ;;
     ret (PyDict data))
    (fun e => ret (PyBool false)).

(** The world once [url] has been fetched with [requests.get]. *)
Definition fetched_discovery (url : string) (w : World) : World :=
  {| clock := clock w;
     discovery_fetches := url :: discovery_fetches w;
     keyset_fetches := keyset_fetches w |}.

(** The key-set fetch raises nothing but what the client turns into a
    [PyJWTError]: the fetch itself fails with connection errors only, and
    every key of a set is built or skipped. *)
Definition keyset_fetch_clean (E : Env) : Prop :=
  (forall w u e, urlopen_json E w u <> FetchFault e)
  /\ (forall v e, jwk_of E v <> BuildFault e).

(** [m] changes neither the clock nor the log of discovery fetches. *)
Definition frames {A} (m : Py A) : Prop :=
  forall w, clock (snd (m w)) = clock w
            /\ discovery_fetches (snd (m w)) = discovery_fetches w.

(** [m] raises nothing but [PyJWTError]s. *)
Definition jwt_only {A} (m : Py A) : Prop :=
  forall w e, fst (m w) = Raises e -> exists je, e = PyJWTError je.

(** ** A small deployment to run the function on

    An identity provider at [https://idp] whose key set holds one RSA key,
    [k1]; segments are their own base64url decoding, and the JSON documents
    are the few the scenarios need. *)

Module Scenario.

Definition json_table (s : string) : option pyval :=
  if String.eqb s "meta" then
    Some (PyDict [("jwks_uri", PyStr "https://idp/keys")])
  else if String.eqb s "nokeys" then
    Some (PyDict [("issuer", PyStr "https://idp")])
  else if String.eqb s "hdr" then
    Some (PyDict [("alg", PyStr "RS256"); ("kid", PyStr "k1")])
  else if String.eqb s "hs" then
    Some (PyDict [("alg", PyStr "HS256"); ("kid", PyStr "k1")])
  else if String.eqb s "pay" then
    Some (PyDict [("sub", PyStr "user-123"); ("iss", PyStr "https://idp");
                  ("aud", PyStr "api"); ("exp", PyInt 1000);
                  ("nbf", PyInt 0); ("iat", PyInt 0)])
  else if String.eqb s "nosub" then
    Some (PyDict [("iss", PyStr "https://idp"); ("aud", PyStr "api");
                  ("exp", PyInt 1000)])
  else None.

(** The discovery endpoint answers [status] with the body [body]; every
    signature ["sig"] verifies under the key of [k1], whatever algorithm
    is asked for. *)
Definition env (status : Z) (body : string) : Env :=
  {| has_crypto := true;
     environ := [("AUTHORITY", "https://idp"); ("AUDIENCE", "api")];
     http_get := fun _ _ _ => Returns {| status_code := status; content := body |};
     json_loads := json_table;
     load_verify_locations := fun _ => Returns tt;
     urlopen_json := fun _ _ => Fetched (PyDict [("keys", PyList [PyStr "k1"])]);
     base64url_decode := fun s => Some s;
     jwk_of := fun v =>
                 match v with
                 | PyStr k => Built {| key_id := Some k;
                                       public_key_use := Some "sig";
                                       key := "pub-" ++ k |}
                 | _ => Unusable
                 end;
     int_of_str := fun _ => None;
     sig_verify := fun _ k _ sg =>
                     Returns (String.eqb k "pub-k1" && String.eqb sg "sig") |}.

Definition w0 : World :=
  {| clock := 10; discovery_fetches := []; keyset_fetches := [] |}.

(** A request whose only header is [Authorization: h]. *)
Definition request (h : string) : Event :=
  {| headers := [("Authorization", h)];
     methodArn := "arn:aws:execute-api:eu-west-1:1:api/GET/resource" |}.

(** A request without an authorization header. *)
Definition anonymous : Event :=
  {| headers := [("Host", "example.org")];
     methodArn := "arn:aws:execute-api:eu-west-1:1:api/GET/resource" |}.

Definition k1 : PyJWK :=
  {| key_id := Some "k1"; public_key_use := Some "sig"; key := "pub-k1" |}.

Definition jws (hdr pay : string) (h : list (string * pyval)) : Jwt.JWS :=
  {| Jwt.header := h;
     Jwt.payload := pay;
     Jwt.signing_input := hdr ++ "." ++ pay;
     Jwt.signature := "sig" |}.

End Scenario.

(** ** More words, and more deployments, for the properties of the code *)

(** The [Version] and the statements of the policy document of a decision. *)
Definition version_of (p : policy) : option pyval :=
  match Dict.get "policyDocument" p with
  | Some (PyDict doc) => Dict.get "Version" doc
  | _ => None
  end.

Definition statements_of (p : policy) : option (list pyval) :=
  match Dict.get "policyDocument" p with
  | Some (PyDict doc) =>
      match Dict.get "Statement" doc with
      | Some (PyList l) => Some l
      | _ => None
      end
  | _ => None
  end.

(** The one statement the function writes. *)
Definition invoke_statement (effect resource : string) : pyval :=
  PyDict [ ("Action", PyStr "execute-api:Invoke");
           ("Effect", PyStr effect);
           ("Resource", PyStr resource) ].

(** The claim [name], when present, is a value [int()] converts or rejects
    with a [ValueError]: an integer, a boolean, a string, a finite float or
    NaN; not [None], a list, an object or an infinite float. *)
Definition int_like (name : string) (claims : list (string * pyval)) : Prop :=
  match Dict.get name claims with
  | Some PyNone | Some (PyList _) | Some (PyDict _)
  | Some (PyFloat (Infinity _)) => False
  | _ => True
  end.

(** The client the function builds for the key set at [uri]. *)
Definition fresh_client (uri : pyval) : Jwks.PyJWKClient :=
  {| Jwks.uri := uri;
     Jwks.jwk_set_cache :=
       Some {| Jwks.lifespan := 360; Jwks.jwk_set_with_timestamp := None |} |}.

(** The key set at [uri] is served, the same at every fetch, and holds the
    signing keys [keys]. *)
Definition key_set_is (E : Env) (uri : pyval) (keys : list PyJWK) : Prop :=
  exists data jwks,
    (forall w, urlopen_json E w uri = Fetched data)
    /\ Jwks.jwk_set_from E data = Returns jwks
    /\ filter Jwks.is_signing_key jwks = keys.

(** [k] is a signing key of a key set fetched from [uri], under the key
    identifier [kid]. *)
Definition fetched_key (E : Env) (uri : pyval) (kid : option pyval) (k : PyJWK)
  : Prop :=
  exists w data jwks,
    urlopen_json E w uri = Fetched data
    /\ Jwks.jwk_set_from E data = Returns jwks
    /\ In k jwks
    /\ Jwks.is_signing_key k = true
    /\ Jwks.has_kid kid k = true.

Module Cases.

(** The documents of [Scenario] and a few more tokens: an expired one, one
    for another audience, one of another issuer, one signed with a key the
    key set does not hold, one whose [iat] is [null]. *)
Definition json_table (s : string) : option pyval :=
  if String.eqb s "nulliat" then
    Some (PyDict [("sub", PyStr "user-123"); ("iss", PyStr "https://idp");
                  ("aud", PyStr "api"); ("exp", PyInt 1000); ("iat", PyNone)])
  else if String.eqb s "old" then
    Some (PyDict [("sub", PyStr "user-123"); ("iss", PyStr "https://idp");
                  ("aud", PyStr "api"); ("exp", PyInt 5)])
  else if String.eqb s "other" then
    Some (PyDict [("sub", PyStr "user-123"); ("iss", PyStr "https://idp");
                  ("aud", PyStr "billing"); ("exp", PyInt 1000)])
  else if String.eqb s "rogue" then
    Some (PyDict [("sub", PyStr "user-123"); ("iss", PyStr "https://rogue");
                  ("aud", PyStr "api"); ("exp", PyInt 1000)])
  else if String.eqb s "hdr2" then
    Some (PyDict [("alg", PyStr "RS256"); ("kid", PyStr "k2")])
  else Scenario.json_table s.

(** The deployment of [Scenario], with the crypto support, the environment
    variables, the discovery endpoint and the trust store as given. *)
Definition make (crypto : bool) (vars : list (string * string))
           (http : outcome Response) (load : outcome unit) : Env :=
  {| has_crypto := crypto;
     environ := vars;
     http_get := fun _ _ _ => http;
     json_loads := json_table;
     load_verify_locations := fun _ => load;
     urlopen_json := urlopen_json (Scenario.env 200 "meta");
     base64url_decode := base64url_decode (Scenario.env 200 "meta");
     jwk_of := jwk_of (Scenario.env 200 "meta");
     int_of_str := int_of_str (Scenario.env 200 "meta");
     sig_verify := sig_verify (Scenario.env 200 "meta") |}.

Definition vars : list (string * string) :=
  [("AUTHORITY", "https://idp"); ("AUDIENCE", "api")].

Definition ok : outcome Response :=
  Returns {| status_code := 200; content := "meta" |}.

(** Everything in order. *)
Definition env : Env := make true vars ok (Returns tt).

(** PyJWT without the cryptography package. *)
Definition no_crypto : Env := make false vars ok (Returns tt).

(** The discovery endpoint cannot be reached. *)
Definition offline : Env := make true vars (Raises RequestException) (Returns tt).

(** A CA bundle is configured and cannot be loaded. *)
Definition bad_bundle : Env :=
  make true (("SSL_CERT_FILE", "/opt/ca.pem") :: vars) ok (Raises OSError).

End Cases.

(** The request carries the token [tok], the discovery document of the
    authority is in, the trust store is in order, and the key set the
    document points to holds the signing key [k] of the token. *)
Definition key_resolved (E : Env) (event : Event) (w : World) (tok : string)
           (j : Jwt.JWS) (k : PyJWK) : Prop :=
  get_id_token event = Returns (Some tok)
  /\ has_crypto E = true
  /\ trust_store_ok E
  /\ Jwt.load E tok = Returns j
  /\ exists uri, discovery_ok E w uri
                 /\ key_in_set E (after_discovery E w) uri j k.


(** The token [tok] is verified at the world [w], with the claim set
    [claims]: crypto support is there, the discovery document is in, the
    header of the token declares RS256 and names a signing key of a key set
    fetched from the URI of the document, the signature verifies under that
    key, and the claims validate at the time of [w]. *)
Definition verified (E : Env) (w : World) (tok : string)
           (claims : list (string * pyval)) : Prop :=
  has_crypto E = true
  /\ exists uri j k,
       discovery_ok E w uri
       /\ Jwt.load E tok = Returns j
       /\ fetched_key E uri (Dict.get "kid" (Jwt.header j)) k
       /\ signature_verifies E j k
       /\ claims_valid E (clock w) j claims.


(** * Properties *)

(** ** Strings and dictionaries *)

Lemma dict_get_set {V} (k k' : string) (v : V) (d : list (string * V)) :
  Dict.get k (Dict.set k' v d)
  = if String.eqb k' k then Some v else Dict.get k d.
Proof.
  induction d as [|[k0 v0] d IH]; simpl.
  - destruct (String.eqb k' k); reflexivity.
  - destruct (String.eqb k0 k') eqn:E0; simpl.
    + apply String.eqb_eq in E0; subst k0.
      destruct (String.eqb k' k); reflexivity.
    + destruct (String.eqb k0 k) eqn:E1.
      * apply String.eqb_eq in E1; subst k0.
        rewrite String.eqb_sym, E0. reflexivity.
      * exact IH.
Qed.

Lemma normalize_from_none (items acc : list (string * string)) (name : string) :
  Dict.get name acc = None ->
  (forall k v, In (k, v) items -> PyString.lower k <> name) ->
  Dict.get name
    (fold_left (fun a kv => Dict.set (PyString.lower (fst kv)) (snd kv) a) items acc)
  = None.
Proof.
  revert acc. induction items as [|[k v] items IH]; intros acc Hacc Hno; simpl.
  - exact Hacc.
  - apply IH.
    + rewrite dict_get_set. simpl.
      destruct (String.eqb (PyString.lower k) name) eqn:Ek.
      * apply String.eqb_eq in Ek. exfalso. apply (Hno k v); [left; reflexivity | exact Ek].
      * exact Hacc.
    + intros k' v' Hin. apply (Hno k' v'). right. exact Hin.
Qed.

Lemma no_header_no_value (event : Event) :
  no_authorization_header event -> authorization_value event = None.
Proof.
  intro H. unfold authorization_value, normalize_headers.
  apply normalize_from_none; [reflexivity | exact H].
Qed.

Lemma run_after (p : ascii -> bool) (s : string) :
  s = Scanner.run_of p s ++ Scanner.after_run p s.
Proof.
  induction s as [|c s IH]; simpl; [reflexivity|].
  destruct (p c); simpl; [f_equal; exact IH | reflexivity].
Qed.

Lemma run_of_all (p : ascii -> bool) (s : string) :
  Scanner.all_of p (Scanner.run_of p s) = true.
Proof.
  induction s as [|c s IH]; simpl; [reflexivity|].
  destruct (p c) eqn:E; simpl; [rewrite E; exact IH | reflexivity].
Qed.

Lemma run_of_app (p : ascii -> bool) (a b : string) :
  Scanner.all_of p a = true ->
  Scanner.run_of p (a ++ b) = a ++ Scanner.run_of p b.
Proof.
  induction a as [|c a IH]; simpl; intro H; [reflexivity|].
  apply andb_prop in H. destruct H as [Hc Ha].
  rewrite Hc. f_equal. apply IH. exact Ha.
Qed.

Lemma after_run_app (p : ascii -> bool) (a b : string) :
  Scanner.all_of p a = true ->
  Scanner.after_run p (a ++ b) = Scanner.after_run p b.
Proof.
  induction a as [|c a IH]; simpl; intro H; [reflexivity|].
  apply andb_prop in H. destruct H as [Hc Ha].
  rewrite Hc. apply IH. exact Ha.
Qed.

Lemma append_assoc (a b c : string) : (a ++ b) ++ c = a ++ (b ++ c).
Proof. induction a as [|x a IH]; simpl; [reflexivity | f_equal; exact IH]. Qed.

Lemma length_append (a b : string) :
  String.length (a ++ b) = String.length a + String.length b.
Proof. induction a as [|x a IH]; simpl; [reflexivity | f_equal; exact IH]. Qed.

Lemma substring_prefix (a b : string) :
  substring 0 (String.length a) (a ++ b) = a.
Proof.
  induction a as [|x a IH]; simpl.
  - destruct b; reflexivity.
  - f_equal. exact IH.
Qed.

Lemma consumed_app (a b : string) : PyString.consumed (a ++ b) b = a.
Proof.
  unfold PyString.consumed. rewrite length_append.
  replace (String.length a + String.length b - String.length b)
    with (String.length a) by lia.
  apply substring_prefix.
Qed.

(** ** The engine on the pattern *)

Lemma or_else_none {A} (x : option A) : Re.or_else x None = x.
Proof. destruct x; reflexivity. Qed.

Lemma plus_class_loop {A} (p : ascii -> bool) (k : string -> Re.captures -> option A)
      (caps : Re.captures) :
  forall fuel s, String.length s < fuel ->
    (fix loop (fuel : nat) (s0 : string) (caps0 : Re.captures) : option A :=
       match fuel with
       | O => None
       | S fuel' =>
           Re.run (Re.Cls p) s0 caps0
                  (fun s1 caps1 => Re.or_else (loop fuel' s1 caps1) (k s1 caps1))
       end) fuel s caps
    = Scanner.greedy p (fun s' => k s' caps) s.
Proof.
  induction fuel as [|fuel IH]; intros s Hlen; [lia|].
  destruct s as [|c s]; simpl; [reflexivity|].
  destruct (p c); [|reflexivity].
  simpl in Hlen. f_equal. apply IH. lia.
Qed.

Lemma run_segment {A} (s : string) (caps : Re.captures)
      (k : string -> Re.captures -> option A) :
  Re.run segment s caps k = Scanner.greedy token_char (fun s' => k s' caps) s.
Proof.
  exact (plus_class_loop token_char k caps (S (String.length s)) s
                         (Nat.lt_succ_diag_r _)).
Qed.

(** The continuation cannot go on after a character of the class: the run
    taken is the longest one. *)
Lemma greedy_longest_or_fail {A} (p : ascii -> bool) (k : string -> option A) :
  (forall c s', p c = true -> k (String c s') = None) ->
  forall s,
    Scanner.greedy p k s
    = match Scanner.run_of p s with
      | EmptyString => None
      | _ => k (Scanner.after_run p s)
      end.
Proof.
  intros Hk. induction s as [|c s IH]; simpl; [reflexivity|].
  destruct (p c) eqn:Ec; [|reflexivity].
  rewrite IH. destruct s as [|d s]; simpl; [reflexivity|].
  destruct (p d) eqn:Ed; simpl.
  - rewrite (Hk d s Ed). apply or_else_none.
  - reflexivity.
Qed.

(** The continuation always goes on: the run taken is the longest one. *)
Lemma greedy_longest {A} (p : ascii -> bool) (k : string -> option A) :
  (forall s', k s' <> None) ->
  forall s,
    Scanner.greedy p k s
    = match Scanner.run_of p s with
      | EmptyString => None
      | _ => k (Scanner.after_run p s)
      end.
Proof.
  intros Hk. induction s as [|c s IH]; simpl; [reflexivity|].
  destruct (p c) eqn:Ec; [|reflexivity].
  rewrite IH. destruct s as [|d s]; simpl; [reflexivity|].
  destruct (p d) eqn:Ed; simpl; [|reflexivity].
  destruct (k (Scanner.after_run p s)) eqn:Ek; [reflexivity|].
  exfalso. exact (Hk _ Ek).
Qed.

Lemma run_word {A} (w : string) (tail : Re.regex) :
  forall s caps (k : string -> Re.captures -> option A),
    Re.run (Re.word w tail) s caps k
    = match Scanner.strip_word w s with
      | Some s' => Re.run tail s' caps k
      | None => None
      end.
Proof.
  induction w as [|c w IH]; intros s caps k; simpl; [reflexivity|].
  destruct s as [|c' s]; [reflexivity|].
  destruct (Ascii.eqb c' c); [apply IH | reflexivity].
Qed.

Lemma token_char_not_dot (c : ascii) :
  token_char c = true -> Ascii.eqb c "." = false.
Proof.
  intro H. destruct (Ascii.eqb c ".") eqn:E; [|reflexivity].
  apply Ascii.eqb_eq in E. subst c. discriminate H.
Qed.

Lemma token_char_not_space (c : ascii) :
  token_char c = true -> Re.whitespace c = false.
Proof.
  destruct c as [[] [] [] [] [] [] [] []]; vm_compute; congruence.
Qed.

Lemma segment_dot_spec (s a r : string) :
  Scanner.segment_dot s = Some (a, r) ->
  s = a ++ String "." r /\ is_segment a.
Proof.
  unfold Scanner.segment_dot. intro H.
  pose proof (run_after token_char s) as Hs.
  pose proof (run_of_all token_char s) as Hall.
  destruct (Scanner.run_of token_char s) as [|c seg]; [discriminate|].
  destruct (Scanner.after_run token_char s) as [|d rest]; [discriminate|].
  destruct (Ascii.eqb d ".") eqn:Ed; [|discriminate].
  apply Ascii.eqb_eq in Ed. subst d. inversion H; subst a r.
  split; [exact Hs | split; [discriminate | exact Hall]].
Qed.

Lemma segment_dot_app (a r : string) :
  is_segment a -> Scanner.segment_dot (a ++ String "." r) = Some (a, r).
Proof.
  intros [Hne Hall]. unfold Scanner.segment_dot.
  rewrite (run_of_app token_char a _ Hall), (after_run_app token_char a _ Hall).
  simpl. destruct a as [|c a]; [contradiction|]. simpl.
  assert (Ha : a ++ "" = a).
  { clear. induction a as [|x a IH]; simpl; [reflexivity | f_equal; exact IH]. }
  rewrite Ha. reflexivity.
Qed.

Lemma segment_then_dot {A} (r : Re.regex) (s : string) (caps : Re.captures)
      (k : string -> Re.captures -> option A) :
  Re.run (Re.Cat segment (Re.Cat (Re.Lit ".") r)) s caps k
  = match Scanner.segment_dot s with
    | Some (_, rest) => Re.run r rest caps k
    | None => None
    end.
Proof.
  change (Re.run (Re.Cat segment (Re.Cat (Re.Lit ".") r)) s caps k)
    with (Re.run segment s caps
                 (fun s1 caps1 => Re.run (Re.Cat (Re.Lit ".") r) s1 caps1 k)).
  rewrite run_segment, greedy_longest_or_fail.
  - unfold Scanner.segment_dot.
    destruct (Scanner.run_of token_char s) as [|c seg]; [reflexivity|].
    destruct (Scanner.after_run token_char s) as [|d rest]; [reflexivity|].
    simpl. destruct (Ascii.eqb d "."); reflexivity.
  - intros c s' Hc. simpl. rewrite (token_char_not_dot c Hc). reflexivity.
Qed.

Lemma scan_spec (s tok r : string) :
  Scanner.scan s = Some (tok, r) ->
  s = tok ++ r
  /\ exists s1 s2 s3,
       is_segment s1 /\ is_segment s2 /\ is_segment s3
       /\ tok = s1 ++ "." ++ s2 ++ "." ++ s3.
Proof.
  unfold Scanner.scan. intro H.
  destruct (Scanner.segment_dot s) as [[s1 r1]|] eqn:E1; [|discriminate].
  destruct (Scanner.segment_dot r1) as [[s2 r2]|] eqn:E2; [|discriminate].
  apply segment_dot_spec in E1. destruct E1 as [Hs H1].
  apply segment_dot_spec in E2. destruct E2 as [Hr1 H2].
  pose proof (run_after token_char r2) as Hr2.
  pose proof (run_of_all token_char r2) as Hall.
  destruct (Scanner.run_of token_char r2) as [|c s3] eqn:E3; [discriminate|].
  inversion H; subst tok r. split.
  - rewrite Hs, Hr1, Hr2 at 1.
    repeat (rewrite ?append_assoc; simpl). reflexivity.
  - exists s1, s2, (String c s3).
    split; [exact H1 | split; [exact H2 | split; [|reflexivity]]].
    split; [discriminate | exact Hall].
Qed.

Lemma token_body {A} (s : string) (caps : Re.captures)
      (k : string -> Re.captures -> option A) :
  (forall s' caps', k s' caps' <> None) ->
  Re.run (Re.Cat segment
            (Re.Cat (Re.Lit ".")
               (Re.Cat segment
                  (Re.Cat (Re.Lit ".") segment)))) s caps k
  = match Scanner.scan s with
    | Some (_, rest) => k rest caps
    | None => None
    end.
Proof.
  intro Hk. rewrite segment_then_dot. unfold Scanner.scan.
  destruct (Scanner.segment_dot s) as [[s1 r1]|]; [|reflexivity].
  rewrite segment_then_dot.
  destruct (Scanner.segment_dot r1) as [[s2 r2]|]; [|reflexivity].
  rewrite run_segment, greedy_longest.
  - destruct (Scanner.run_of token_char r2); reflexivity.
  - intros s'. apply Hk.
Qed.

(** [re.match(pattern, s)] captures, as group 1, the token the scanner
    reads. *)
Lemma re_match_pattern (s : string) :
  Re.re_match pattern s
  = option_map (fun tok => [(1, tok)]) (Scanner.token_of s).
Proof.
  assert (G : forall x,
    Re.run (Re.Group 1
              (Re.Cat segment
                 (Re.Cat (Re.Lit ".")
                    (Re.Cat segment (Re.Cat (Re.Lit ".") segment)))))
           x [] (fun _ caps => Some caps)
    = option_map (fun tr => [(1, fst tr)]) (Scanner.scan x)).
  { intro x.
    change (Re.run (Re.Group 1 ?body) x [] ?k)
      with (Re.run body x [] (fun s1 caps1 => k s1 ((1, PyString.consumed x s1) :: caps1))).
    rewrite token_body by (intros; discriminate).
    destruct (Scanner.scan x) as [[tok r]|] eqn:E; [|reflexivity].
    apply scan_spec in E. destruct E as [Hx _]. subst x.
    simpl. rewrite consumed_app. reflexivity. }
  unfold Re.re_match, pattern.
  change (Re.run (Re.Cat (Re.Opt (Re.NonCapturing ?b)) ?g) s [] ?k)
    with (Re.or_else (Re.run b s [] (fun s1 caps1 => Re.run g s1 caps1 k))
                     (Re.run g s [] k)).
  rewrite run_word, G. unfold Scanner.token_of, Scanner.strip_bearer.
  destruct (Scanner.strip_word "Bearer" s) as [[|c s']|];
    try (simpl; destruct (Scanner.scan s) as [[? ?]|]; reflexivity).
  change (Re.run (Re.Cls Re.whitespace) (String c s') [] ?k)
    with (if Re.whitespace c then k s' [] else None).
  destruct (Re.whitespace c).
  - rewrite G. destruct (Scanner.scan s') as [[? ?]|]; simpl;
      [reflexivity | destruct (Scanner.scan s) as [[? ?]|]; reflexivity].
  - simpl. destruct (Scanner.scan s) as [[? ?]|]; reflexivity.
Qed.

(** ** Token extraction *)

Lemma strip_word_spec (w s s' : string) :
  Scanner.strip_word w s = Some s' -> s = w ++ s'.
Proof.
  revert s. induction w as [|c w IH]; intros s H; simpl in *.
  - congruence.
  - destruct s as [|c' s]; [discriminate|].
    destruct (Ascii.eqb c' c) eqn:E; [|discriminate].
    apply Ascii.eqb_eq in E. subst c'. f_equal. apply IH. exact H.
Qed.

Lemma strip_bearer_spec (s s' : string) :
  Scanner.strip_bearer s = Some s' ->
  exists c, Re.whitespace c = true /\ s = "Bearer" ++ String c s'.
Proof.
  unfold Scanner.strip_bearer. intro H.
  destruct (Scanner.strip_word "Bearer" s) as [[|c t]|] eqn:E; try discriminate.
  destruct (Re.whitespace c) eqn:Ec; [|discriminate].
  inversion H; subst t. exists c. split; [exact Ec|].
  apply strip_word_spec. exact E.
Qed.

Lemma strip_bearer_segment (s1 x : string) :
  is_segment s1 -> Scanner.strip_bearer (s1 ++ String "." x) = None.
Proof.
  intros [_ Hall].
  destruct (Scanner.strip_bearer (s1 ++ String "." x)) as [s'|] eqn:E; [|reflexivity].
  exfalso. apply strip_bearer_spec in E. destruct E as [c [Hc Heq]].
  assert (Hrun : Scanner.run_of token_char (s1 ++ String "." x)
                 = Scanner.run_of token_char ("Bearer" ++ String c s'))
    by (rewrite Heq; reflexivity).
  assert (Hafter : Scanner.after_run token_char (s1 ++ String "." x)
                   = Scanner.after_run token_char ("Bearer" ++ String c s'))
    by (rewrite Heq; reflexivity).
  rewrite (after_run_app token_char s1 _ Hall) in Hafter.
  assert (Hnt : token_char c = false).
  { destruct (token_char c) eqn:T; [|reflexivity].
    rewrite (token_char_not_space c T) in Hc. discriminate. }
  simpl in Hafter. rewrite Hnt in Hafter.
  inversion Hafter; subst c. discriminate Hc.
Qed.

Lemma scan_three_segments (s1 s2 s3 rest : string) :
  is_segment s1 -> is_segment s2 -> is_segment s3 ->
  Scanner.scan (s1 ++ "." ++ s2 ++ "." ++ s3 ++ rest)
  = Some (s1 ++ "." ++ s2 ++ "." ++ s3 ++ Scanner.run_of token_char rest,
          Scanner.after_run token_char rest).
Proof.
  intros H1 H2 [Hne3 Hall3]. unfold Scanner.scan. simpl.
  rewrite (segment_dot_app s1 _ H1), (segment_dot_app s2 _ H2).
  rewrite (run_of_app token_char s3 rest Hall3),
          (after_run_app token_char s3 rest Hall3).
  destruct s3 as [|c s3]; [contradiction | reflexivity].
Qed.

Lemma token_of_spec (value tok : string) :
  Scanner.token_of value = Some tok ->
  tok <> "" /\ begins_with_token value.
Proof.
  assert (Hne : forall s t r, Scanner.scan s = Some (t, r) -> t <> "").
  { intros s t r H. apply scan_spec in H.
    destruct H as [_ [s1 [s2 [s3 [[Hn _] [_ [_ Ht]]]]]]]. subst t.
    destruct s1; [contradiction | discriminate]. }
  assert (Hshape : forall pre s t r,
             (pre = "" \/ exists c, Re.whitespace c = true
                                    /\ pre = "Bearer" ++ String c "") ->
             Scanner.scan s = Some (t, r) -> begins_with_token (pre ++ s)).
  { intros pre s t r Hpre H. apply scan_spec in H.
    destruct H as [Hs [s1 [s2 [s3 [H1 [H2 [H3 Ht]]]]]]].
    exists pre, s1, s2, s3, r. repeat (split; [assumption|]).
    f_equal. rewrite Hs, Ht. simpl.
    repeat (rewrite ?append_assoc; simpl). reflexivity. }
  unfold Scanner.token_of. intro H.
  destruct (Scanner.strip_bearer value) as [s'|] eqn:Eb.
  - destruct (Scanner.scan s') as [[t r]|] eqn:Es.
    + inversion H; subst t. split; [exact (Hne _ _ _ Es)|].
      apply strip_bearer_spec in Eb. destruct Eb as [c [Hc Hv]]. subst value.
      apply (Hshape ("Bearer" ++ String c "") s' tok r); [|exact Es].
      right. exists c. split; [exact Hc | reflexivity].
    + destruct (Scanner.scan value) as [[t r]|] eqn:Ev; [|discriminate].
      inversion H; subst t. split; [exact (Hne _ _ _ Ev)|].
      apply (Hshape "" value tok r); [left; reflexivity | exact Ev].
  - destruct (Scanner.scan value) as [[t r]|] eqn:Ev; [|discriminate].
    inversion H; subst t. split; [exact (Hne _ _ _ Ev)|].
    apply (Hshape "" value tok r); [left; reflexivity | exact Ev].
Qed.

(** What [get_id_token] does, by cases on the header it reads. *)
Lemma get_id_token_cases (event : Event) :
  get_id_token event
  = match authorization_value event with
    | None => Raises (ValueError "Missing authorization token.")
    | Some value =>
        match Scanner.token_of value with
        | Some tok => Returns (Some tok)
        | None => Raises (ValueError "Invalid authorization header format.")
        end
    end.
Proof.
  unfold get_id_token, authorization_value.
  destruct (Dict.get "authorization" (normalize_headers (headers event)))
    as [value|]; [|reflexivity].
  rewrite re_match_pattern.
  destruct (Scanner.token_of value); reflexivity.
Qed.

(** A returned token is a non-empty string: [not id_token] is never true
    in the handler. *)
Lemma get_id_token_returns (event : Event) (t : option string) :
  get_id_token event = Returns t ->
  exists tok, t = Some tok /\ tok <> "" /\ no_token t = false.
Proof.
  rewrite get_id_token_cases.
  destruct (authorization_value event) as [value|]; [|discriminate].
  destruct (Scanner.token_of value) as [tok|] eqn:E; [|discriminate].
  intro H. inversion H; subst t. apply token_of_spec in E.
  exists tok. split; [reflexivity | split; [tauto|]].
  simpl. destruct E as [Hne _].
  destruct (String.eqb tok "") eqn:Eq; [|reflexivity].
  apply String.eqb_eq in Eq. contradiction.
Qed.

(** An exception of [get_id_token] leaves the handler as it is: the handler
    has no [try]. *)
Lemma lambda_handler_extraction_fault (E : Env) (event : Event) (w : World) (e : exn) :
  get_id_token event = Raises e ->
  lambda_handler E event w = (Raises e, w).
Proof.
  intro H. unfold lambda_handler, bind, lift. rewrite H. reflexivity.
Qed.

(** ** The handler, once a token is extracted *)

Lemma allow_is_generated (event : Event) (sub : pyval) :
  Dict.set "context" (PyDict [("username", sub)])
           (generate_policy "Allow" (methodArn event) sub)
  = allow event sub.
Proof. reflexivity. Qed.

Lemma lambda_handler_with_token (E : Env) (event : Event) (w : World) (tok : string) :
  get_id_token event = Returns (Some tok) ->
  lambda_handler E event w
  = match id_token_is_valid E tok (AUDIENCE E) (AUTHORITY E) w with
    | (Returns jwt_data, w') =>
        if truthy jwt_data then
          match getitem jwt_data "sub" with
          | Returns sub => (Returns (allow event sub), w')
          | Raises e => (Raises e, w')
          end
        else (Returns (deny event), w')
    | (Raises e, w') => (Raises e, w')
    end.
Proof.
  intro H. destruct (get_id_token_returns event _ H) as [t [Ht [_ Hno]]].
  inversion Ht; subst t.
  unfold lambda_handler. unfold bind at 1. unfold lift at 1. rewrite H, Hno.
  unfold bind, lift, ret, AUDIENCE, AUTHORITY.
  destruct (id_token_is_valid E tok (environ_get E "AUDIENCE" "")
                              (environ_get E "AUTHORITY" "") w) as [[v|e] w'];
    [|reflexivity].
  destruct (truthy v); [|reflexivity].
  destruct (getitem v "sub"); reflexivity.
Qed.

(** A validation that returns [False] makes the handler deny. *)
Lemma lambda_handler_denies (E : Env) (event : Event) (w w' : World) (tok : string) :
  get_id_token event = Returns (Some tok) ->
  id_token_is_valid E tok (AUDIENCE E) (AUTHORITY E) w = (Returns (PyBool false), w') ->
  lambda_handler E event w = (Returns (deny event), w').
Proof.
  intros Ht Hv. rewrite (lambda_handler_with_token E event w tok Ht), Hv.
  reflexivity.
Qed.

(** The decisions the handler can return. *)
Lemma lambda_handler_returns (E : Env) (event : Event) (w : World) (p : policy) :
  fst (lambda_handler E event w) = Returns p ->
  p = deny event \/ exists sub, p = allow event sub.
Proof.
  destruct (get_id_token event) as [t|e] eqn:Ht.
  - destruct (get_id_token_returns event t Ht) as [tok [Hs _]]. subst t.
    rewrite (lambda_handler_with_token E event w tok Ht).
    destruct (id_token_is_valid E tok (AUDIENCE E) (AUTHORITY E) w) as [[v|e] w'];
      [|discriminate].
    destruct (truthy v).
    + destruct (getitem v "sub") as [sub|e]; [|discriminate].
      simpl. intro H. inversion H. right. exists sub. reflexivity.
    + simpl. intro H. inversion H. left. reflexivity.
  - rewrite (lambda_handler_extraction_fault E event w e Ht). discriminate.
Qed.

(** ** Validation: the discovery step *)

Lemma id_token_is_valid_eq (E : Env) (tok aud auth : string) (w : World) :
  id_token_is_valid E tok aud auth w
  = if has_crypto E then
      let w1 := fetched_discovery (discovery_url auth) w in
      match http_get E w (discovery_url auth) (verify_arg E) with
      | Raises e => (Raises e, w1)
      | Returns resp =>
          if (status_code resp =? 200)%Z then
            match json_loads E (content resp) with
            | Some oidc_metadata => protected_block E tok aud auth oidc_metadata w1
            | None => (Raises JSONDecodeError, w1)
            end
          else (Returns (PyBool false), w1)
      end
    else (Returns (PyBool false), w).
Proof.
  unfold id_token_is_valid, discovery_url, verify_arg.
  destruct (has_crypto E); [|reflexivity].
  unfold bind at 1, requests_get. cbn [negb].
  destruct (http_get E w (auth ++ "/.well-known/openid-configuration")
                     (cert_or_default (getenv E "SSL_CERT_FILE")))
    as [resp|e]; [|reflexivity].
  destruct (status_code resp =? 200)%Z; [|reflexivity].
  cbn [negb]. unfold bind at 1, lift at 1, response_json.
  destruct (json_loads E (content resp)); reflexivity.
Qed.

Lemma after_discovery_eq (E : Env) (w : World) :
  after_discovery E w = fetched_discovery (discovery_url (AUTHORITY E)) w.
Proof. reflexivity. Qed.

Lemma id_token_is_valid_no_crypto (E : Env) (tok aud auth : string) (w : World) :
  has_crypto E = false ->
  id_token_is_valid E tok aud auth w = (Returns (PyBool false), w).
Proof. intro H. rewrite id_token_is_valid_eq, H. reflexivity. Qed.

Lemma id_token_is_valid_not_200 (E : Env) (tok : string) (w : World) (resp : Response) :
  http_get E w (discovery_url (AUTHORITY E)) (verify_arg E) = Returns resp ->
  status_code resp <> 200%Z ->
  exists w',
    id_token_is_valid E tok (AUDIENCE E) (AUTHORITY E) w = (Returns (PyBool false), w').
Proof.
  intros Hget Hst. rewrite id_token_is_valid_eq.
  destruct (has_crypto E); [|exists w; reflexivity].
  cbv zeta. rewrite Hget. apply Z.eqb_neq in Hst. rewrite Hst.
  eexists. reflexivity.
Qed.

Lemma id_token_is_valid_unparseable (E : Env) (tok : string) (w : World) (resp : Response) :
  has_crypto E = true ->
  http_get E w (discovery_url (AUTHORITY E)) (verify_arg E) = Returns resp ->
  status_code resp = 200%Z ->
  json_loads E (content resp) = None ->
  id_token_is_valid E tok (AUDIENCE E) (AUTHORITY E) w
  = (Raises JSONDecodeError, after_discovery E w).
Proof.
  intros Hc Hget Hst Hjs.
  rewrite id_token_is_valid_eq, Hc. cbv zeta. rewrite Hget, Hst, Hjs.
  reflexivity.
Qed.

Lemma trust_store_loaded (E : Env) :
  trust_store_ok E ->
  match verify_arg E with
  | Some p => load_verify_locations E p
  | None => Returns tt
  end = Returns tt.
Proof.
  unfold trust_store_ok. destruct (verify_arg E); [tauto | reflexivity].
Qed.

Lemma id_token_is_valid_no_jwks_uri (E : Env) (tok : string) (w : World)
      (resp : Response) (meta : list (string * pyval)) :
  has_crypto E = true ->
  http_get E w (discovery_url (AUTHORITY E)) (verify_arg E) = Returns resp ->
  status_code resp = 200%Z ->
  json_loads E (content resp) = Some (PyDict meta) ->
  Dict.get "jwks_uri" meta = None ->
  trust_store_ok E ->
  id_token_is_valid E tok (AUDIENCE E) (AUTHORITY E) w
  = (Raises (KeyError "jwks_uri"), after_discovery E w).
Proof.
  intros Hc Hget Hst Hjs Hno Hts.
  rewrite id_token_is_valid_eq, Hc. cbv zeta. rewrite Hget, Hst, Hjs.
  unfold protected_block, try_except_PyJWTError.
  unfold bind at 1, lift at 1. rewrite (trust_store_loaded E Hts).
  unfold bind at 1, lift at 1. simpl getitem. rewrite Hno.
  reflexivity.
Qed.

(** ** What a computation leaves untouched, and what it may raise *)

Lemma frames_ret {A} (a : A) : frames (ret a).
Proof. intro w. split; reflexivity. Qed.

Lemma frames_lift {A} (o : outcome A) : frames (lift o).
Proof. intro w. split; reflexivity. Qed.

Lemma frames_bind {A B} (m : Py A) (f : A -> Py B) :
  frames m -> (forall a, frames (f a)) -> frames (bind m f).
Proof.
  intros Hm Hf w. unfold bind. specialize (Hm w).
  destruct (m w) as [[a|e] w1]; simpl in *.
  - destruct (Hf a w1) as [H1 H2]. destruct Hm as [H3 H4].
    split; congruence.
  - exact Hm.
Qed.

Lemma frames_try {A} (body : Py A) (handler : jwt_error -> Py A) :
  frames body -> (forall e, frames (handler e)) ->
  frames (try_except_PyJWTError body handler).
Proof.
  intros Hb Hh w. unfold try_except_PyJWTError. specialize (Hb w).
  destruct (body w) as [[a|e] w1]; simpl in *; [exact Hb|].
  destruct e; try exact Hb.
  destruct (Hh e w1) as [H1 H2]. destruct Hb as [H3 H4]. split; congruence.
Qed.

Lemma jwt_only_ret {A} (a : A) : jwt_only (ret a).
Proof. intros w e H. discriminate H. Qed.

Lemma jwt_only_fail {A} (je : jwt_error) : jwt_only (lift (@Jwt.fail A je)).
Proof. intros w e H. inversion H. exists je. reflexivity. Qed.

Lemma jwt_only_bind {A B} (m : Py A) (f : A -> Py B) :
  jwt_only m -> (forall a, jwt_only (f a)) -> jwt_only (bind m f).
Proof.
  intros Hm Hf w e. unfold bind. specialize (Hm w).
  destruct (m w) as [[a|e'] w1]; simpl in *.
  - apply Hf.
  - intro H. inversion H; subst e'. apply Hm. reflexivity.
Qed.

Create HintDb py discriminated.
#[local] Hint Resolve frames_ret frames_lift frames_bind frames_try : py.
#[local] Hint Resolve jwt_only_ret jwt_only_fail jwt_only_bind : py.

(** ** The key-set client *)

Lemma frames_fetch_data (E : Env) (c : Jwks.PyJWKClient) :
  frames (Jwks.fetch_data E c).
Proof.
  intro w. unfold Jwks.fetch_data.
  destruct (urlopen_json E w (Jwks.uri c)); split; reflexivity.
Qed.

Lemma jwt_only_fetch_data (E : Env) (c : Jwks.PyJWKClient) :
  keyset_fetch_clean E -> jwt_only (Jwks.fetch_data E c).
Proof.
  intros Hclean w e. unfold Jwks.fetch_data.
  destruct (urlopen_json E w (Jwks.uri c)) as [data| |e'] eqn:Hf; simpl; intro H.
  - discriminate.
  - inversion H. eexists. reflexivity.
  - exfalso. exact (proj1 Hclean _ _ _ Hf).
Qed.

Lemma usable_keys_clean (E : Env) (keys : list pyval) :
  (forall v e', jwk_of E v <> BuildFault e') ->
  forall e, Jwks.usable_keys E keys <> Raises e.
Proof.
  intro Hclean. induction keys as [|k keys IH]; intro e; simpl; [discriminate|].
  destruct (jwk_of E k) as [jwk| |e'] eqn:Hk.
  - destruct (Jwks.usable_keys E keys) as [jwks|e0] eqn:Hu; [discriminate|].
    exfalso. exact (IH e0 eq_refl).
  - apply IH.
  - exfalso. exact (Hclean k e' Hk).
Qed.

Lemma jwk_set_from_fails (E : Env) (data : pyval) (e : exn) :
  (forall v e', jwk_of E v <> BuildFault e') ->
  Jwks.jwk_set_from E data = Raises e -> exists je, e = PyJWTError je.
Proof.
  unfold Jwks.jwk_set_from, Jwt.fail. intros Hclean H.
  destruct data as [| | | | |d|]; try (inversion H; eexists; reflexivity).
  destruct (Dict.get "keys" d) as [[| | | |[|k keys]| |]|];
    try (inversion H; eexists; reflexivity).
  pose proof (usable_keys_clean E (k :: keys) Hclean) as Hk.
  destruct (Jwks.usable_keys E (k :: keys)) as [[|k0 ks]|e0].
  - inversion H. eexists; reflexivity.
  - discriminate.
  - exfalso. exact (Hk e0 eq_refl).
Qed.

Lemma frames_get_jwk_set (E : Env) (c : Jwks.PyJWKClient) (refresh : bool) :
  frames (Jwks.get_jwk_set E c refresh).
Proof.
  intro w. unfold Jwks.get_jwk_set.
  match goal with |- context [bind ?m ?f w] => apply (frames_bind m f) end.
  - destruct (match Jwks.jwk_set_cache c with
              | Some cache => if refresh then None else Jwks.cache_get cache (clock w)
              | None => None
              end); [apply frames_ret | apply frames_fetch_data].
  - intros dc. apply frames_lift.
Qed.

Lemma jwt_only_get_jwk_set (E : Env) (c : Jwks.PyJWKClient) (refresh : bool) :
  keyset_fetch_clean E -> jwt_only (Jwks.get_jwk_set E c refresh).
Proof.
  intros Hclean w. unfold Jwks.get_jwk_set.
  match goal with |- context [bind ?m ?f w] => apply (jwt_only_bind m f) end.
  - destruct (match Jwks.jwk_set_cache c with
              | Some cache => if refresh then None else Jwks.cache_get cache (clock w)
              | None => None
              end); [apply jwt_only_ret | apply jwt_only_fetch_data; exact Hclean].
  - intros dc w' e. unfold lift. simpl.
    destruct (Jwks.jwk_set_from E (fst dc)) eqn:Hj; intro H; [discriminate|].
    inversion H; subst. exact (jwk_set_from_fails E _ _ (proj2 Hclean) Hj).
Qed.

Lemma frames_get_signing_keys (E : Env) (c : Jwks.PyJWKClient) (refresh : bool) :
  frames (Jwks.get_signing_keys E c refresh).
Proof.
  unfold Jwks.get_signing_keys. apply frames_bind.
  - apply frames_get_jwk_set.
  - intros kc. destruct (filter Jwks.is_signing_key (fst kc)); auto with py.
Qed.

Lemma jwt_only_get_signing_keys (E : Env) (c : Jwks.PyJWKClient) (refresh : bool) :
  keyset_fetch_clean E -> jwt_only (Jwks.get_signing_keys E c refresh).
Proof.
  intro Hclean. unfold Jwks.get_signing_keys. apply jwt_only_bind.
  - apply jwt_only_get_jwk_set. exact Hclean.
  - intros kc. destruct (filter Jwks.is_signing_key (fst kc)); auto with py.
Qed.

Lemma frames_get_signing_key (E : Env) (c : Jwks.PyJWKClient) (kid : option pyval) :
  frames (Jwks.get_signing_key E c kid).
Proof.
  unfold Jwks.get_signing_key. apply frames_bind.
  - apply frames_get_signing_keys.
  - intros kc. destruct (Jwks.match_kid (fst kc) kid); [apply frames_ret|].
    apply frames_bind; [apply frames_get_signing_keys|].
    intros kc'. destruct (Jwks.match_kid (fst kc') kid); auto with py.
Qed.

Lemma jwt_only_get_signing_key (E : Env) (c : Jwks.PyJWKClient) (kid : option pyval) :
  keyset_fetch_clean E -> jwt_only (Jwks.get_signing_key E c kid).
Proof.
  intro Hclean. unfold Jwks.get_signing_key. apply jwt_only_bind.
  - apply jwt_only_get_signing_keys. exact Hclean.
  - intros kc. destruct (Jwks.match_kid (fst kc) kid); [apply jwt_only_ret|].
    apply jwt_only_bind; [apply jwt_only_get_signing_keys; exact Hclean|].
    intros kc'. destruct (Jwks.match_kid (fst kc') kid); auto with py.
Qed.

Lemma load_fails (E : Env) (tok : string) (e : exn) :
  Jwt.load E tok = Raises e -> exists je, e = PyJWTError je.
Proof.
  unfold Jwt.load, Jwt.fail. intro H.
  repeat match type of H with
         | match ?x with _ => _ end = _ => destruct x
         end;
    inversion H; eexists; reflexivity.
Qed.

Lemma decode_payload_fails (E : Env) (j : Jwt.JWS) (e : exn) :
  Jwt.decode_payload E j = Raises e -> exists je, e = PyJWTError je.
Proof.
  unfold Jwt.decode_payload, Jwt.fail. intro H.
  repeat match type of H with
         | match ?x with _ => _ end = _ => destruct x
         end;
    inversion H; eexists; reflexivity.
Qed.

Lemma jwt_only_lift {A} (o : outcome A) :
  (forall e, o = Raises e -> exists je, e = PyJWTError je) -> jwt_only (lift o).
Proof. intros Ho w e H. apply Ho. exact H. Qed.

Lemma frames_get_signing_key_from_jwt (E : Env) (c : Jwks.PyJWKClient) (tok : string) :
  frames (Jwks.get_signing_key_from_jwt E c tok).
Proof.
  unfold Jwks.get_signing_key_from_jwt.
  apply frames_bind; [apply frames_lift|]. intros j.
  apply frames_bind; [apply frames_lift|]. intros _.
  apply frames_get_signing_key.
Qed.

Lemma jwt_only_get_signing_key_from_jwt (E : Env) (c : Jwks.PyJWKClient) (tok : string) :
  keyset_fetch_clean E -> jwt_only (Jwks.get_signing_key_from_jwt E c tok).
Proof.
  intro Hclean. unfold Jwks.get_signing_key_from_jwt.
  apply jwt_only_bind; [apply jwt_only_lift, load_fails|]. intros j.
  apply jwt_only_bind; [apply jwt_only_lift, decode_payload_fails|]. intros _.
  apply jwt_only_get_signing_key. exact Hclean.
Qed.

(** A new client has nothing cached: resolving a key fetches the key set. *)
Lemma new_client (uri : pyval) :
  Jwks.new uri true 360
  = Returns {| Jwks.uri := uri;
               Jwks.jwk_set_cache :=
                 Some {| Jwks.lifespan := 360;
                         Jwks.jwk_set_with_timestamp := None |} |}.
Proof. reflexivity. Qed.

Lemma match_kid_nonempty (keys : list PyJWK) (kid : option pyval) (k : PyJWK) :
  Jwks.match_kid keys kid = Some k -> keys <> [].
Proof. intros H Hn. subst keys. discriminate H. Qed.

Lemma resolve_key (E : Env) (w : World) (uri : pyval) (tok : string)
      (j : Jwt.JWS) (claims : list (string * pyval)) (k : PyJWK) (c : Jwks.PyJWKClient) :
  Jwks.new uri true 360 = Returns c ->
  Jwt.load E tok = Returns j ->
  Jwt.decode_payload E j = Returns claims ->
  key_in_set E w uri j k ->
  exists c',
    Jwks.get_signing_key_from_jwt E c tok w
    = (Returns (k, c'), Jwks.log_keyset_fetch uri w).
Proof.
  intros Hnew Hload Hpay [data [jwks [Hfetch [Hset Hkid]]]].
  rewrite new_client in Hnew. inversion Hnew; subst c. clear Hnew.
  unfold Jwks.get_signing_key_from_jwt.
  unfold bind at 1, lift at 1. rewrite Hload.
  unfold bind at 1, lift at 1. rewrite Hpay.
  unfold Jwks.get_signing_key. unfold bind at 1.
  unfold Jwks.get_signing_keys at 1. unfold bind at 1.
  unfold Jwks.get_jwk_set at 1. cbn [Jwks.jwk_set_cache Jwks.cache_get
                                      Jwks.jwk_set_with_timestamp].
  unfold bind at 1. unfold Jwks.fetch_data at 1. cbn [Jwks.uri].
  rewrite Hfetch. cbn [fst snd]. unfold lift at 1. rewrite Hset. cbn [fst snd].
  pose proof (match_kid_nonempty _ _ _ Hkid) as Hne.
  destruct (filter Jwks.is_signing_key jwks) as [|k0 ks] eqn:Hf; [contradiction|].
  unfold ret at 1. cbn [fst snd]. rewrite Hkid.
  eexists. reflexivity.
Qed.

(** ** [jwt.decode] *)

Lemma frames_decode (E : Env) (tok k : string) (algs : list string) (iss aud : string) :
  frames (Jwt.decode E tok k algs iss aud).
Proof. intro w. split; reflexivity. Qed.

Lemma decode_world (E : Env) (tok k : string) (algs : list string)
      (iss aud : string) (w : World) :
  snd (Jwt.decode E tok k algs iss aud w) = w.
Proof. reflexivity. Qed.

(** A token whose header does not declare RS256 is rejected whatever the
    key and whatever the signature check would say. *)
Lemma decode_rejects_other_algorithms (E : Env) (tok k iss aud : string)
      (j : Jwt.JWS) (w : World) :
  Jwt.load E tok = Returns j ->
  Jwt.declared_alg j <> Some (PyStr "RS256") ->
  Jwt.decode E tok k ["RS256"] iss aud w
  = (Raises (PyJWTError InvalidAlgorithmError), w).
Proof.
  intros Hload Halg. unfold Jwt.decode. rewrite Hload.
  unfold Jwt.verify_signature.
  destruct (Jwt.declared_alg j) as [[| | |alg| | |]|]; try reflexivity.
  cbn [existsb]. destruct (String.eqb alg "RS256") eqn:Ea.
  - apply String.eqb_eq in Ea. subst alg. contradiction.
  - rewrite orb_false_r. cbn [negb]. rewrite orb_true_r. reflexivity.
Qed.

Lemma decode_accepts (E : Env) (tok iss aud : string) (j : Jwt.JWS) (k : PyJWK)
      (claims : list (string * pyval)) (w : World) :
  Jwt.load E tok = Returns j ->
  signature_verifies E j k ->
  Jwt.decode_payload E j = Returns claims ->
  Jwt.validate_claims E (clock w) claims iss aud = Returns tt ->
  Jwt.decode E tok (key k) ["RS256"] iss aud w = (Returns claims, w).
Proof.
  intros Hload [Halg Hsig] Hpay Hval. unfold Jwt.decode. rewrite Hload.
  unfold Jwt.verify_signature. rewrite Halg. cbn. rewrite Hsig, Hpay, Hval.
  reflexivity.
Qed.

Lemma decode_returns_valid (E : Env) (tok k : string) (algs : list string)
      (iss aud : string) (w w' : World) (claims : list (string * pyval)) :
  Jwt.decode E tok k algs iss aud w = (Returns claims, w') ->
  Jwt.validate_claims E (clock w) claims iss aud = Returns tt.
Proof.
  unfold Jwt.decode. intro H.
  destruct (Jwt.load E tok) as [j|]; [|discriminate].
  destruct (Jwt.verify_signature E j k algs); [|discriminate].
  destruct (Jwt.decode_payload E j) as [c|]; [|discriminate].
  destruct (Jwt.validate_claims E (clock w) c iss aud) as [[]|] eqn:Hv;
    [|discriminate].
  inversion H; subst. exact Hv.
Qed.

Lemma valid_claims_have_issuer (E : Env) (now : Z) (claims : list (string * pyval))
      (iss aud : string) :
  Jwt.validate_claims E now claims iss aud = Returns tt ->
  Dict.get "iss" claims = Some (PyStr iss).
Proof.
  unfold Jwt.validate_claims, Jwt.seq. intro H.
  repeat match type of H with
         | match ?x with _ => _ end = _ =>
             let Hx := fresh "Hx" in destruct x eqn:Hx; [|discriminate]
         end.
  match goal with Hi : Jwt.validate_iss _ _ = _ |- _ => revert Hi end.
  unfold Jwt.validate_iss, Jwt.fail.
  destruct (Dict.get "iss" claims) as [[| | |s| | |]|]; try discriminate.
  destruct (String.eqb s iss) eqn:Es; [|discriminate].
  apply String.eqb_eq in Es. subst s. reflexivity.
Qed.

(** ** The protected block *)

Lemma frames_protected_block (E : Env) (tok aud auth : string) (meta : pyval) :
  frames (protected_block E tok aud auth meta).
Proof.
  unfold protected_block. apply frames_try; [|intros; apply frames_ret].
  apply frames_bind; [apply frames_lift|]. intros _.
  apply frames_bind; [apply frames_lift|]. intros uri.
  apply frames_bind; [apply frames_lift|]. intros c.
  apply frames_bind; [apply frames_get_signing_key_from_jwt|]. intros kc.
  apply frames_bind; [apply frames_decode | intros; apply frames_ret].
Qed.

Lemma protected_block_accepts (E : Env) (tok : string) (meta uri : pyval)
      (w : World) (j : Jwt.JWS) (k : PyJWK) (claims : list (string * pyval)) :
  trust_store_ok E ->
  getitem meta "jwks_uri" = Returns uri ->
  Jwt.load E tok = Returns j ->
  key_in_set E w uri j k ->
  signature_verifies E j k ->
  claims_valid E (clock w) j claims ->
  protected_block E tok (AUDIENCE E) (AUTHORITY E) meta w
  = (Returns (PyDict claims), Jwks.log_keyset_fetch uri w).
Proof.
  intros Hts Huri Hload Hkey Hsig [Hpay Hval].
  destruct (resolve_key E w uri tok j claims k _ (new_client uri) Hload Hpay Hkey)
    as [c' Hres].
  unfold protected_block, try_except_PyJWTError.
  unfold bind at 1, lift at 1. rewrite (trust_store_loaded E Hts).
  unfold bind at 1, lift at 1. rewrite Huri.
  unfold bind at 1, lift at 1. rewrite new_client.
  unfold bind at 1. rewrite Hres. cbn [fst].
  unfold bind at 1.
  rewrite (decode_accepts E tok (AUTHORITY E) (AUDIENCE E) j k claims
                          (Jwks.log_keyset_fetch uri w) Hload Hsig Hpay Hval).
  reflexivity.
Qed.

Lemma protected_block_rejects_algorithm (E : Env) (tok aud auth : string)
      (meta uri : pyval) (w : World) (j : Jwt.JWS) :
  trust_store_ok E ->
  getitem meta "jwks_uri" = Returns uri ->
  keyset_fetch_clean E ->
  Jwt.load E tok = Returns j ->
  Jwt.declared_alg j <> Some (PyStr "RS256") ->
  exists w', protected_block E tok aud auth meta w = (Returns (PyBool false), w').
Proof.
  intros Hts Huri Hclean Hload Halg.
  unfold protected_block, try_except_PyJWTError.
  unfold bind at 1, lift at 1. rewrite (trust_store_loaded E Hts).
  unfold bind at 1, lift at 1. rewrite Huri.
  unfold bind at 1, lift at 1. rewrite new_client.
  unfold bind at 1.
  pose proof (jwt_only_get_signing_key_from_jwt E
                {| Jwks.uri := uri;
                   Jwks.jwk_set_cache :=
                     Some {| Jwks.lifespan := 360;
                             Jwks.jwk_set_with_timestamp := None |} |}
                tok Hclean w) as Hjwt.
  destruct (Jwks.get_signing_key_from_jwt E _ tok w) as [[kc|e] w1].
  - unfold bind at 1.
    rewrite (decode_rejects_other_algorithms E tok _ auth aud j w1 Hload Halg).
    eexists. reflexivity.
  - destruct (Hjwt e eq_refl) as [je Hje]. subst e.
    eexists. reflexivity.
Qed.

(** Claims come out of the block only through a successful [jwt.decode]. *)
Lemma protected_block_returns_claims (E : Env) (tok aud auth : string)
      (meta : pyval) (w w' : World) (claims : list (string * pyval)) :
  protected_block E tok aud auth meta w = (Returns (PyDict claims), w') ->
  exists now, Jwt.validate_claims E now claims auth aud = Returns tt.
Proof.
  unfold protected_block, try_except_PyJWTError.
  unfold bind at 1, lift at 1.
  destruct (match verify_arg E with
            | Some p => load_verify_locations E p
            | None => Returns tt
            end) as [[]|e]; [|destruct e; discriminate].
  unfold bind at 1, lift at 1.
  destruct (getitem meta "jwks_uri") as [uri|e]; [|destruct e; discriminate].
  unfold bind at 1, lift at 1. rewrite new_client.
  unfold bind at 1.
  destruct (Jwks.get_signing_key_from_jwt E _ tok w) as [[kc|e] w1];
    [|destruct e; discriminate].
  unfold bind at 1.
  destruct (Jwt.decode E tok (key (fst kc)) ["RS256"] auth aud w1)
    as [[data|e] w2] eqn:Hd; [|destruct e; discriminate].
  unfold ret. intro H. inversion H; subst data w2.
  exists (clock w1). exact (decode_returns_valid E tok _ _ auth aud w1 w' claims Hd).
Qed.

Lemma id_token_is_valid_returns_claims (E : Env) (tok aud auth : string)
      (w : World) (claims : list (string * pyval)) :
  fst (id_token_is_valid E tok aud auth w) = Returns (PyDict claims) ->
  exists now, Jwt.validate_claims E now claims auth aud = Returns tt.
Proof.
  rewrite id_token_is_valid_eq.
  destruct (has_crypto E); [|discriminate]. cbv zeta.
  destruct (http_get E w (discovery_url auth) (verify_arg E)) as [resp|e];
    [|discriminate].
  destruct (status_code resp =? 200)%Z; [|discriminate].
  destruct (json_loads E (content resp)) as [meta|]; [|discriminate].
  destruct (protected_block E tok aud auth meta
              (fetched_discovery (discovery_url auth) w)) as [o w'] eqn:Hp.
  simpl. intro H. subst o.
  exact (protected_block_returns_claims E tok aud auth meta _ w' claims Hp).
Qed.

(** Every validation with crypto support fetches the discovery document,
    once. *)
Lemma id_token_is_valid_fetches_discovery (E : Env) (tok aud auth : string) (w : World) :
  has_crypto E = true ->
  let w' := snd (id_token_is_valid E tok aud auth w) in
  discovery_fetches w' = discovery_url auth :: discovery_fetches w
  /\ clock w' = clock w.
Proof.
  intros Hc. cbv zeta. rewrite id_token_is_valid_eq, Hc. cbv zeta.
  destruct (http_get E w (discovery_url auth) (verify_arg E)) as [resp|e];
    [|split; reflexivity].
  destruct (status_code resp =? 200)%Z; [|split; reflexivity].
  destruct (json_loads E (content resp)) as [meta|]; [|split; reflexivity].
  destruct (frames_protected_block E tok aud auth meta
              (fetched_discovery (discovery_url auth) w)) as [H1 H2].
  rewrite H1, H2. split; reflexivity.
Qed.

(** ** The shape of the header and the result of extraction *)

Lemma strip_bearer_prefix (c : ascii) (s : string) :
  Re.whitespace c = true ->
  Scanner.strip_bearer (("Bearer" ++ String c "") ++ s) = Some s.
Proof. intro H. unfold Scanner.strip_bearer. simpl. rewrite H. reflexivity. Qed.

Lemma token_of_three_segments (pre s1 s2 s3 rest : string) :
  (pre = "" \/ exists c, Re.whitespace c = true /\ pre = "Bearer" ++ String c "") ->
  is_segment s1 -> is_segment s2 -> is_segment s3 ->
  Scanner.token_of (pre ++ s1 ++ "." ++ s2 ++ "." ++ s3 ++ rest)
  = Some (s1 ++ "." ++ s2 ++ "." ++ s3 ++ Scanner.run_of token_char rest).
Proof.
  intros Hpre H1 H2 H3.
  pose proof (scan_three_segments s1 s2 s3 rest H1 H2 H3) as Hscan.
  unfold Scanner.token_of. destruct Hpre as [Hpre | [c [Hc Hpre]]]; subst pre.
  - change ("" ++ ?x) with x. change ("." ++ ?x) with (String "." x).
    rewrite (strip_bearer_segment s1 _ H1).
    change (String "." ?x) with ("." ++ x). rewrite Hscan. reflexivity.
  - rewrite (strip_bearer_prefix c _ Hc), Hscan. reflexivity.
Qed.

(** Extraction succeeds exactly on the values that begin with the token
    shape. *)
Lemma token_of_complete (value : string) :
  begins_with_token value <-> Scanner.token_of value <> None.
Proof.
  split.
  - intros [pre [s1 [s2 [s3 [rest [Hpre [H1 [H2 [H3 Hv]]]]]]]]]. subst value.
    rewrite (token_of_three_segments pre s1 s2 s3 rest Hpre H1 H2 H3).
    discriminate.
  - destruct (Scanner.token_of value) as [tok|] eqn:E; [|congruence].
    intros _. apply (token_of_spec value tok E).
Qed.

(** * The claims *)

(** C1. The specification has every request without an authorization header
    (in any case) end in a Deny decision without a context field. The code
    does not: [get_id_token] raises [ValueError("Missing authorization
    token.")], the handler has no [try], and the exception leaves the
    handler. The branch of the handler that would deny a missing token is
    never taken. *)
Theorem C1_missing_header_is_a_fault (E : Env) (event : Event) (w : World) :
  no_authorization_header event ->
  lambda_handler E event w
  = (Raises (ValueError "Missing authorization token."), w).
Proof.
  intro H. apply lambda_handler_extraction_fault.
  rewrite get_id_token_cases, (no_header_no_value event H). reflexivity.
Qed.

Lemma C1_missing_header_is_a_fault_witness :
  no_authorization_header Scenario.anonymous
  /\ lambda_handler (Scenario.env 200 "meta") Scenario.anonymous Scenario.w0
     = (Raises (ValueError "Missing authorization token."), Scenario.w0).
Proof.
  assert (H : no_authorization_header Scenario.anonymous).
  { intros k v [Heq | []]. inversion Heq. vm_compute. discriminate. }
  split; [exact H | exact (C1_missing_header_is_a_fault _ _ _ H)].
Defined.

(** C2. The specification has every authorization header that does not match
    the token pattern end in a Deny decision. The code does not: for every
    value that does not begin with the token shape, [get_id_token] raises
    [ValueError("Invalid authorization header format.")] and the exception
    leaves the handler. *)
Theorem C2_malformed_header_is_a_fault (E : Env) (event : Event) (w : World)
        (value : string) :
  authorization_value event = Some value ->
  ~ begins_with_token value ->
  lambda_handler E event w
  = (Raises (ValueError "Invalid authorization header format."), w).
Proof.
  intros Hv Hshape. apply lambda_handler_extraction_fault.
  rewrite get_id_token_cases, Hv.
  destruct (Scanner.token_of value) as [tok|] eqn:Et; [|reflexivity].
  exfalso. apply Hshape. apply token_of_complete. congruence.
Qed.

Lemma C2_malformed_header_is_a_fault_witness :
  authorization_value (Scenario.request "Bearer not-a-token") = Some "Bearer not-a-token"
  /\ ~ begins_with_token "Bearer not-a-token"
  /\ lambda_handler (Scenario.env 200 "meta") (Scenario.request "Bearer not-a-token")
                    Scenario.w0
     = (Raises (ValueError "Invalid authorization header format."), Scenario.w0).
Proof.
  assert (Hshape : ~ begins_with_token "Bearer not-a-token").
  { intro H. apply token_of_complete in H. apply H. reflexivity. }
  split; [reflexivity | split; [exact Hshape|]].
  exact (C2_malformed_header_is_a_fault
           (Scenario.env 200 "meta") (Scenario.request "Bearer not-a-token")
           Scenario.w0 "Bearer not-a-token" eq_refl Hshape).
Defined.

(** C10. Token extraction is anchored at the start of the header value only.
    A value made of an optional [Bearer ] prefix, three segments of URL-safe
    base64 characters separated by dots, and then any further characters
    [rest], is not rejected: extraction returns the three leading segments
    and nothing of what follows them. (The third segment is the longest
    one: it takes the token characters [rest] may start with; after a dot,
    as for a fourth segment, it takes nothing.) *)
Theorem C10_extraction_is_anchored_at_the_start (event : Event)
        (pre s1 s2 s3 rest : string) :
  pre = "" \/ pre = "Bearer " ->
  is_segment s1 -> is_segment s2 -> is_segment s3 ->
  authorization_value event = Some (pre ++ s1 ++ "." ++ s2 ++ "." ++ s3 ++ rest) ->
  get_id_token event
  = Returns (Some (s1 ++ "." ++ s2 ++ "." ++ s3 ++ Scanner.run_of token_char rest)).
Proof.
  intros Hpre H1 H2 H3 Hv. rewrite get_id_token_cases, Hv.
  rewrite (token_of_three_segments pre s1 s2 s3 rest); try assumption.
  - reflexivity.
  - destruct Hpre as [Hp|Hp]; [left; exact Hp | right].
    exists " "%char. split; [reflexivity | exact Hp].
Qed.

Lemma C10_extraction_is_anchored_at_the_start_witness :
  (is_segment "aaa" /\ is_segment "bbb" /\ is_segment "ccc"
   /\ authorization_value (Scenario.request "Bearer aaa.bbb.ccc.ddd and more")
      = Some ("Bearer " ++ "aaa" ++ "." ++ "bbb" ++ "." ++ "ccc" ++ ".ddd and more"))
  /\ get_id_token (Scenario.request "Bearer aaa.bbb.ccc.ddd and more")
     = Returns (Some "aaa.bbb.ccc").
Proof.
  assert (Hseg : forall s, s <> "" -> Scanner.all_of token_char s = true ->
                           is_segment s) by (intros s H1 H2; split; assumption).
  assert (H1 : is_segment "aaa") by (apply Hseg; [discriminate | reflexivity]).
  assert (H2 : is_segment "bbb") by (apply Hseg; [discriminate | reflexivity]).
  assert (H3 : is_segment "ccc") by (apply Hseg; [discriminate | reflexivity]).
  split; [exact (conj H1 (conj H2 (conj H3 eq_refl)))|].
  exact (C10_extraction_is_anchored_at_the_start
           (Scenario.request "Bearer aaa.bbb.ccc.ddd and more")
           "Bearer " "aaa" "bbb" "ccc" ".ddd and more"
           (or_intror eq_refl) H1 H2 H3 eq_refl).
Defined.

(** C6. When the discovery endpoint answers with a status other than 200,
    the handler returns the Deny decision, whatever token the request
    carries; no exception leaves the handler. *)
Theorem C6_discovery_not_200_denies (E : Env) (event : Event) (w : World)
        (tok : string) (resp : Response) :
  get_id_token event = Returns (Some tok) ->
  http_get E w (discovery_url (AUTHORITY E)) (verify_arg E) = Returns resp ->
  status_code resp <> 200%Z ->
  exists w', lambda_handler E event w = (Returns (deny event), w')
             /\ effect_of (deny event) = Some (PyStr "Deny").
Proof.
  intros Ht Hget Hst.
  destruct (id_token_is_valid_not_200 E tok w resp Hget Hst) as [w' Hv].
  exists w'. split; [|reflexivity].
  exact (lambda_handler_denies E event w w' tok Ht Hv).
Qed.

Lemma C6_discovery_not_200_denies_witness :
  let E := Scenario.env 503 "unavailable" in
  let event := Scenario.request "Bearer hdr.pay.sig" in
  (get_id_token event = Returns (Some "hdr.pay.sig")
   /\ http_get E Scenario.w0 (discovery_url (AUTHORITY E)) (verify_arg E)
      = Returns {| status_code := 503; content := "unavailable" |}
   /\ 503%Z <> 200%Z)
  /\ exists w', lambda_handler E event Scenario.w0 = (Returns (deny event), w')
                /\ effect_of (deny event) = Some (PyStr "Deny").
Proof.
  cbv zeta.
  assert (Hst : 503%Z <> 200%Z) by lia.
  split; [split; [reflexivity | split; [reflexivity | exact Hst]]|].
  exact (C6_discovery_not_200_denies
           (Scenario.env 503 "unavailable") (Scenario.request "Bearer hdr.pay.sig")
           Scenario.w0 "hdr.pay.sig"
           {| status_code := 503; content := "unavailable" |}
           eq_refl eq_refl Hst).
Defined.

(** C3, as the specification states it, fails on the code: two validations
    of one token against one authority, 100 time units apart, fetch the
    discovery metadata twice (and the key set twice). *)
Lemma C3_two_validations_fetch_twice :
  let E := Scenario.env 200 "meta" in
  let w2 := validate_twice E "hdr.pay.sig" 100 Scenario.w0 in
  (0 <= 100 <= 360)%Z
  /\ fst (id_token_is_valid E "hdr.pay.sig" (AUDIENCE E) (AUTHORITY E) Scenario.w0)
     = Returns (PyDict [("sub", PyStr "user-123"); ("iss", PyStr "https://idp");
                        ("aud", PyStr "api"); ("exp", PyInt 1000);
                        ("nbf", PyInt 0); ("iat", PyInt 0)])
  /\ ~ (List.length (discovery_fetches w2) <= 1
        /\ List.length (keyset_fetches w2) <= 1).
Proof.
  cbv zeta. split; [lia|]. split; [reflexivity|].
  vm_compute. intros [H _]. inversion H as [|n H' Hn]. inversion H'.
Qed.

(** C3, amended. The function keeps no discovery metadata between calls:
    every validation (with crypto support) fetches the discovery document of
    the authority from the network, once. Two validations against the same
    authority, however close in time, make two discovery fetches. *)
Theorem C3_each_validation_fetches_discovery (E : Env) (tok : string) (dt : Z)
        (w : World) :
  has_crypto E = true ->
  discovery_fetches (validate_twice E tok dt w)
  = discovery_url (AUTHORITY E) :: discovery_url (AUTHORITY E)
      :: discovery_fetches w.
Proof.
  intro Hc. unfold validate_twice.
  destruct (id_token_is_valid_fetches_discovery
              E tok (AUDIENCE E) (AUTHORITY E) w Hc) as [H1 _].
  destruct (id_token_is_valid_fetches_discovery
              E tok (AUDIENCE E) (AUTHORITY E)
              (advance dt (snd (id_token_is_valid E tok (AUDIENCE E) (AUTHORITY E) w)))
              Hc) as [H2 _].
  rewrite H2. cbn [advance discovery_fetches]. rewrite H1. reflexivity.
Qed.

Lemma C3_each_validation_fetches_discovery_witness :
  has_crypto (Scenario.env 200 "meta") = true
  /\ discovery_fetches
       (validate_twice (Scenario.env 200 "meta") "hdr.pay.sig" 100 Scenario.w0)
     = [ "https://idp/.well-known/openid-configuration";
         "https://idp/.well-known/openid-configuration" ].
Proof.
  split; [reflexivity|].
  exact (C3_each_validation_fetches_discovery
           (Scenario.env 200 "meta") "hdr.pay.sig" 100 Scenario.w0 eq_refl).
Defined.

(** C4. A request carrying a token whose signature verifies under a key of
    the signing-key set and whose [iss], [aud], [exp], [nbf] and [iat] are
    valid against the configured authority and audience is allowed: the
    decision has the [sub] claim of the token as [principalId] and as
    [context.username], and its policy document has version 2012-10-17 and
    the single statement execute-api:Invoke / Allow / the resource of the
    request. *)
Theorem C4_valid_token_is_allowed (E : Env) (event : Event) (w : World)
        (tok : string) (uri : pyval) (j : Jwt.JWS) (k : PyJWK)
        (claims : list (string * pyval)) (sub : string) :
  get_id_token event = Returns (Some tok) ->
  has_crypto E = true ->
  discovery_ok E w uri ->
  trust_store_ok E ->
  Jwt.load E tok = Returns j ->
  key_in_set E (after_discovery E w) uri j k ->
  signature_verifies E j k ->
  claims_valid E (clock w) j claims ->
  Dict.get "sub" claims = Some (PyStr sub) ->
  fst (lambda_handler E event w)
  = Returns
      [ ("principalId", PyStr sub);
        ("policyDocument",
          PyDict [ ("Version", PyStr "2012-10-17");
                   ("Statement",
                     PyList [ PyDict [ ("Action", PyStr "execute-api:Invoke");
                                       ("Effect", PyStr "Allow");
                                       ("Resource", PyStr (methodArn event)) ] ]) ]);
        ("context", PyDict [ ("username", PyStr sub) ]) ].
Proof.
  intros Ht Hc [resp [meta [Hget [Hst [Hjs Huri]]]]] Hts Hload Hkey Hsig Hval Hsub.
  rewrite (lambda_handler_with_token E event w tok Ht).
  rewrite id_token_is_valid_eq, Hc. cbv zeta. rewrite Hget, Hst, Hjs.
  rewrite (protected_block_accepts E tok meta uri
             (fetched_discovery (discovery_url (AUTHORITY E)) w) j k claims
             Hts Huri Hload Hkey Hsig Hval).
  assert (Htruthy : truthy (PyDict claims) = true)
    by (destruct claims; [discriminate | reflexivity]).
  cbn [Z.eqb Pos.eqb fst]. rewrite Htruthy. unfold getitem. rewrite Hsub.
  reflexivity.
Qed.

Lemma C4_valid_token_is_allowed_witness :
  let E := Scenario.env 200 "meta" in
  let event := Scenario.request "Bearer hdr.pay.sig" in
  let j := Scenario.jws "hdr" "pay" [("alg", PyStr "RS256"); ("kid", PyStr "k1")] in
  (get_id_token event = Returns (Some "hdr.pay.sig")
   /\ Jwt.load E "hdr.pay.sig" = Returns j
   /\ signature_verifies E j Scenario.k1)
  /\ fst (lambda_handler E event Scenario.w0)
     = Returns
         [ ("principalId", PyStr "user-123");
           ("policyDocument",
             PyDict [ ("Version", PyStr "2012-10-17");
                      ("Statement",
                        PyList [ PyDict [ ("Action", PyStr "execute-api:Invoke");
                                          ("Effect", PyStr "Allow");
                                          ("Resource", PyStr (methodArn event)) ] ]) ]);
           ("context", PyDict [ ("username", PyStr "user-123") ]) ].
Proof.
  cbv zeta. split.
  - split; [reflexivity | split; [reflexivity | split; reflexivity]].
  - apply (C4_valid_token_is_allowed
             (Scenario.env 200 "meta") (Scenario.request "Bearer hdr.pay.sig")
             Scenario.w0 "hdr.pay.sig" (PyStr "https://idp/keys")
             (Scenario.jws "hdr" "pay" [("alg", PyStr "RS256"); ("kid", PyStr "k1")])
             Scenario.k1
             [("sub", PyStr "user-123"); ("iss", PyStr "https://idp");
              ("aud", PyStr "api"); ("exp", PyInt 1000);
              ("nbf", PyInt 0); ("iat", PyInt 0)]
             "user-123").
    + reflexivity.
    + reflexivity.
    + exists {| status_code := 200; content := "meta" |},
             (PyDict [("jwks_uri", PyStr "https://idp/keys")]).
      repeat split; reflexivity.
    + exact I.
    + reflexivity.
    + exists (PyDict [("keys", PyList [PyStr "k1"])]), [Scenario.k1].
      repeat split; reflexivity.
    + split; reflexivity.
    + split; reflexivity.
    + reflexivity.
Defined.

(** C5. The specification has a discovery document that cannot be parsed, or
    that has no [jwks_uri], end in a Deny decision. The code does not: the
    body is parsed outside the [try] statement, and the lookup of [jwks_uri]
    raises a [KeyError], which the handler of the [try] statement, for
    [PyJWTError] only, lets through. Both exceptions leave
    [lambda_handler]. *)
Theorem C5_unusable_discovery_document_is_a_fault (E : Env) (event : Event)
        (w : World) (tok : string) (resp : Response) :
  get_id_token event = Returns (Some tok) ->
  has_crypto E = true ->
  http_get E w (discovery_url (AUTHORITY E)) (verify_arg E) = Returns resp ->
  status_code resp = 200%Z ->
  (json_loads E (content resp) = None ->
   lambda_handler E event w = (Raises JSONDecodeError, after_discovery E w))
  /\ (forall meta,
        json_loads E (content resp) = Some (PyDict meta) ->
        Dict.get "jwks_uri" meta = None ->
        trust_store_ok E ->
        lambda_handler E event w = (Raises (KeyError "jwks_uri"), after_discovery E w)).
Proof.
  intros Ht Hc Hget Hst. split.
  - intro Hjs. rewrite (lambda_handler_with_token E event w tok Ht).
    rewrite (id_token_is_valid_unparseable E tok w resp Hc Hget Hst Hjs).
    reflexivity.
  - intros meta Hjs Hno Hts. rewrite (lambda_handler_with_token E event w tok Ht).
    rewrite (id_token_is_valid_no_jwks_uri E tok w resp meta Hc Hget Hst Hjs Hno Hts).
    reflexivity.
Qed.

Lemma C5_unusable_discovery_document_is_a_fault_witness :
  let event := Scenario.request "Bearer hdr.pay.sig" in
  lambda_handler (Scenario.env 200 "<html>") event Scenario.w0
  = (Raises JSONDecodeError, after_discovery (Scenario.env 200 "<html>") Scenario.w0)
  /\ lambda_handler (Scenario.env 200 "nokeys") event Scenario.w0
     = (Raises (KeyError "jwks_uri"),
        after_discovery (Scenario.env 200 "nokeys") Scenario.w0).
Proof.
  cbv zeta. split.
  - apply (proj1 (C5_unusable_discovery_document_is_a_fault
                    (Scenario.env 200 "<html>")
                    (Scenario.request "Bearer hdr.pay.sig") Scenario.w0
                    "hdr.pay.sig" {| status_code := 200; content := "<html>" |}
                    eq_refl eq_refl eq_refl eq_refl)).
    reflexivity.
  - apply (proj2 (C5_unusable_discovery_document_is_a_fault
                    (Scenario.env 200 "nokeys")
                    (Scenario.request "Bearer hdr.pay.sig") Scenario.w0
                    "hdr.pay.sig" {| status_code := 200; content := "nokeys" |}
                    eq_refl eq_refl eq_refl eq_refl)
                 [("issuer", PyStr "https://idp")]).
    + reflexivity.
    + reflexivity.
    + exact I.
Defined.



(** C8. Every Deny decision has the same non-empty placeholder as
    [principalId], has no [context] field, and holds nothing read from the
    token: whatever the environment, the stage that failed and the token,
    it is the policy generated from the resource of the request alone. Two
    requests that are both denied have the same [principalId]. *)
Theorem C8_deny_decisions_are_uniform (E1 E2 : Env) (event1 event2 : Event)
        (w1 w2 : World) (p1 p2 : policy) :
  fst (lambda_handler E1 event1 w1) = Returns p1 ->
  fst (lambda_handler E2 event2 w2) = Returns p2 ->
  effect_of p1 = Some (PyStr "Deny") ->
  effect_of p2 = Some (PyStr "Deny") ->
  Dict.get "principalId" p1 = Some (PyStr "username")
  /\ Dict.get "principalId" p2 = Dict.get "principalId" p1
  /\ truthy (PyStr "username") = true
  /\ Dict.get "context" p1 = None
  /\ Dict.get "context" p2 = None
  /\ p1 = generate_policy "Deny" (methodArn event1) (PyStr "username")
  /\ p2 = generate_policy "Deny" (methodArn event2) (PyStr "username").
Proof.
  intros H1 H2 Hd1 Hd2.
  assert (Hdeny : forall E event w p,
             fst (lambda_handler E event w) = Returns p ->
             effect_of p = Some (PyStr "Deny") -> p = deny event).
  { intros E event w p Hp Hd.
    destruct (lambda_handler_returns E event w p Hp) as [Hp'|[sub Hp']];
      [exact Hp'|].
    subst p. discriminate Hd. }
  rewrite (Hdeny E1 event1 w1 p1 H1 Hd1), (Hdeny E2 event2 w2 p2 H2 Hd2).
  repeat split; reflexivity.
Qed.

Lemma C8_deny_decisions_are_uniform_witness :
  let p1 := deny (Scenario.request "Bearer hdr.pay.sig") in
  let p2 := deny (Scenario.request "Bearer hs.nosub.sig") in
  (fst (lambda_handler (Scenario.env 503 "unavailable")
                       (Scenario.request "Bearer hdr.pay.sig") Scenario.w0)
   = Returns p1
   /\ fst (lambda_handler (Scenario.env 200 "meta")
                          (Scenario.request "Bearer hs.nosub.sig") Scenario.w0)
      = Returns p2)
  /\ Dict.get "principalId" p1 = Some (PyStr "username")
  /\ Dict.get "principalId" p2 = Dict.get "principalId" p1
  /\ truthy (PyStr "username") = true
  /\ Dict.get "context" p1 = None
  /\ Dict.get "context" p2 = None
  /\ p1 = generate_policy "Deny" (methodArn (Scenario.request "Bearer hdr.pay.sig"))
                          (PyStr "username")
  /\ p2 = generate_policy "Deny" (methodArn (Scenario.request "Bearer hs.nosub.sig"))
                          (PyStr "username").
Proof.
  cbv zeta. split; [split; reflexivity|].
  exact (C8_deny_decisions_are_uniform
           (Scenario.env 503 "unavailable") (Scenario.env 200 "meta")
           (Scenario.request "Bearer hdr.pay.sig")
           (Scenario.request "Bearer hs.nosub.sig")
           Scenario.w0 Scenario.w0 _ _ eq_refl eq_refl eq_refl eq_refl).
Defined.

(** C9. A token that passes signature and claim verification but whose
    payload has no [sub] claim is neither allowed nor denied: the lookup
    [jwt_data["sub"]] raises [KeyError] and the exception leaves the
    handler. (A verified claim set holds [iss], so it is never empty and
    the handler does take the Allow branch.) *)
Theorem C9_missing_sub_is_a_fault (E : Env) (event : Event) (w : World)
        (tok : string) (claims : list (string * pyval)) :
  get_id_token event = Returns (Some tok) ->
  fst (id_token_is_valid E tok (AUDIENCE E) (AUTHORITY E) w)
  = Returns (PyDict claims) ->
  Dict.get "sub" claims = None ->
  fst (lambda_handler E event w) = Raises (KeyError "sub")
  /\ forall p, fst (lambda_handler E event w) <> Returns p.
Proof.
  intros Ht Hv Hsub.
  destruct (id_token_is_valid_returns_claims E tok _ _ w claims Hv) as [now Hval].
  pose proof (valid_claims_have_issuer E now claims _ _ Hval) as Hiss.
  assert (Htruthy : truthy (PyDict claims) = true)
    by (destruct claims; [discriminate | reflexivity]).
  assert (Hres : fst (lambda_handler E event w) = Raises (KeyError "sub")).
  { rewrite (lambda_handler_with_token E event w tok Ht).
    destruct (id_token_is_valid E tok (AUDIENCE E) (AUTHORITY E) w) as [o w'].
    simpl in Hv. subst o. rewrite Htruthy. unfold getitem. rewrite Hsub.
    reflexivity. }
  split; [exact Hres | intros p Hp; congruence].
Qed.

Lemma C9_missing_sub_is_a_fault_witness :
  let E := Scenario.env 200 "meta" in
  let event := Scenario.request "Bearer hdr.nosub.sig" in
  fst (id_token_is_valid E "hdr.nosub.sig" (AUDIENCE E) (AUTHORITY E) Scenario.w0)
  = Returns (PyDict [("iss", PyStr "https://idp"); ("aud", PyStr "api");
                     ("exp", PyInt 1000)])
  /\ fst (lambda_handler E event Scenario.w0) = Raises (KeyError "sub")
  /\ forall p, fst (lambda_handler E event Scenario.w0) <> Returns p.
Proof.
  cbv zeta. split; [reflexivity|].
  exact (C9_missing_sub_is_a_fault
           (Scenario.env 200 "meta") (Scenario.request "Bearer hdr.nosub.sig")
           Scenario.w0 "hdr.nosub.sig"
           [("iss", PyStr "https://idp"); ("aud", PyStr "api"); ("exp", PyInt 1000)]
           eq_refl eq_refl eq_refl).
Defined.

(** * More properties of the code *)

(** ** Headers *)

Lemma normalize_keeps (items acc : list (string * string)) (name : string) :
  (forall k v, In (k, v) items -> PyString.lower k <> name) ->
  Dict.get name
    (fold_left (fun a kv => Dict.set (PyString.lower (fst kv)) (snd kv) a) items acc)
  = Dict.get name acc.
Proof.
  revert acc. induction items as [|[k v] items IH]; intros acc Hno; simpl.
  - reflexivity.
  - rewrite IH.
    + rewrite dict_get_set. simpl.
      destruct (String.eqb (PyString.lower k) name) eqn:Ek; [|reflexivity].
      apply String.eqb_eq in Ek. exfalso.
      apply (Hno k v); [left; reflexivity | exact Ek].
    + intros k' v' Hin. apply (Hno k' v'). right. exact Hin.
Qed.

Lemma last_header_wins (hs1 hs2 : list (string * string)) (k v name : string) :
  PyString.lower k = name ->
  (forall k' v', In (k', v') hs2 -> PyString.lower k' <> name) ->
  Dict.get name (normalize_headers (hs1 ++ (k, v) :: hs2)) = Some v.
Proof.
  intros Hk Hno. unfold normalize_headers.
  rewrite fold_left_app. simpl. rewrite (normalize_keeps hs2 _ name Hno).
  rewrite dict_get_set. simpl. rewrite Hk, String.eqb_refl. reflexivity.
Qed.

(** X1. Header names are compared without case, and when several headers
    are named [authorization] up to case, the last one in the order of the
    mapping is the one read: the request is treated as if it had that
    header alone. *)
Theorem X1_last_authorization_header_is_read (hs1 hs2 : list (string * string))
        (k v arn : string) :
  PyString.lower k = "authorization" ->
  (forall k' v', In (k', v') hs2 -> PyString.lower k' <> "authorization") ->
  get_id_token {| headers := hs1 ++ (k, v) :: hs2; methodArn := arn |}
  = get_id_token {| headers := [("authorization", v)]; methodArn := arn |}.
Proof.
  intros Hk Hno. rewrite !get_id_token_cases. unfold authorization_value.
  cbn [headers]. rewrite (last_header_wins hs1 hs2 k v "authorization" Hk Hno).
  reflexivity.
Qed.

Lemma X1_last_authorization_header_is_read_witness :
  (PyString.lower "AUTHORIZATION" = "authorization"
   /\ forall k' v', In (k', v') [("Host", "example.org")] ->
                    PyString.lower k' <> "authorization")
  /\ get_id_token {| headers := [("authorization", "Bearer x.y.z");
                                 ("Accept", "*/*");
                                 ("AUTHORIZATION", "Bearer a.b.c");
                                 ("Host", "example.org")];
                     methodArn := "arn" |}
     = get_id_token {| headers := [("authorization", "Bearer a.b.c")];
                       methodArn := "arn" |}.
Proof.
  assert (Hno : forall k' v', In (k', v') [("Host", "example.org")] ->
                              PyString.lower k' <> "authorization").
  { intros k' v' [Heq | []]. inversion Heq. vm_compute. discriminate. }
  split; [split; [reflexivity | exact Hno]|].
  exact (X1_last_authorization_header_is_read
           [("authorization", "Bearer x.y.z"); ("Accept", "*/*")]
           [("Host", "example.org")]
           "AUTHORIZATION" "Bearer a.b.c" "arn" eq_refl Hno).
Defined.

(** ** The token returned *)

Lemma token_of_segments (value tok : string) :
  Scanner.token_of value = Some tok ->
  exists pre s1 s2 s3 rest,
    (pre = "" \/ exists c, Re.whitespace c = true /\ pre = "Bearer" ++ String c "")
    /\ is_segment s1 /\ is_segment s2 /\ is_segment s3
    /\ tok = s1 ++ "." ++ s2 ++ "." ++ s3
    /\ value = pre ++ tok ++ rest.
Proof.
  assert (Hscan : forall pre s t r,
             (pre = "" \/ exists c, Re.whitespace c = true
                                    /\ pre = "Bearer" ++ String c "") ->
             Scanner.scan s = Some (t, r) ->
             exists pre' s1 s2 s3 rest,
               (pre' = "" \/ exists c, Re.whitespace c = true
                                       /\ pre' = "Bearer" ++ String c "")
               /\ is_segment s1 /\ is_segment s2 /\ is_segment s3
               /\ t = s1 ++ "." ++ s2 ++ "." ++ s3
               /\ pre ++ s = pre' ++ t ++ rest).
  { intros pre s t r Hpre H. apply scan_spec in H.
    destruct H as [Hs [s1 [s2 [s3 [H1 [H2 [H3 Ht]]]]]]].
    exists pre, s1, s2, s3, r. repeat (split; [assumption|]).
    rewrite Hs. reflexivity. }
  unfold Scanner.token_of. intro H.
  destruct (Scanner.strip_bearer value) as [s'|] eqn:Eb.
  - destruct (Scanner.scan s') as [[t r]|] eqn:Es.
    + inversion H; subst t.
      apply strip_bearer_spec in Eb. destruct Eb as [c [Hc Hv]]. subst value.
      apply (Hscan ("Bearer" ++ String c "") s' tok r); [|exact Es].
      right. exists c. split; [exact Hc | reflexivity].
    + destruct (Scanner.scan value) as [[t r]|] eqn:Ev; [|discriminate].
      inversion H; subst t.
      apply (Hscan "" value tok r); [left; reflexivity | exact Ev].
  - destruct (Scanner.scan value) as [[t r]|] eqn:Ev; [|discriminate].
    inversion H; subst t.
    apply (Hscan "" value tok r); [left; reflexivity | exact Ev].
Qed.

(** X2. Whatever [get_id_token] returns is a well-formed token: a string,
    never [None] and never empty, made of three non-empty segments of
    URL-safe base64 characters joined by two dots, and found in the header
    value right after the optional [Bearer] and white-space character. So
    the test [not id_token] of the handler is false on every return. *)
Theorem X2_returned_token_is_three_segments (event : Event) (t : option string) :
  get_id_token event = Returns t ->
  exists value pre s1 s2 s3 rest,
    authorization_value event = Some value
    /\ (pre = "" \/ exists c, Re.whitespace c = true /\ pre = "Bearer" ++ String c "")
    /\ is_segment s1 /\ is_segment s2 /\ is_segment s3
    /\ t = Some (s1 ++ "." ++ s2 ++ "." ++ s3)
    /\ value = pre ++ (s1 ++ "." ++ s2 ++ "." ++ s3) ++ rest
    /\ no_token t = false.
Proof.
  intro H. destruct (get_id_token_returns event t H) as [tok0 [_ [_ Hno]]].
  revert H. rewrite get_id_token_cases.
  destruct (authorization_value event) as [value|]; [|discriminate].
  destruct (Scanner.token_of value) as [tok|] eqn:E; [|discriminate].
  intro H. inversion H; subst t.
  destruct (token_of_segments value tok E)
    as [pre [s1 [s2 [s3 [rest [Hpre [H1 [H2 [H3 [Ht Hv]]]]]]]]]].
  exists value, pre, s1, s2, s3, rest. subst tok.
  repeat (split; [assumption || reflexivity|]). exact Hno.
Qed.

Lemma X2_returned_token_is_three_segments_witness :
  get_id_token (Scenario.request "Bearer hdr.pay.sig trailing") = Returns (Some "hdr.pay.sig")
  /\ exists value pre s1 s2 s3 rest,
       authorization_value (Scenario.request "Bearer hdr.pay.sig trailing") = Some value
       /\ (pre = "" \/ exists c, Re.whitespace c = true /\ pre = "Bearer" ++ String c "")
       /\ is_segment s1 /\ is_segment s2 /\ is_segment s3
       /\ Some "hdr.pay.sig" = Some (s1 ++ "." ++ s2 ++ "." ++ s3)
       /\ value = pre ++ (s1 ++ "." ++ s2 ++ "." ++ s3) ++ rest
       /\ no_token (Some "hdr.pay.sig") = false.
Proof.
  split; [reflexivity|].
  exact (X2_returned_token_is_three_segments
           (Scenario.request "Bearer hdr.pay.sig trailing") (Some "hdr.pay.sig")
           eq_refl).
Defined.

(** X3. [get_id_token] returns a token exactly when the request has an
    authorization header whose value begins with the token shape (optional
    [Bearer] and one white-space character, then three dot-separated
    segments); what follows the shape is never looked at. *)
Theorem X3_extraction_succeeds_iff_value_begins_with_token (event : Event) :
  (exists tok, get_id_token event = Returns (Some tok))
  <-> (exists value, authorization_value event = Some value
                     /\ begins_with_token value).
Proof.
  rewrite get_id_token_cases. split.
  - intros [tok H].
    destruct (authorization_value event) as [value|]; [|discriminate].
    exists value. split; [reflexivity|].
    apply token_of_complete. destruct (Scanner.token_of value); [discriminate|].
    discriminate H.
  - intros [value [Hv Hshape]]. rewrite Hv.
    apply token_of_complete in Hshape.
    destruct (Scanner.token_of value) as [tok|]; [|contradiction].
    exists tok. reflexivity.
Qed.

(** ** The scheme word and its separator *)

Lemma append_nil (s : string) : s ++ "" = s.
Proof. induction s as [|c s IH]; simpl; [reflexivity | f_equal; exact IH]. Qed.

Lemma run_of_stops (w rest : string) (c : ascii) :
  Scanner.all_of token_char w = true -> token_char c = false ->
  Scanner.run_of token_char (w ++ String c rest) = w
  /\ Scanner.after_run token_char (w ++ String c rest) = String c rest.
Proof.
  intros Hw Hc.
  rewrite (run_of_app token_char w _ Hw), (after_run_app token_char w _ Hw).
  simpl. rewrite Hc. split; [apply append_nil | reflexivity].
Qed.

Lemma scan_stops_at_non_dot (w rest : string) (c : ascii) :
  Scanner.all_of token_char w = true -> token_char c = false -> c <> "."%char ->
  Scanner.scan (w ++ String c rest) = None.
Proof.
  intros Hw Hc Hdot. unfold Scanner.scan, Scanner.segment_dot.
  destruct (run_of_stops w rest c Hw Hc) as [Hr Ha]. rewrite Hr, Ha.
  destruct w as [|x w]; [reflexivity|].
  destruct (Ascii.eqb c ".") eqn:E; [|reflexivity].
  apply Ascii.eqb_eq in E. contradiction.
Qed.

Lemma strip_bearer_needs_bearer (w rest : string) (c : ascii) :
  Scanner.all_of token_char w = true -> token_char c = false ->
  w <> "Bearer" \/ Re.whitespace c = false ->
  Scanner.strip_bearer (w ++ String c rest) = None.
Proof.
  intros Hw Hc Hother.
  destruct (Scanner.strip_bearer (w ++ String c rest)) as [s'|] eqn:E;
    [|reflexivity].
  exfalso. apply strip_bearer_spec in E. destruct E as [c' [Hc' Heq]].
  destruct (run_of_stops w rest c Hw Hc) as [Hr Ha].
  assert (Hc'' : token_char c' = false).
  { destruct (token_char c') eqn:T; [|reflexivity].
    rewrite (token_char_not_space c' T) in Hc'. discriminate. }
  destruct (run_of_stops "Bearer" s' c' eq_refl Hc'') as [Hr' Ha'].
  rewrite Heq in Hr, Ha. rewrite Hr' in Hr. rewrite Ha' in Ha.
  inversion Ha; subst c'.
  destruct Hother as [Hne | Hws]; [apply Hne; symmetry; exact Hr | congruence].
Qed.

(** X4. Only the exact word [Bearer] followed by a white-space character is
    skipped as a scheme. A value that starts with any other word (another
    scheme, [bearer] in lower case, [Bearer] followed by a colon, or
    nothing at all) and then a character that is neither a token character
    nor a dot is rejected with [ValueError("Invalid authorization header
    format.")], however well-formed the token that follows. *)
Theorem X4_other_scheme_words_are_rejected (event : Event) (w rest : string)
        (c : ascii) :
  Scanner.all_of token_char w = true ->
  token_char c = false ->
  c <> "."%char ->
  w <> "Bearer" \/ Re.whitespace c = false ->
  authorization_value event = Some (w ++ String c rest) ->
  get_id_token event = Raises (ValueError "Invalid authorization header format.").
Proof.
  intros Hw Hc Hdot Hother Hv. rewrite get_id_token_cases, Hv.
  unfold Scanner.token_of.
  rewrite (strip_bearer_needs_bearer w rest c Hw Hc Hother),
          (scan_stops_at_non_dot w rest c Hw Hc Hdot).
  reflexivity.
Qed.

Lemma X4_other_scheme_words_are_rejected_witness :
  (Scanner.all_of token_char "bearer" = true
   /\ token_char " " = false
   /\ " "%char <> "."%char
   /\ ("bearer" <> "Bearer" \/ Re.whitespace " " = false)
   /\ authorization_value (Scenario.request "bearer hdr.pay.sig")
      = Some ("bearer" ++ String " " "hdr.pay.sig"))
  /\ get_id_token (Scenario.request "bearer hdr.pay.sig")
     = Raises (ValueError "Invalid authorization header format.").
Proof.
  assert (Hdot : " "%char <> "."%char) by discriminate.
  assert (Hother : "bearer" <> "Bearer" \/ Re.whitespace " " = false)
    by (left; discriminate).
  split.
  - split; [reflexivity | split; [reflexivity | split; [exact Hdot|]]].
    split; [exact Hother | reflexivity].
  - exact (X4_other_scheme_words_are_rejected
             (Scenario.request "bearer hdr.pay.sig") "bearer" "hdr.pay.sig" " "
             eq_refl eq_refl Hdot Hother eq_refl).
Defined.

(** X5. The separator after [Bearer] is the escape [\s], not a literal
    space: any one white-space character (a tab, a line feed, a
    no-break space, ...) is accepted, and the token after it is returned
    as after a space. *)
Theorem X5_any_whitespace_separates (event : Event) (c : ascii)
        (s1 s2 s3 rest : string) :
  Re.whitespace c = true ->
  is_segment s1 -> is_segment s2 -> is_segment s3 ->
  authorization_value event
  = Some (("Bearer" ++ String c "") ++ s1 ++ "." ++ s2 ++ "." ++ s3 ++ rest) ->
  get_id_token event
  = Returns (Some (s1 ++ "." ++ s2 ++ "." ++ s3 ++ Scanner.run_of token_char rest)).
Proof.
  intros Hc H1 H2 H3 Hv. rewrite get_id_token_cases, Hv.
  rewrite (token_of_three_segments ("Bearer" ++ String c "") s1 s2 s3 rest);
    try assumption; [reflexivity|].
  right. exists c. split; [exact Hc | reflexivity].
Qed.

Lemma X5_any_whitespace_separates_witness :
  (Re.whitespace "009" = true
   /\ is_segment "hdr" /\ is_segment "pay" /\ is_segment "sig")
  /\ get_id_token (Scenario.request ("Bearer" ++ String "009" "hdr.pay.sig"))
     = Returns (Some "hdr.pay.sig").
Proof.
  assert (H1 : is_segment "hdr") by (split; [discriminate | reflexivity]).
  assert (H2 : is_segment "pay") by (split; [discriminate | reflexivity]).
  assert (H3 : is_segment "sig") by (split; [discriminate | reflexivity]).
  split; [exact (conj eq_refl (conj H1 (conj H2 H3)))|].
  exact (X5_any_whitespace_separates
           (Scenario.request ("Bearer" ++ String "009" "hdr.pay.sig"))
           "009" "hdr" "pay" "sig" "" eq_refl H1 H2 H3 eq_refl).
Defined.

(** X6. The separator is one character: when [Bearer] and a white-space
    character are followed by anything but a token character (a second
    space, for instance), the value is rejected with [ValueError("Invalid
    authorization header format.")]. *)
Theorem X6_one_separator_only (event : Event) (c1 c2 : ascii) (rest : string) :
  Re.whitespace c1 = true ->
  token_char c2 = false ->
  authorization_value event = Some ("Bearer" ++ String c1 (String c2 rest)) ->
  get_id_token event = Raises (ValueError "Invalid authorization header format.").
Proof.
  intros Hc1 Hc2 Hv. rewrite get_id_token_cases, Hv.
  assert (Ht1 : token_char c1 = false).
  { destruct (token_char c1) eqn:T; [|reflexivity].
    rewrite (token_char_not_space c1 T) in Hc1. discriminate. }
  assert (Hd1 : c1 <> "."%char) by (intro; subst c1; discriminate Hc1).
  unfold Scanner.token_of.
  change ("Bearer" ++ String c1 (String c2 rest))
    with (("Bearer" ++ String c1 "") ++ String c2 rest) at 1.
  rewrite (strip_bearer_prefix c1 _ Hc1).
  rewrite (scan_stops_at_non_dot "Bearer" (String c2 rest) c1 eq_refl Ht1 Hd1).
  assert (Hs : Scanner.scan (String c2 rest) = None).
  { unfold Scanner.scan, Scanner.segment_dot. simpl. rewrite Hc2. reflexivity. }
  rewrite Hs. reflexivity.
Qed.

Lemma X6_one_separator_only_witness :
  (Re.whitespace " " = true /\ token_char " " = false)
  /\ get_id_token (Scenario.request "Bearer  hdr.pay.sig")
     = Raises (ValueError "Invalid authorization header format.").
Proof.
  split; [split; reflexivity|].
  exact (X6_one_separator_only (Scenario.request "Bearer  hdr.pay.sig")
                               " " " " "hdr.pay.sig" eq_refl eq_refl eq_refl).
Defined.

(** ** The decisions of the handler *)

(** X7. Every decision the handler returns is well-formed and scoped to the
    resource of the request: version 2012-10-17 and the single statement
    execute-api:Invoke / effect / [methodArn]. It is either the Deny
    decision, with the placeholder principal and no [context], or an Allow
    decision whose [context.username] is its [principalId]; it has no other
    field. *)
Theorem X7_decisions_are_well_formed (E : Env) (event : Event) (w : World)
        (p : policy) :
  fst (lambda_handler E event w) = Returns p ->
  version_of p = Some (PyStr "2012-10-17")
  /\ ((statements_of p = Some [invoke_statement "Deny" (methodArn event)]
       /\ Dict.get "principalId" p = Some (PyStr "username")
       /\ Dict.get "context" p = None
       /\ map fst p = ["principalId"; "policyDocument"])
      \/ exists sub,
           statements_of p = Some [invoke_statement "Allow" (methodArn event)]
           /\ Dict.get "principalId" p = Some sub
           /\ Dict.get "context" p = Some (PyDict [("username", sub)])
           /\ map fst p = ["principalId"; "policyDocument"; "context"]).
Proof.
  intro H. destruct (lambda_handler_returns E event w p H) as [Hp | [sub Hp]];
    subst p.
  - split; [reflexivity | left]. repeat split; reflexivity.
  - split; [reflexivity | right]. exists sub. repeat split; reflexivity.
Qed.

Lemma X7_decisions_are_well_formed_witness :
  let event := Scenario.request "Bearer hdr.pay.sig" in
  let p := allow event (PyStr "user-123") in
  fst (lambda_handler Cases.env event Scenario.w0) = Returns p
  /\ version_of p = Some (PyStr "2012-10-17")
  /\ ((statements_of p = Some [invoke_statement "Deny" (methodArn event)]
       /\ Dict.get "principalId" p = Some (PyStr "username")
       /\ Dict.get "context" p = None
       /\ map fst p = ["principalId"; "policyDocument"])
      \/ exists sub,
           statements_of p = Some [invoke_statement "Allow" (methodArn event)]
           /\ Dict.get "principalId" p = Some sub
           /\ Dict.get "context" p = Some (PyDict [("username", sub)])
           /\ map fst p = ["principalId"; "policyDocument"; "context"]).
Proof.
  cbv zeta. split; [reflexivity|].
  exact (X7_decisions_are_well_formed
           Cases.env (Scenario.request "Bearer hdr.pay.sig") Scenario.w0
           (allow (Scenario.request "Bearer hdr.pay.sig") (PyStr "user-123"))
           eq_refl).
Defined.

(** ** The network *)

Lemma lambda_handler_world (E : Env) (event : Event) (w : World) (tok : string) :
  get_id_token event = Returns (Some tok) ->
  snd (lambda_handler E event w)
  = snd (id_token_is_valid E tok (AUDIENCE E) (AUTHORITY E) w).
Proof.
  intro Ht. rewrite (lambda_handler_with_token E event w tok Ht).
  destruct (id_token_is_valid E tok (AUDIENCE E) (AUTHORITY E) w) as [[v|e] w'];
    [|reflexivity].
  destruct (truthy v); [|reflexivity].
  destruct (getitem v "sub"); reflexivity.
Qed.

(** X8. Without crypto support in PyJWT the function gives up before it
    touches the network: every request carrying a token is denied, valid
    token or not, and nothing is fetched. *)
Theorem X8_no_crypto_denies_without_network (E : Env) (event : Event) (w : World)
        (tok : string) :
  has_crypto E = false ->
  get_id_token event = Returns (Some tok) ->
  lambda_handler E event w = (Returns (deny event), w).
Proof.
  intros Hc Ht. apply (lambda_handler_denies E event w w tok Ht).
  apply id_token_is_valid_no_crypto. exact Hc.
Qed.

Lemma X8_no_crypto_denies_without_network_witness :
  (has_crypto Cases.no_crypto = false
   /\ get_id_token (Scenario.request "Bearer hdr.pay.sig") = Returns (Some "hdr.pay.sig")
   /\ fst (lambda_handler Cases.env (Scenario.request "Bearer hdr.pay.sig") Scenario.w0)
      = Returns (allow (Scenario.request "Bearer hdr.pay.sig") (PyStr "user-123")))
  /\ lambda_handler Cases.no_crypto (Scenario.request "Bearer hdr.pay.sig") Scenario.w0
     = (Returns (deny (Scenario.request "Bearer hdr.pay.sig")), Scenario.w0).
Proof.
  split; [split; [reflexivity | split; reflexivity]|].
  exact (X8_no_crypto_denies_without_network
           Cases.no_crypto (Scenario.request "Bearer hdr.pay.sig") Scenario.w0
           "hdr.pay.sig" eq_refl eq_refl).
Defined.

Lemma protected_block_without_uri (E : Env) (tok aud auth : string) (meta : pyval)
      (w : World) :
  (forall uri, getitem meta "jwks_uri" <> Returns uri) ->
  snd (protected_block E tok aud auth meta w) = w.
Proof.
  intro Hno. unfold protected_block, try_except_PyJWTError.
  unfold bind at 1, lift at 1.
  destruct (match verify_arg E with
            | Some p => load_verify_locations E p
            | None => Returns tt
            end) as [[]|e]; [|destruct e; reflexivity].
  unfold bind at 1, lift at 1.
  destruct (getitem meta "jwks_uri") as [uri|e] eqn:Hg;
    [exfalso; exact (Hno uri eq_refl) | destruct e; reflexivity].
Qed.

(** X9. With a token and crypto support, one run of the handler fetches the
    discovery document of the authority exactly once, and it does not go
    to the key set unless that fetch answered 200 with a JSON body that
    has a [jwks_uri]. *)
Theorem X9_discovery_first_key_set_after (E : Env) (event : Event) (w : World)
        (tok : string) :
  get_id_token event = Returns (Some tok) ->
  has_crypto E = true ->
  discovery_fetches (snd (lambda_handler E event w))
  = discovery_url (AUTHORITY E) :: discovery_fetches w
  /\ ((forall uri, ~ discovery_ok E w uri) ->
      keyset_fetches (snd (lambda_handler E event w)) = keyset_fetches w).
Proof.
  intros Ht Hc. rewrite (lambda_handler_world E event w tok Ht). split.
  - exact (proj1 (id_token_is_valid_fetches_discovery
                    E tok (AUDIENCE E) (AUTHORITY E) w Hc)).
  - intro Hno. rewrite id_token_is_valid_eq, Hc. cbv zeta.
    destruct (http_get E w (discovery_url (AUTHORITY E)) (verify_arg E))
      as [resp|e] eqn:Hget; [|reflexivity].
    destruct (status_code resp =? 200)%Z eqn:Hst; [|reflexivity].
    destruct (json_loads E (content resp)) as [meta|] eqn:Hjs; [|reflexivity].
    rewrite protected_block_without_uri; [reflexivity|].
    intros uri Huri. apply (Hno uri). exists resp, meta.
    apply Z.eqb_eq in Hst. repeat split; assumption.
Qed.

Lemma X9_discovery_first_key_set_after_witness :
  let E := Scenario.env 200 "nokeys" in
  let event := Scenario.request "Bearer hdr.pay.sig" in
  (get_id_token event = Returns (Some "hdr.pay.sig") /\ has_crypto E = true)
  /\ discovery_fetches (snd (lambda_handler E event Scenario.w0))
     = discovery_url (AUTHORITY E) :: discovery_fetches Scenario.w0
  /\ ((forall uri, ~ discovery_ok E Scenario.w0 uri) ->
      keyset_fetches (snd (lambda_handler E event Scenario.w0))
      = keyset_fetches Scenario.w0).
Proof.
  cbv zeta. split; [split; reflexivity|].
  exact (X9_discovery_first_key_set_after
           (Scenario.env 200 "nokeys") (Scenario.request "Bearer hdr.pay.sig")
           Scenario.w0 "hdr.pay.sig" eq_refl eq_refl).
Defined.

(** ** Exceptions that are not [PyJWTError]s *)

(** X10. The discovery fetch is made outside the [try] statement: an
    exception of [requests.get] (no connection, a timeout, an invalid URL)
    is not turned into a decision, it leaves [id_token_is_valid] and the
    handler. *)
Theorem X10_discovery_exception_leaves_the_handler (E : Env) (event : Event)
        (w : World) (tok : string) (e : exn) :
  get_id_token event = Returns (Some tok) ->
  has_crypto E = true ->
  http_get E w (discovery_url (AUTHORITY E)) (verify_arg E) = Raises e ->
  lambda_handler E event w = (Raises e, after_discovery E w).
Proof.
  intros Ht Hc Hget. rewrite (lambda_handler_with_token E event w tok Ht).
  rewrite id_token_is_valid_eq, Hc. cbv zeta. rewrite Hget. reflexivity.
Qed.

Lemma X10_discovery_exception_leaves_the_handler_witness :
  let event := Scenario.request "Bearer hdr.pay.sig" in
  (get_id_token event = Returns (Some "hdr.pay.sig")
   /\ has_crypto Cases.offline = true
   /\ http_get Cases.offline Scenario.w0 (discovery_url (AUTHORITY Cases.offline))
               (verify_arg Cases.offline) = Raises RequestException)
  /\ lambda_handler Cases.offline event Scenario.w0
     = (Raises RequestException, after_discovery Cases.offline Scenario.w0).
Proof.
  cbv zeta. split; [split; [reflexivity | split; reflexivity]|].
  exact (X10_discovery_exception_leaves_the_handler
           Cases.offline (Scenario.request "Bearer hdr.pay.sig") Scenario.w0
           "hdr.pay.sig" RequestException eq_refl eq_refl eq_refl).
Defined.

(** X11. The CA bundle named by [SSL_CERT_FILE] is loaded inside the [try]
    statement, but the handler of that statement is for [PyJWTError] only:
    when the bundle cannot be loaded, the exception leaves
    [id_token_is_valid] and the handler, after the discovery document has
    been fetched and before any key set is. *)
Theorem X11_unloadable_bundle_leaves_the_handler (E : Env) (event : Event)
        (w : World) (tok bundle : string) (resp : Response) (meta : pyval) (e : exn) :
  get_id_token event = Returns (Some tok) ->
  has_crypto E = true ->
  http_get E w (discovery_url (AUTHORITY E)) (verify_arg E) = Returns resp ->
  status_code resp = 200%Z ->
  json_loads E (content resp) = Some meta ->
  verify_arg E = Some bundle ->
  load_verify_locations E bundle = Raises e ->
  (forall je, e <> PyJWTError je) ->
  lambda_handler E event w = (Raises e, after_discovery E w).
Proof.
  intros Ht Hc Hget Hst Hjs Hb Hload Hnj.
  rewrite (lambda_handler_with_token E event w tok Ht).
  rewrite id_token_is_valid_eq, Hc. cbv zeta. rewrite Hget, Hst, Hjs.
  cbn [Z.eqb Pos.eqb].
  unfold protected_block, try_except_PyJWTError.
  unfold bind at 1, lift at 1. rewrite Hb, Hload.
  destruct e; try reflexivity. exfalso. exact (Hnj e eq_refl).
Qed.

Lemma X11_unloadable_bundle_leaves_the_handler_witness :
  let event := Scenario.request "Bearer hdr.pay.sig" in
  (get_id_token event = Returns (Some "hdr.pay.sig")
   /\ verify_arg Cases.bad_bundle = Some "/opt/ca.pem"
   /\ load_verify_locations Cases.bad_bundle "/opt/ca.pem" = Raises OSError)
  /\ lambda_handler Cases.bad_bundle event Scenario.w0
     = (Raises OSError, after_discovery Cases.bad_bundle Scenario.w0).
Proof.
  cbv zeta. split; [split; [reflexivity | split; reflexivity]|].
  apply (X11_unloadable_bundle_leaves_the_handler
           Cases.bad_bundle (Scenario.request "Bearer hdr.pay.sig") Scenario.w0
           "hdr.pay.sig" "/opt/ca.pem"
           {| status_code := 200; content := "meta" |}
           (PyDict [("jwks_uri", PyStr "https://idp/keys")]) OSError);
    try reflexivity.
  intros je. discriminate.
Defined.

(** ** What becomes of the protected block *)

Lemma protected_block_outcome (E : Env) (tok aud auth : string) (meta uri : pyval)
      (w : World) :
  trust_store_ok E ->
  getitem meta "jwks_uri" = Returns uri ->
  protected_block E tok aud auth meta w
  = match Jwks.get_signing_key_from_jwt E (fresh_client uri) tok w with
    | (Returns kc, w1) =>
        match Jwt.decode E tok (key (fst kc)) ["RS256"] auth aud w1 with
        | (Returns data, w2) => (Returns (PyDict data), w2)
        | (Raises (PyJWTError _), w2) => (Returns (PyBool false), w2)
        | (Raises e, w2) => (Raises e, w2)
        end
    | (Raises (PyJWTError _), w1) => (Returns (PyBool false), w1)
    | (Raises e, w1) => (Raises e, w1)
    end.
Proof.
  intros Hts Huri. unfold protected_block, try_except_PyJWTError.
  unfold bind at 1, lift at 1. rewrite (trust_store_loaded E Hts).
  unfold bind at 1, lift at 1. rewrite Huri.
  unfold bind at 1, lift at 1. rewrite new_client.
  unfold bind at 1. fold (fresh_client uri).
  destruct (Jwks.get_signing_key_from_jwt E (fresh_client uri) tok w)
    as [[kc|e] w1]; [|destruct e; reflexivity].
  unfold bind at 1.
  destruct (Jwt.decode E tok (key (fst kc)) ["RS256"] auth aud w1)
    as [[data|e] w2]; [reflexivity | destruct e; reflexivity].
Qed.

(** The handler, once the discovery document is in and the trust store is
    in order. *)
Lemma lambda_handler_after_discovery (E : Env) (event : Event) (w : World)
      (tok : string) (uri : pyval) :
  get_id_token event = Returns (Some tok) ->
  has_crypto E = true ->
  discovery_ok E w uri ->
  trust_store_ok E ->
  forall w',
    (exists je,
        Jwks.get_signing_key_from_jwt E (fresh_client uri) tok (after_discovery E w)
        = (Raises (PyJWTError je), w'))
    \/ (exists kc w1 je,
           Jwks.get_signing_key_from_jwt E (fresh_client uri) tok (after_discovery E w)
           = (Returns kc, w1)
           /\ Jwt.decode E tok (key (fst kc)) ["RS256"] (AUTHORITY E) (AUDIENCE E) w1
              = (Raises (PyJWTError je), w')) ->
    lambda_handler E event w = (Returns (deny event), w').
Proof.
  intros Ht Hc [resp [meta [Hget [Hst [Hjs Huri]]]]] Hts w' H.
  apply (lambda_handler_denies E event w w' tok Ht).
  rewrite id_token_is_valid_eq, Hc. cbv zeta. rewrite Hget, Hst, Hjs.
  cbn [Z.eqb Pos.eqb].
  rewrite (protected_block_outcome E tok _ _ meta uri _ Hts Huri).
  fold (after_discovery E w). rewrite <- after_discovery_eq.
  destruct H as [[je H] | [kc [w1 [je [H1 H2]]]]].
  - rewrite H. reflexivity.
  - rewrite H1, H2. reflexivity.
Qed.

(** ** Claims that do not validate *)

Lemma validate_time_raises (E : Env) (claims : list (string * pyval))
      (name : string) (not_int : jwt_error) (bad : Z -> bool) (error : jwt_error)
      (e : exn) :
  int_like name claims ->
  Jwt.validate_time E claims name not_int bad error = Raises e ->
  exists je, e = PyJWTError je.
Proof.
  unfold int_like, Jwt.validate_time, Jwt.py_int, Jwt.fail. intros H Hr.
  destruct (Dict.get name claims) as [[| b | z | s | l | d | [num den | neg |]]|];
    try contradiction; try discriminate.
  - destruct (bad (if b then 1 else 0)%Z); inversion Hr. eexists; reflexivity.
  - destruct (bad z); inversion Hr. eexists; reflexivity.
  - destruct (int_of_str E s) as [z|].
    + destruct (bad z); inversion Hr. eexists; reflexivity.
    + inversion Hr. eexists; reflexivity.
  - simpl in Hr. destruct (bad (Z.quot num (Z.pos den))); inversion Hr.
    eexists; reflexivity.
  - simpl in Hr. inversion Hr. eexists; reflexivity.
Qed.

Lemma validate_iss_raises (claims : list (string * pyval)) (issuer : string) (e : exn) :
  Jwt.validate_iss claims issuer = Raises e -> exists je, e = PyJWTError je.
Proof.
  unfold Jwt.validate_iss, Jwt.fail. intro H.
  repeat match type of H with
         | match ?x with _ => _ end = _ => destruct x
         | (if ?x then _ else _) = _ => destruct x
         end;
    inversion H; eexists; reflexivity.
Qed.

Lemma validate_aud_raises (claims : list (string * pyval)) (audience : string) (e : exn) :
  Jwt.validate_aud claims audience = Raises e -> exists je, e = PyJWTError je.
Proof.
  unfold Jwt.validate_aud, Jwt.fail. intro H.
  repeat match type of H with
         | match ?x with _ => _ end = _ => destruct x
         | (if ?x then _ else _) = _ => destruct x
         end;
    inversion H; eexists; reflexivity.
Qed.

Lemma validate_claims_raises (E : Env) (now : Z) (claims : list (string * pyval))
      (iss aud : string) (e : exn) :
  int_like "iat" claims -> int_like "nbf" claims -> int_like "exp" claims ->
  Jwt.validate_claims E now claims iss aud = Raises e ->
  exists je, e = PyJWTError je.
Proof.
  intros Hiat Hnbf Hexp. unfold Jwt.validate_claims, Jwt.seq.
  destruct (Jwt.validate_time E claims "iat" _ _ _) as [[]|e1] eqn:H1.
  2:{ intro H. inversion H; subst e1. exact (validate_time_raises _ _ _ _ _ _ _ Hiat H1). }
  destruct (Jwt.validate_time E claims "nbf" _ _ _) as [[]|e2] eqn:H2.
  2:{ intro H. inversion H; subst e2. exact (validate_time_raises _ _ _ _ _ _ _ Hnbf H2). }
  destruct (Jwt.validate_time E claims "exp" _ _ _) as [[]|e3] eqn:H3.
  2:{ intro H. inversion H; subst e3. exact (validate_time_raises _ _ _ _ _ _ _ Hexp H3). }
  destruct (Jwt.validate_iss claims iss) as [[]|e4] eqn:H4.
  2:{ intro H. inversion H; subst e4. exact (validate_iss_raises _ _ _ H4). }
  apply validate_aud_raises.
Qed.

Lemma expired_is_invalid (E : Env) (now t : Z) (claims : list (string * pyval))
      (iss aud : string) :
  Dict.get "exp" claims = Some (PyInt t) -> (t <= now)%Z ->
  Jwt.validate_claims E now claims iss aud <> Returns tt.
Proof.
  intros Hexp Hle. unfold Jwt.validate_claims, Jwt.seq.
  destruct (Jwt.validate_time E claims "iat" _ _ _); [|discriminate].
  destruct (Jwt.validate_time E claims "nbf" _ _ _); [|discriminate].
  unfold Jwt.validate_time at 1. rewrite Hexp. cbn [Jwt.py_int].
  apply Z.leb_le in Hle. rewrite Hle. discriminate.
Qed.

Lemma other_audience_is_invalid (E : Env) (now : Z) (claims : list (string * pyval))
      (iss aud a : string) :
  Dict.get "aud" claims = Some (PyStr a) -> a <> aud ->
  Jwt.validate_claims E now claims iss aud <> Returns tt.
Proof.
  intros Haud Hne. unfold Jwt.validate_claims, Jwt.seq.
  destruct (Jwt.validate_time E claims "iat" _ _ _); [|discriminate].
  destruct (Jwt.validate_time E claims "nbf" _ _ _); [|discriminate].
  destruct (Jwt.validate_time E claims "exp" _ _ _); [|discriminate].
  destruct (Jwt.validate_iss claims iss); [|discriminate].
  unfold Jwt.validate_aud. rewrite Haud.
  destruct (truthy (PyStr a)); [|discriminate]. cbn.
  destruct (String.eqb a aud) eqn:Ea; [|discriminate].
  apply String.eqb_eq in Ea. contradiction.
Qed.

Lemma decode_with_invalid_claims (E : Env) (tok iss aud : string) (j : Jwt.JWS)
      (k : PyJWK) (claims : list (string * pyval)) (w : World) :
  Jwt.load E tok = Returns j ->
  signature_verifies E j k ->
  Jwt.decode_payload E j = Returns claims ->
  int_like "iat" claims -> int_like "nbf" claims -> int_like "exp" claims ->
  Jwt.validate_claims E (clock w) claims iss aud <> Returns tt ->
  exists je,
    Jwt.decode E tok (key k) ["RS256"] iss aud w = (Raises (PyJWTError je), w).
Proof.
  intros Hload [Halg Hsig] Hpay Hiat Hnbf Hexp Hinv.
  unfold Jwt.decode. rewrite Hload.
  unfold Jwt.verify_signature. rewrite Halg. cbn. rewrite Hsig, Hpay.
  destruct (Jwt.validate_claims E (clock w) claims iss aud) as [[]|e] eqn:Hv;
    [contradiction|].
  destruct (validate_claims_raises E _ claims iss aud e Hiat Hnbf Hexp Hv) as [je Hje].
  subst e. exists je. reflexivity.
Qed.

(** A verified signature does not help claims that do not validate. *)
Lemma invalid_claims_are_denied (E : Env) (event : Event) (w : World)
      (tok : string) (uri : pyval) (j : Jwt.JWS) (k : PyJWK)
      (claims : list (string * pyval)) :
  get_id_token event = Returns (Some tok) ->
  has_crypto E = true ->
  discovery_ok E w uri ->
  trust_store_ok E ->
  Jwt.load E tok = Returns j ->
  key_in_set E (after_discovery E w) uri j k ->
  signature_verifies E j k ->
  Jwt.decode_payload E j = Returns claims ->
  int_like "iat" claims -> int_like "nbf" claims -> int_like "exp" claims ->
  Jwt.validate_claims E (clock w) claims (AUTHORITY E) (AUDIENCE E) <> Returns tt ->
  exists w', lambda_handler E event w = (Returns (deny event), w').
Proof.
  intros Ht Hc Hd Hts Hload Hkey Hsig Hpay Hiat Hnbf Hexp Hinv.
  destruct (resolve_key E (after_discovery E w) uri tok j claims k
                        (fresh_client uri) (new_client uri) Hload Hpay Hkey)
    as [c' Hres].
  destruct (decode_with_invalid_claims
              E tok (AUTHORITY E) (AUDIENCE E) j k claims
              (Jwks.log_keyset_fetch uri (after_discovery E w))
              Hload Hsig Hpay Hiat Hnbf Hexp Hinv) as [je Hdec].
  eexists. apply (lambda_handler_after_discovery E event w tok uri Ht Hc Hd Hts).
  right. exists (k, c'), (Jwks.log_keyset_fetch uri (after_discovery E w)), je.
  split; [exact Hres | exact Hdec].
Qed.

Lemma expired_value_is_invalid (E : Env) (now : Z) (exp : pyval) (t : Z)
      (claims : list (string * pyval)) (iss aud : string) :
  Dict.get "exp" claims = Some exp -> Jwt.py_int E exp = Returns t ->
  (t <= now)%Z ->
  Jwt.validate_claims E now claims iss aud <> Returns tt.
Proof.
  intros Hexp Hint Hle. unfold Jwt.validate_claims, Jwt.seq.
  destruct (Jwt.validate_time E claims "iat" _ _ _); [|discriminate].
  destruct (Jwt.validate_time E claims "nbf" _ _ _); [|discriminate].
  unfold Jwt.validate_time at 1. rewrite Hexp, Hint.
  apply Z.leb_le in Hle. rewrite Hle. discriminate.
Qed.

(** X12. A token whose [exp] converts to a time that is not in the future
    is denied, even though its signature verifies under a key of the key set,
    provided [int()] converts its [iat] and [nbf], which are checked first
    (each is absent, an integer, a boolean, a string, a finite float or
    NaN): [jwt.decode] raises a [PyJWTError] and the handler of the [try]
    statement turns that into [False]. *)
Theorem X12_expired_token_is_denied (E : Env) (event : Event) (w : World)
        (tok : string) (j : Jwt.JWS) (k : PyJWK) (claims : list (string * pyval))
        (exp : pyval) (t : Z) :
  key_resolved E event w tok j k ->
  signature_verifies E j k ->
  Jwt.decode_payload E j = Returns claims ->
  int_like "iat" claims -> int_like "nbf" claims ->
  Dict.get "exp" claims = Some exp ->
  Jwt.py_int E exp = Returns t ->
  (t <= clock w)%Z ->
  exists w', lambda_handler E event w = (Returns (deny event), w').
Proof.
  intros [Ht [Hc [Hts [Hload [uri [Hd Hkey]]]]]] Hsig Hpay Hiat Hnbf Hexp Hint Hle.
  apply (invalid_claims_are_denied E event w tok uri j k claims); try assumption.
  - unfold int_like. rewrite Hexp.
    destruct exp as [| | | | | |[| |]]; try exact I; discriminate Hint.
  - exact (expired_value_is_invalid E (clock w) exp t claims _ _ Hexp Hint Hle).
Qed.

(** X13. A token whose [aud] is a string other than [AUDIENCE] is denied,
    even though its signature verifies and it has not expired, provided
    [int()] converts its [iat], [nbf] and [exp], which are checked first
    (each is absent, an integer, a boolean, a string, a finite float or
    NaN). *)
Theorem X13_other_audience_is_denied (E : Env) (event : Event) (w : World)
        (tok : string) (j : Jwt.JWS) (k : PyJWK) (claims : list (string * pyval))
        (a : string) :
  key_resolved E event w tok j k ->
  signature_verifies E j k ->
  Jwt.decode_payload E j = Returns claims ->
  int_like "iat" claims -> int_like "nbf" claims -> int_like "exp" claims ->
  Dict.get "aud" claims = Some (PyStr a) ->
  a <> AUDIENCE E ->
  exists w', lambda_handler E event w = (Returns (deny event), w').
Proof.
  intros [Ht [Hc [Hts [Hload [uri [Hd Hkey]]]]]] Hsig Hpay Hiat Hnbf Hexp Haud Hne.
  apply (invalid_claims_are_denied E event w tok uri j k claims); try assumption.
  exact (other_audience_is_invalid E (clock w) claims _ _ a Haud Hne).
Qed.

(** X14. A token whose [iss] is not exactly [AUTHORITY] (another issuer, a
    value that is not a string, or no [iss] at all) is denied, even though
    its signature verifies under a key of the key set of the authority,
    provided [int()] converts its [iat], [nbf] and [exp], which are checked
    first (each is absent, an integer, a boolean, a string, a finite float
    or NaN). *)
Theorem X14_other_issuer_is_denied (E : Env) (event : Event) (w : World)
        (tok : string) (j : Jwt.JWS) (k : PyJWK) (claims : list (string * pyval)) :
  key_resolved E event w tok j k ->
  signature_verifies E j k ->
  Jwt.decode_payload E j = Returns claims ->
  int_like "iat" claims -> int_like "nbf" claims -> int_like "exp" claims ->
  Dict.get "iss" claims <> Some (PyStr (AUTHORITY E)) ->
  exists w', lambda_handler E event w = (Returns (deny event), w').
Proof.
  intros [Ht [Hc [Hts [Hload [uri [Hd Hkey]]]]]] Hsig Hpay Hiat Hnbf Hexp Hiss.
  apply (invalid_claims_are_denied E event w tok uri j k claims); try assumption.
  intro Hv. apply Hiss. exact (valid_claims_have_issuer E _ claims _ _ Hv).
Qed.

(** X15. A token whose header declares RS256 but whose signature does not
    verify under the key of the key set is denied, whatever its claims. *)
Theorem X15_bad_signature_is_denied (E : Env) (event : Event) (w : World)
        (tok : string) (j : Jwt.JWS) (k : PyJWK) (claims : list (string * pyval)) :
  key_resolved E event w tok j k ->
  Jwt.decode_payload E j = Returns claims ->
  Jwt.declared_alg j = Some (PyStr "RS256") ->
  sig_verify E "RS256" (key k) (Jwt.signing_input j) (Jwt.signature j)
  = Returns false ->
  exists w', lambda_handler E event w = (Returns (deny event), w').
Proof.
  intros [Ht [Hc [Hts [Hload [uri [Hd Hkey]]]]]] Hpay Halg Hsig.
  destruct (resolve_key E (after_discovery E w) uri tok j claims k
                        (fresh_client uri) (new_client uri) Hload Hpay Hkey)
    as [c' Hres].
  eexists. apply (lambda_handler_after_discovery E event w tok uri Ht Hc Hd Hts).
  right. exists (k, c'), (Jwks.log_keyset_fetch uri (after_discovery E w)),
                InvalidSignatureError.
  split; [exact Hres|].
  unfold Jwt.decode. rewrite Hload.
  unfold Jwt.verify_signature. rewrite Halg. cbn. rewrite Hsig. reflexivity.
Qed.

Ltac resolved_in_cases :=
  split; [reflexivity|];
  split; [reflexivity|];
  split; [exact I|];
  split; [reflexivity|];
  exists (PyStr "https://idp/keys"); split;
  [ exists {| status_code := 200; content := "meta" |},
           (PyDict [("jwks_uri", PyStr "https://idp/keys")]);
    repeat split; reflexivity
  | exists (PyDict [("keys", PyList [PyStr "k1"])]), [Scenario.k1];
    repeat split; reflexivity ].

Lemma X12_expired_token_is_denied_witness :
  let event := Scenario.request "Bearer hdr.old.sig" in
  let j := Scenario.jws "hdr" "old" [("alg", PyStr "RS256"); ("kid", PyStr "k1")] in
  (key_resolved Cases.env event Scenario.w0 "hdr.old.sig" j Scenario.k1
   /\ signature_verifies Cases.env j Scenario.k1
   /\ (5 <= clock Scenario.w0)%Z)
  /\ exists w', lambda_handler Cases.env event Scenario.w0 = (Returns (deny event), w').
Proof.
  cbv zeta.
  assert (Hres : key_resolved Cases.env (Scenario.request "Bearer hdr.old.sig")
                   Scenario.w0 "hdr.old.sig"
                   (Scenario.jws "hdr" "old" [("alg", PyStr "RS256"); ("kid", PyStr "k1")])
                   Scenario.k1) by resolved_in_cases.
  assert (Hsig : signature_verifies Cases.env
                   (Scenario.jws "hdr" "old" [("alg", PyStr "RS256"); ("kid", PyStr "k1")])
                   Scenario.k1) by (split; reflexivity).
  assert (Hle : (5 <= clock Scenario.w0)%Z) by (simpl; lia).
  split; [exact (conj Hres (conj Hsig Hle))|].
  exact (X12_expired_token_is_denied
           Cases.env (Scenario.request "Bearer hdr.old.sig") Scenario.w0 "hdr.old.sig"
           (Scenario.jws "hdr" "old" [("alg", PyStr "RS256"); ("kid", PyStr "k1")])
           Scenario.k1
           [("sub", PyStr "user-123"); ("iss", PyStr "https://idp");
            ("aud", PyStr "api"); ("exp", PyInt 5)]
           (PyInt 5) 5 Hres Hsig eq_refl I I eq_refl eq_refl Hle).
Defined.

Lemma X13_other_audience_is_denied_witness :
  let event := Scenario.request "Bearer hdr.other.sig" in
  let j := Scenario.jws "hdr" "other" [("alg", PyStr "RS256"); ("kid", PyStr "k1")] in
  (key_resolved Cases.env event Scenario.w0 "hdr.other.sig" j Scenario.k1
   /\ signature_verifies Cases.env j Scenario.k1
   /\ "billing" <> AUDIENCE Cases.env)
  /\ exists w', lambda_handler Cases.env event Scenario.w0 = (Returns (deny event), w').
Proof.
  cbv zeta.
  assert (Hres : key_resolved Cases.env (Scenario.request "Bearer hdr.other.sig")
                   Scenario.w0 "hdr.other.sig"
                   (Scenario.jws "hdr" "other" [("alg", PyStr "RS256"); ("kid", PyStr "k1")])
                   Scenario.k1) by resolved_in_cases.
  assert (Hsig : signature_verifies Cases.env
                   (Scenario.jws "hdr" "other" [("alg", PyStr "RS256"); ("kid", PyStr "k1")])
                   Scenario.k1) by (split; reflexivity).
  assert (Hne : "billing" <> AUDIENCE Cases.env) by discriminate.
  split; [exact (conj Hres (conj Hsig Hne))|].
  exact (X13_other_audience_is_denied
           Cases.env (Scenario.request "Bearer hdr.other.sig") Scenario.w0
           "hdr.other.sig"
           (Scenario.jws "hdr" "other" [("alg", PyStr "RS256"); ("kid", PyStr "k1")])
           Scenario.k1
           [("sub", PyStr "user-123"); ("iss", PyStr "https://idp");
            ("aud", PyStr "billing"); ("exp", PyInt 1000)]
           "billing" Hres Hsig eq_refl I I I eq_refl Hne).
Defined.

Lemma X14_other_issuer_is_denied_witness :
  let event := Scenario.request "Bearer hdr.rogue.sig" in
  let j := Scenario.jws "hdr" "rogue" [("alg", PyStr "RS256"); ("kid", PyStr "k1")] in
  (key_resolved Cases.env event Scenario.w0 "hdr.rogue.sig" j Scenario.k1
   /\ signature_verifies Cases.env j Scenario.k1
   /\ Some (PyStr "https://rogue") <> Some (PyStr (AUTHORITY Cases.env)))
  /\ exists w', lambda_handler Cases.env event Scenario.w0 = (Returns (deny event), w').
Proof.
  cbv zeta.
  assert (Hres : key_resolved Cases.env (Scenario.request "Bearer hdr.rogue.sig")
                   Scenario.w0 "hdr.rogue.sig"
                   (Scenario.jws "hdr" "rogue" [("alg", PyStr "RS256"); ("kid", PyStr "k1")])
                   Scenario.k1) by resolved_in_cases.
  assert (Hsig : signature_verifies Cases.env
                   (Scenario.jws "hdr" "rogue" [("alg", PyStr "RS256"); ("kid", PyStr "k1")])
                   Scenario.k1) by (split; reflexivity).
  assert (Hne : Some (PyStr "https://rogue") <> Some (PyStr (AUTHORITY Cases.env)))
    by discriminate.
  split; [exact (conj Hres (conj Hsig Hne))|].
  exact (X14_other_issuer_is_denied
           Cases.env (Scenario.request "Bearer hdr.rogue.sig") Scenario.w0
           "hdr.rogue.sig"
           (Scenario.jws "hdr" "rogue" [("alg", PyStr "RS256"); ("kid", PyStr "k1")])
           Scenario.k1
           [("sub", PyStr "user-123"); ("iss", PyStr "https://rogue");
            ("aud", PyStr "api"); ("exp", PyInt 1000)]
           Hres Hsig eq_refl I I I Hne).
Defined.

Lemma X15_bad_signature_is_denied_witness :
  let event := Scenario.request "Bearer hdr.pay.forged" in
  let j := {| Jwt.header := [("alg", PyStr "RS256"); ("kid", PyStr "k1")];
              Jwt.payload := "pay";
              Jwt.signing_input := "hdr.pay";
              Jwt.signature := "forged" |} in
  (key_resolved Cases.env event Scenario.w0 "hdr.pay.forged" j Scenario.k1
   /\ sig_verify Cases.env "RS256" (key Scenario.k1) "hdr.pay" "forged" = Returns false)
  /\ exists w', lambda_handler Cases.env event Scenario.w0 = (Returns (deny event), w').
Proof.
  cbv zeta.
  assert (Hres : key_resolved Cases.env (Scenario.request "Bearer hdr.pay.forged")
                   Scenario.w0 "hdr.pay.forged"
                   {| Jwt.header := [("alg", PyStr "RS256"); ("kid", PyStr "k1")];
                      Jwt.payload := "pay";
                      Jwt.signing_input := "hdr.pay";
                      Jwt.signature := "forged" |}
                   Scenario.k1) by resolved_in_cases.
  split; [exact (conj Hres eq_refl)|].
  exact (X15_bad_signature_is_denied
           Cases.env (Scenario.request "Bearer hdr.pay.forged") Scenario.w0
           "hdr.pay.forged" _ Scenario.k1
           [("sub", PyStr "user-123"); ("iss", PyStr "https://idp");
            ("aud", PyStr "api"); ("exp", PyInt 1000);
            ("nbf", PyInt 0); ("iat", PyInt 0)]
           Hres eq_refl eq_refl eq_refl).
Defined.

(** ** Keys the key set does not hold *)

Lemma get_signing_keys_fetch (E : Env) (c : Jwks.PyJWKClient) (refresh : bool)
      (w : World) (data : pyval) (jwks : list PyJWK) :
  match Jwks.jwk_set_cache c with
  | Some cache => if refresh then None else Jwks.cache_get cache (clock w)
  | None => None
  end = None ->
  urlopen_json E w (Jwks.uri c) = Fetched data ->
  Jwks.jwk_set_from E data = Returns jwks ->
  Jwks.get_signing_keys E c refresh w
  = match filter Jwks.is_signing_key jwks with
    | [] => (Jwt.fail PyJWKClientError, Jwks.log_keyset_fetch (Jwks.uri c) w)
    | keys => (Returns (keys, Jwks.put c (clock w) data),
               Jwks.log_keyset_fetch (Jwks.uri c) w)
    end.
Proof.
  intros Hcache Hfetch Hset.
  unfold Jwks.get_signing_keys. unfold bind at 1.
  unfold Jwks.get_jwk_set. rewrite Hcache.
  unfold bind at 1. unfold Jwks.fetch_data. rewrite Hfetch.
  cbn [fst snd]. unfold lift at 1. rewrite Hset. cbn [fst snd].
  destruct (filter Jwks.is_signing_key jwks); reflexivity.
Qed.

Lemma unknown_kid_is_an_error (E : Env) (tok : string) (uri : pyval) (w : World)
      (j : Jwt.JWS) (claims : list (string * pyval)) (keys : list PyJWK) :
  Jwt.load E tok = Returns j ->
  Jwt.decode_payload E j = Returns claims ->
  key_set_is E uri keys ->
  Jwks.match_kid keys (Dict.get "kid" (Jwt.header j)) = None ->
  exists w',
    Jwks.get_signing_key_from_jwt E (fresh_client uri) tok w
    = (Raises (PyJWTError PyJWKClientError), w').
Proof.
  intros Hload Hpay [data [jwks [Hfetch [Hset Hkeys]]]] Hkid.
  unfold Jwks.get_signing_key_from_jwt.
  unfold bind at 1, lift at 1. rewrite Hload.
  unfold bind at 1, lift at 1. rewrite Hpay.
  unfold Jwks.get_signing_key. unfold bind at 1.
  rewrite (get_signing_keys_fetch E (fresh_client uri) false w data jwks
             eq_refl (Hfetch w) Hset).
  subst keys. revert Hkid.
  destruct (filter Jwks.is_signing_key jwks) as [|k0 keys0] eqn:Ek; intro Hkid.
  - eexists. reflexivity.
  - cbn [fst snd]. rewrite Hkid. unfold bind at 1.
    change (Jwks.uri (fresh_client uri)) with uri.
    rewrite (get_signing_keys_fetch
               E (Jwks.put (fresh_client uri) (clock w) data) true
               (Jwks.log_keyset_fetch uri w) data jwks
               eq_refl (Hfetch _) Hset).
    rewrite Ek. cbn [fst snd]. rewrite Hkid.
    eexists. reflexivity.
Qed.

(** X16. A token that names a key the key set of the authority does not
    hold (or no key at all) is denied, whatever it says and however it is
    signed: the lookup of the key raises inside the [try] statement. *)
Theorem X16_unknown_key_is_denied (E : Env) (event : Event) (w : World)
        (tok : string) (uri : pyval) (j : Jwt.JWS) (claims : list (string * pyval))
        (keys : list PyJWK) :
  get_id_token event = Returns (Some tok) ->
  has_crypto E = true ->
  discovery_ok E w uri ->
  trust_store_ok E ->
  Jwt.load E tok = Returns j ->
  Jwt.decode_payload E j = Returns claims ->
  key_set_is E uri keys ->
  Jwks.match_kid keys (Dict.get "kid" (Jwt.header j)) = None ->
  exists w', lambda_handler E event w = (Returns (deny event), w').
Proof.
  intros Ht Hc Hd Hts Hload Hpay Hset Hkid.
  destruct (unknown_kid_is_an_error E tok uri (after_discovery E w) j claims keys
                                    Hload Hpay Hset Hkid) as [w' Hres].
  exists w'. apply (lambda_handler_after_discovery E event w tok uri Ht Hc Hd Hts).
  left. exists PyJWKClientError. exact Hres.
Qed.

Lemma X16_unknown_key_is_denied_witness :
  let event := Scenario.request "Bearer hdr2.pay.sig" in
  let j := Scenario.jws "hdr2" "pay" [("alg", PyStr "RS256"); ("kid", PyStr "k2")] in
  (Jwt.load Cases.env "hdr2.pay.sig" = Returns j
   /\ key_set_is Cases.env (PyStr "https://idp/keys") [Scenario.k1]
   /\ Jwks.match_kid [Scenario.k1] (Dict.get "kid" (Jwt.header j)) = None)
  /\ exists w', lambda_handler Cases.env event Scenario.w0 = (Returns (deny event), w').
Proof.
  cbv zeta.
  assert (Hset : key_set_is Cases.env (PyStr "https://idp/keys") [Scenario.k1]).
  { exists (PyDict [("keys", PyList [PyStr "k1"])]), [Scenario.k1].
    repeat split; reflexivity. }
  split; [exact (conj eq_refl (conj Hset eq_refl))|].
  apply (X16_unknown_key_is_denied
           Cases.env (Scenario.request "Bearer hdr2.pay.sig") Scenario.w0
           "hdr2.pay.sig" (PyStr "https://idp/keys")
           (Scenario.jws "hdr2" "pay" [("alg", PyStr "RS256"); ("kid", PyStr "k2")])
           [("sub", PyStr "user-123"); ("iss", PyStr "https://idp");
            ("aud", PyStr "api"); ("exp", PyInt 1000);
            ("nbf", PyInt 0); ("iat", PyInt 0)]
           [Scenario.k1]); try reflexivity; try exact Hset; try exact I.
  exists {| status_code := 200; content := "meta" |},
         (PyDict [("jwks_uri", PyStr "https://idp/keys")]).
  repeat split; reflexivity.
Defined.

(** ** Where an Allow comes from *)

Lemma get_signing_keys_inv (E : Env) (c c' : Jwks.PyJWKClient) (refresh : bool)
      (w w' : World) (keys : list PyJWK) :
  match Jwks.jwk_set_cache c with
  | Some cache => if refresh then None else Jwks.cache_get cache (clock w)
  | None => None
  end = None ->
  Jwks.get_signing_keys E c refresh w = (Returns (keys, c'), w') ->
  exists data jwks,
    urlopen_json E w (Jwks.uri c) = Fetched data
    /\ Jwks.jwk_set_from E data = Returns jwks
    /\ keys = filter Jwks.is_signing_key jwks
    /\ c' = Jwks.put c (clock w) data.
Proof.
  intros Hcache. unfold Jwks.get_signing_keys. unfold bind at 1.
  unfold Jwks.get_jwk_set. rewrite Hcache.
  unfold bind at 1. unfold Jwks.fetch_data.
  destruct (urlopen_json E w (Jwks.uri c)) as [data| |e] eqn:Hf;
    try discriminate.
  cbn [fst snd]. unfold lift at 1.
  destruct (Jwks.jwk_set_from E data) as [jwks|e] eqn:Hs; [|discriminate].
  cbn [fst snd].
  destruct (filter Jwks.is_signing_key jwks) as [|k0 ks] eqn:Hk; [discriminate|].
  unfold ret. intro H. inversion H; subst.
  exists data, jwks. repeat split; try assumption. symmetry. exact Hk.
Qed.

Lemma matched_key_is_fetched (E : Env) (uri : pyval) (w : World) (data : pyval)
      (jwks : list PyJWK) (kid : option pyval) (k : PyJWK) :
  urlopen_json E w uri = Fetched data ->
  Jwks.jwk_set_from E data = Returns jwks ->
  Jwks.match_kid (filter Jwks.is_signing_key jwks) kid = Some k ->
  fetched_key E uri kid k.
Proof.
  intros Hf Hs Hm. unfold Jwks.match_kid in Hm.
  apply find_some in Hm. destruct Hm as [Hin Hkid].
  apply filter_In in Hin. destruct Hin as [Hin Hsign].
  exists w, data, jwks. repeat split; assumption.
Qed.

Lemma get_signing_key_inv (E : Env) (uri : pyval) (kid : option pyval)
      (w w' : World) (k : PyJWK) (c' : Jwks.PyJWKClient) :
  Jwks.get_signing_key E (fresh_client uri) kid w = (Returns (k, c'), w') ->
  fetched_key E uri kid k.
Proof.
  unfold Jwks.get_signing_key. unfold bind at 1.
  destruct (Jwks.get_signing_keys E (fresh_client uri) false w)
    as [[[keys c1]|e] w1] eqn:H1; [|discriminate].
  destruct (get_signing_keys_inv E (fresh_client uri) c1 false w w1 keys eq_refl H1)
    as [data [jwks [Hf [Hs [Hk Hc1]]]]].
  cbn [fst snd]. destruct (Jwks.match_kid keys kid) as [k0|] eqn:Hm.
  - unfold ret. intro H. inversion H; subst k0 c' w'. subst keys.
    exact (matched_key_is_fetched E uri w data jwks kid k Hf Hs Hm).
  - unfold bind at 1.
    destruct (Jwks.get_signing_keys E c1 true w1) as [[[keys2 c2]|e] w2] eqn:H2;
      [|discriminate].
    assert (Hcache : match Jwks.jwk_set_cache c1 with
                     | Some cache => if true then None
                                     else Jwks.cache_get cache (clock w1)
                     | None => None
                     end = None)
      by (destruct (Jwks.jwk_set_cache c1); reflexivity).
    destruct (get_signing_keys_inv E c1 c2 true w1 w2 keys2 Hcache H2)
      as [data2 [jwks2 [Hf2 [Hs2 [Hk2 _]]]]].
    assert (Huri : Jwks.uri c1 = uri) by (subst c1; reflexivity).
    rewrite Huri in Hf2.
    cbn [fst snd]. destruct (Jwks.match_kid keys2 kid) as [k0|] eqn:Hm2;
      [|discriminate].
    unfold ret. intro H. inversion H; subst k0 c' w'. subst keys2.
    exact (matched_key_is_fetched E uri w1 data2 jwks2 kid k Hf2 Hs2 Hm2).
Qed.

Lemma get_signing_key_from_jwt_inv (E : Env) (uri : pyval) (tok : string)
      (w w' : World) (k : PyJWK) (c' : Jwks.PyJWKClient) :
  Jwks.get_signing_key_from_jwt E (fresh_client uri) tok w = (Returns (k, c'), w') ->
  exists j, Jwt.load E tok = Returns j
            /\ fetched_key E uri (Dict.get "kid" (Jwt.header j)) k.
Proof.
  unfold Jwks.get_signing_key_from_jwt.
  unfold bind at 1, lift at 1.
  destruct (Jwt.load E tok) as [j|e]; [|discriminate].
  unfold bind at 1, lift at 1.
  destruct (Jwt.decode_payload E j) as [cl|e]; [|discriminate].
  intro H. exists j. split; [reflexivity|].
  exact (get_signing_key_inv E uri _ w w' k c' H).
Qed.

Lemma decode_inv (E : Env) (tok kk iss aud : string) (w w' : World)
      (claims : list (string * pyval)) :
  Jwt.decode E tok kk ["RS256"] iss aud w = (Returns claims, w') ->
  exists j,
    Jwt.load E tok = Returns j
    /\ Jwt.declared_alg j = Some (PyStr "RS256")
    /\ sig_verify E "RS256" kk (Jwt.signing_input j) (Jwt.signature j) = Returns true
    /\ Jwt.decode_payload E j = Returns claims
    /\ Jwt.validate_claims E (clock w) claims iss aud = Returns tt.
Proof.
  unfold Jwt.decode. intro H.
  destruct (Jwt.load E tok) as [j|]; [|discriminate].
  destruct (Jwt.verify_signature E j kk ["RS256"]) as [[]|] eqn:Hv; [|discriminate].
  destruct (Jwt.decode_payload E j) as [c|] eqn:Hp; [|discriminate].
  destruct (Jwt.validate_claims E (clock w) c iss aud) as [[]|] eqn:Hc;
    [|discriminate].
  inversion H; subst c w'. exists j. split; [reflexivity|].
  revert Hv. unfold Jwt.verify_signature, Jwt.fail.
  destruct (Jwt.declared_alg j) as [[| | |alg| | |]|]; try discriminate.
  cbn [existsb]. destruct (String.eqb alg "RS256") eqn:Ea.
  - apply String.eqb_eq in Ea. subst alg. cbn.
    destruct (sig_verify E "RS256" kk (Jwt.signing_input j) (Jwt.signature j))
      as [[|]|]; try discriminate.
    intros _. repeat split; reflexivity || assumption.
  - rewrite orb_false_r. cbn [negb]. rewrite orb_true_r. discriminate.
Qed.

Lemma protected_block_inv (E : Env) (tok aud auth : string) (meta v : pyval)
      (w w' : World) :
  protected_block E tok aud auth meta w = (Returns v, w') ->
  v = PyBool false
  \/ exists uri kc w1 claims,
       getitem meta "jwks_uri" = Returns uri
       /\ Jwks.get_signing_key_from_jwt E (fresh_client uri) tok w = (Returns kc, w1)
       /\ Jwt.decode E tok (key (fst kc)) ["RS256"] auth aud w1 = (Returns claims, w')
       /\ v = PyDict claims.
Proof.
  unfold protected_block, try_except_PyJWTError.
  unfold bind at 1, lift at 1.
  destruct (match verify_arg E with
            | Some p => load_verify_locations E p
            | None => Returns tt
            end) as [[]|e].
  2:{ destruct e; try discriminate. unfold ret. intro H. inversion H. left; reflexivity. }
  unfold bind at 1, lift at 1.
  destruct (getitem meta "jwks_uri") as [uri|e].
  2:{ destruct e; try discriminate. unfold ret. intro H. inversion H. left; reflexivity. }
  unfold bind at 1, lift at 1. rewrite new_client. fold (fresh_client uri).
  unfold bind at 1.
  destruct (Jwks.get_signing_key_from_jwt E (fresh_client uri) tok w)
    as [[kc|e] w1] eqn:Hk.
  2:{ destruct e; try discriminate. unfold ret. intro H. inversion H. left; reflexivity. }
  unfold bind at 1.
  destruct (Jwt.decode E tok (key (fst kc)) ["RS256"] auth aud w1)
    as [[data|e] w2] eqn:Hd.
  2:{ destruct e; try discriminate. unfold ret. intro H. inversion H. left; reflexivity. }
  unfold ret. intro H. inversion H; subst v w2. right.
  exists uri, kc, w1, data. repeat split; assumption.
Qed.

Lemma id_token_is_valid_inv (E : Env) (tok : string) (w : World) (v : pyval) :
  fst (id_token_is_valid E tok (AUDIENCE E) (AUTHORITY E) w) = Returns v ->
  v = PyBool false
  \/ exists claims, v = PyDict claims /\ claims <> [] /\ verified E w tok claims.
Proof.
  rewrite id_token_is_valid_eq.
  destruct (has_crypto E) eqn:Hc.
  2:{ simpl. intro H. inversion H. left; reflexivity. }
  cbv zeta.
  destruct (http_get E w (discovery_url (AUTHORITY E)) (verify_arg E))
    as [resp|e] eqn:Hget; [|discriminate].
  destruct (status_code resp =? 200)%Z eqn:Hst.
  2:{ simpl. intro H. inversion H. left; reflexivity. }
  destruct (json_loads E (content resp)) as [meta|] eqn:Hjs; [|discriminate].
  destruct (protected_block E tok (AUDIENCE E) (AUTHORITY E) meta
              (fetched_discovery (discovery_url (AUTHORITY E)) w)) as [o w'] eqn:Hp.
  simpl. intro H. subst o.
  destruct (protected_block_inv E tok _ _ meta v _ w' Hp)
    as [Hv | [uri [[k c'] [w1 [claims [Huri [Hk [Hd Hv]]]]]]]]; [left; exact Hv|].
  right. exists claims. split; [exact Hv|].
  destruct (get_signing_key_from_jwt_inv E uri tok _ w1 k c' Hk) as [j [Hload Hfk]].
  destruct (decode_inv E tok _ _ _ w1 w' claims Hd)
    as [j' [Hload' [Halg [Hsig [Hpay Hval]]]]].
  rewrite Hload in Hload'. inversion Hload'; subst j'.
  destruct (frames_get_signing_key_from_jwt
              E (fresh_client uri) tok
              (fetched_discovery (discovery_url (AUTHORITY E)) w)) as [Hclock _].
  rewrite Hk in Hclock. cbn [snd fetched_discovery clock] in Hclock.
  rewrite Hclock in Hval.
  split.
  - pose proof (valid_claims_have_issuer E _ claims _ _ Hval) as Hiss.
    destruct claims; [discriminate | discriminate].
  - split; [exact Hc|]. exists uri, j, k.
    split; [exists resp, meta; apply Z.eqb_eq in Hst; repeat split; assumption|].
    split; [exact Hload|]. split; [exact Hfk|].
    split; [split; assumption | split; assumption].
Qed.

(** An Allow decision, traced back to its token. *)
Lemma allow_inv (E : Env) (event : Event) (w : World) (p : policy) :
  fst (lambda_handler E event w) = Returns p ->
  effect_of p = Some (PyStr "Allow") ->
  exists tok claims sub,
    get_id_token event = Returns (Some tok)
    /\ verified E w tok claims
    /\ Dict.get "sub" claims = Some sub
    /\ p = allow event sub.
Proof.
  intros Hp Heff.
  destruct (get_id_token event) as [t|e] eqn:Ht.
  2:{ rewrite (lambda_handler_extraction_fault E event w e Ht) in Hp. discriminate. }
  destruct (get_id_token_returns event t Ht) as [tok [Hs _]]. subst t.
  rewrite (lambda_handler_with_token E event w tok Ht) in Hp.
  pose proof (id_token_is_valid_inv E tok w) as Hinv.
  destruct (id_token_is_valid E tok (AUDIENCE E) (AUTHORITY E) w) as [[v|e] w'];
    [|discriminate].
  destruct (Hinv v eq_refl) as [Hv | [claims [Hv [Hne Hver]]]]; subst v.
  - simpl in Hp. inversion Hp; subst p. discriminate Heff.
  - assert (Htruthy : truthy (PyDict claims) = true)
      by (destruct claims; [contradiction | reflexivity]).
    rewrite Htruthy in Hp. unfold getitem in Hp.
    destruct (Dict.get "sub" claims) as [sub|] eqn:Hsub; [|discriminate].
    simpl in Hp. inversion Hp; subst p.
    exists tok, claims, sub.
    exact (conj eq_refl (conj Hver (conj Hsub eq_refl))).
Qed.

(** X17. The handler allows verified tokens only. Whenever it returns an
    Allow decision, the request carried a token, crypto support was there,
    the discovery document was fetched with status 200, the header of the
    token declares RS256 and names a signing key of a key set fetched from
    the [jwks_uri] of that document, the signature verifies under that key,
    and the claims validate at that time: [iss] is exactly [AUTHORITY], an
    integer [exp] is in the future, a string [aud] is [AUDIENCE]. The
    principal of the decision is the [sub] of those claims. *)
Theorem X17_allow_only_for_verified_tokens (E : Env) (event : Event) (w : World)
        (p : policy) :
  fst (lambda_handler E event w) = Returns p ->
  effect_of p = Some (PyStr "Allow") ->
  exists tok claims sub,
    get_id_token event = Returns (Some tok)
    /\ verified E w tok claims
    /\ Dict.get "sub" claims = Some sub
    /\ p = allow event sub
    /\ Dict.get "iss" claims = Some (PyStr (AUTHORITY E))
    /\ (forall t, Dict.get "exp" claims = Some (PyInt t) -> (clock w < t)%Z)
    /\ (forall a, Dict.get "aud" claims = Some (PyStr a) -> a = AUDIENCE E).
Proof.
  intros Hp Heff.
  destruct (allow_inv E event w p Hp Heff)
    as [tok [claims [sub [Ht [Hver [Hsub Hallow]]]]]].
  exists tok, claims, sub.
  pose proof Hver as [_ [uri [j [k [_ [_ [_ [_ [_ Hval]]]]]]]]].
  repeat (split; [assumption|]).
  split; [exact (valid_claims_have_issuer E _ claims _ _ Hval)|]. split.
  - intros t Hexp. destruct (Z.lt_ge_cases (clock w) t) as [Hlt|Hge]; [exact Hlt|].
    exfalso. exact (expired_is_invalid E (clock w) t claims _ _ Hexp Hge Hval).
  - intros a Haud. destruct (string_dec a (AUDIENCE E)) as [Heq|Hneq]; [exact Heq|].
    exfalso. exact (other_audience_is_invalid E (clock w) claims _ _ a Haud Hneq Hval).
Qed.

Lemma X17_allow_only_for_verified_tokens_witness :
  let event := Scenario.request "Bearer hdr.pay.sig" in
  (fst (lambda_handler Cases.env event Scenario.w0)
   = Returns (allow event (PyStr "user-123"))
   /\ effect_of (allow event (PyStr "user-123")) = Some (PyStr "Allow"))
  /\ exists tok claims sub,
       get_id_token event = Returns (Some tok)
       /\ verified Cases.env Scenario.w0 tok claims
       /\ Dict.get "sub" claims = Some sub
       /\ allow event (PyStr "user-123") = allow event sub
       /\ Dict.get "iss" claims = Some (PyStr (AUTHORITY Cases.env))
       /\ (forall t, Dict.get "exp" claims = Some (PyInt t) ->
                     (clock Scenario.w0 < t)%Z)
       /\ (forall a, Dict.get "aud" claims = Some (PyStr a) ->
                     a = AUDIENCE Cases.env).
Proof.
  cbv zeta. split; [split; reflexivity|].
  exact (X17_allow_only_for_verified_tokens
           Cases.env (Scenario.request "Bearer hdr.pay.sig") Scenario.w0
           (allow (Scenario.request "Bearer hdr.pay.sig") (PyStr "user-123"))
           eq_refl eq_refl).
Defined.

(** X18. [id_token_is_valid] returns either [False] or the claim set of a
    verified token, and that claim set is never empty: the truth test the
    handler makes on the result tells the two apart. *)
Theorem X18_validation_returns_false_or_verified_claims (E : Env) (tok : string)
        (w : World) (v : pyval) :
  fst (id_token_is_valid E tok (AUDIENCE E) (AUTHORITY E) w) = Returns v ->
  (v = PyBool false /\ truthy v = false)
  \/ exists claims,
       v = PyDict claims /\ truthy v = true /\ verified E w tok claims.
Proof.
  intro H. destruct (id_token_is_valid_inv E tok w v H)
    as [Hv | [claims [Hv [Hne Hver]]]]; subst v.
  - left. split; reflexivity.
  - right. exists claims. split; [reflexivity|]. split; [|exact Hver].
    destruct claims; [contradiction | reflexivity].
Qed.

Lemma X18_validation_returns_false_or_verified_claims_witness :
  let v := PyDict [("sub", PyStr "user-123"); ("iss", PyStr "https://idp");
                   ("aud", PyStr "api"); ("exp", PyInt 1000);
                   ("nbf", PyInt 0); ("iat", PyInt 0)] in
  fst (id_token_is_valid Cases.env "hdr.pay.sig" (AUDIENCE Cases.env)
                         (AUTHORITY Cases.env) Scenario.w0) = Returns v
  /\ ((v = PyBool false /\ truthy v = false)
      \/ exists claims,
           v = PyDict claims /\ truthy v = true
           /\ verified Cases.env Scenario.w0 "hdr.pay.sig" claims).
Proof.
  cbv zeta. split; [reflexivity|].
  exact (X18_validation_returns_false_or_verified_claims
           Cases.env "hdr.pay.sig" Scenario.w0 _ eq_refl).
Defined.

(** ** Configuration that is not there *)

Lemma empty_audience_rejects_strings (E : Env) (now : Z)
      (claims : list (string * pyval)) (iss a : string) :
  Dict.get "aud" claims = Some (PyStr a) ->
  Jwt.validate_claims E now claims iss "" <> Returns tt.
Proof.
  intros Haud. destruct (string_dec a "") as [Heq|Hne].
  - subst a. unfold Jwt.validate_claims, Jwt.seq.
    destruct (Jwt.validate_time E claims "iat" _ _ _); [|discriminate].
    destruct (Jwt.validate_time E claims "nbf" _ _ _); [|discriminate].
    destruct (Jwt.validate_time E claims "exp" _ _ _); [|discriminate].
    destruct (Jwt.validate_iss claims iss); [|discriminate].
    unfold Jwt.validate_aud. rewrite Haud. discriminate.
  - exact (other_audience_is_invalid E now claims iss "" a Haud Hne).
Qed.

(** X19. An [AUDIENCE] that is not configured is read as the empty string,
    and that does not switch the audience check off: a token whose [aud]
    is a string, whatever string, is then never allowed. Every decision
    the handler returns for it is a Deny. *)
Theorem X19_unset_audience_allows_no_string_audience (E : Env) (event : Event)
        (w : World) (tok : string) (j : Jwt.JWS) (claims : list (string * pyval))
        (a : string) (p : policy) :
  Dict.get "AUDIENCE" (environ E) = None ->
  get_id_token event = Returns (Some tok) ->
  Jwt.load E tok = Returns j ->
  Jwt.decode_payload E j = Returns claims ->
  Dict.get "aud" claims = Some (PyStr a) ->
  fst (lambda_handler E event w) = Returns p ->
  p = deny event.
Proof.
  intros Henv Ht Hload Hpay Haud Hp.
  destruct (lambda_handler_returns E event w p Hp) as [Hd | [sub Ha]];
    [exact Hd | exfalso]. subst p.
  destruct (allow_inv E event w _ Hp eq_refl)
    as [tok' [claims' [sub' [Ht' [Hver _]]]]].
  rewrite Ht in Ht'. inversion Ht'; subst tok'.
  destruct Hver as [_ [uri [j' [k [_ [Hload' [_ [_ [Hpay' Hval]]]]]]]]].
  rewrite Hload in Hload'. inversion Hload'; subst j'.
  rewrite Hpay in Hpay'. inversion Hpay'; subst claims'.
  assert (Hempty : AUDIENCE E = "").
  { unfold AUDIENCE, environ_get. rewrite Henv. reflexivity. }
  rewrite Hempty in Hval.
  exact (empty_audience_rejects_strings E _ claims _ a Haud Hval).
Qed.

Lemma X19_unset_audience_allows_no_string_audience_witness :
  let E := Cases.make true [("AUTHORITY", "https://idp")] Cases.ok (Returns tt) in
  let event := Scenario.request "Bearer hdr.pay.sig" in
  (Dict.get "AUDIENCE" (environ E) = None
   /\ fst (lambda_handler E event Scenario.w0) = Returns (deny event))
  /\ deny event = deny event.
Proof.
  cbv zeta. split; [split; reflexivity|].
  exact (X19_unset_audience_allows_no_string_audience
           (Cases.make true [("AUTHORITY", "https://idp")] Cases.ok (Returns tt))
           (Scenario.request "Bearer hdr.pay.sig") Scenario.w0 "hdr.pay.sig"
           (Scenario.jws "hdr" "pay" [("alg", PyStr "RS256"); ("kid", PyStr "k1")])
           [("sub", PyStr "user-123"); ("iss", PyStr "https://idp");
            ("aud", PyStr "api"); ("exp", PyInt 1000);
            ("nbf", PyInt 0); ("iat", PyInt 0)]
           "api" (deny (Scenario.request "Bearer hdr.pay.sig"))
           eq_refl eq_refl eq_refl eq_refl eq_refl eq_refl).
Defined.

(** ** Tokens that cannot be read *)

(** X20. A token that has the shape of three segments but whose header or
    segments cannot be decoded is denied as soon as the key lookup reads
    its header: no key set is fetched for it. *)
Theorem X20_undecodable_token_is_denied_before_the_key_set (E : Env) (event : Event)
        (w : World) (tok : string) (uri : pyval) (e : exn) :
  get_id_token event = Returns (Some tok) ->
  has_crypto E = true ->
  discovery_ok E w uri ->
  trust_store_ok E ->
  Jwt.load E tok = Raises e ->
  lambda_handler E event w = (Returns (deny event), after_discovery E w)
  /\ keyset_fetches (after_discovery E w) = keyset_fetches w.
Proof.
  intros Ht Hc Hd Hts Hload. split; [|reflexivity].
  destruct (load_fails E tok e Hload) as [je Hje]. subst e.
  apply (lambda_handler_after_discovery E event w tok uri Ht Hc Hd Hts).
  left. exists je. unfold Jwks.get_signing_key_from_jwt.
  unfold bind at 1, lift at 1. rewrite Hload. reflexivity.
Qed.

Lemma X20_undecodable_token_is_denied_before_the_key_set_witness :
  let event := Scenario.request "Bearer aaa.bbb.ccc" in
  (get_id_token event = Returns (Some "aaa.bbb.ccc")
   /\ Jwt.load Cases.env "aaa.bbb.ccc" = Raises (PyJWTError DecodeError))
  /\ lambda_handler Cases.env event Scenario.w0
     = (Returns (deny event), after_discovery Cases.env Scenario.w0)
  /\ keyset_fetches (after_discovery Cases.env Scenario.w0)
     = keyset_fetches Scenario.w0.
Proof.
  cbv zeta. split; [split; reflexivity|].
  apply (X20_undecodable_token_is_denied_before_the_key_set
           Cases.env (Scenario.request "Bearer aaa.bbb.ccc") Scenario.w0
           "aaa.bbb.ccc" (PyStr "https://idp/keys") (PyJWTError DecodeError));
    try reflexivity; try exact I.
  exists {| status_code := 200; content := "meta" |},
         (PyDict [("jwks_uri", PyStr "https://idp/keys")]).
  repeat split; reflexivity.
Defined.

(** ** Time claims [int()] cannot convert *)

Lemma lambda_handler_fault_after_discovery (E : Env) (event : Event) (w w1 w' : World)
      (tok : string) (uri : pyval) (kc : PyJWK * Jwks.PyJWKClient) (e : exn) :
  get_id_token event = Returns (Some tok) ->
  has_crypto E = true ->
  discovery_ok E w uri ->
  trust_store_ok E ->
  Jwks.get_signing_key_from_jwt E (fresh_client uri) tok (after_discovery E w)
  = (Returns kc, w1) ->
  Jwt.decode E tok (key (fst kc)) ["RS256"] (AUTHORITY E) (AUDIENCE E) w1
  = (Raises e, w') ->
  (forall je, e <> PyJWTError je) ->
  lambda_handler E event w = (Raises e, w').
Proof.
  intros Ht Hc [resp [meta [Hget [Hst [Hjs Huri]]]]] Hts Hk Hd Hnj.
  rewrite (lambda_handler_with_token E event w tok Ht).
  rewrite id_token_is_valid_eq, Hc. cbv zeta. rewrite Hget, Hst, Hjs.
  cbn [Z.eqb Pos.eqb].
  rewrite (protected_block_outcome E tok _ _ meta uri _ Hts Huri).
  fold (after_discovery E w). rewrite <- after_discovery_eq.
  rewrite Hk, Hd. destruct e; try reflexivity.
  exfalso. exact (Hnj e eq_refl).
Qed.

Lemma py_int_raises (E : Env) (v : pyval) (e : exn) :
  Jwt.py_int E v = Raises e ->
  (exists m, e = ValueError m) \/ e = TypeError \/ e = OverflowError.
Proof.
  unfold Jwt.py_int, Jwt.int_of_float. intro H.
  destruct v as [| | |s| | |[| |]]; try discriminate;
    try (inversion H; right; left; reflexivity).
  - destruct (int_of_str E s); [discriminate|]. inversion H.
    left. eexists; reflexivity.
  - inversion H. right; right; reflexivity.
  - inversion H. left. eexists; reflexivity.
Qed.

(** X21. PyJWT converts the time claims with [int()] and catches its
    [ValueError] only. A correctly signed token whose [iat] is a value
    [int()] rejects with another exception ([null], a list or an object:
    [TypeError]; an infinite float: [OverflowError]) is neither allowed nor
    denied: the exception is not a [PyJWTError], so it leaves
    [id_token_is_valid] and the handler. *)
Theorem X21_unconvertible_iat_leaves_the_handler (E : Env) (event : Event)
        (w : World) (tok : string) (j : Jwt.JWS) (k : PyJWK)
        (claims : list (string * pyval)) (iat : pyval) (e : exn) :
  key_resolved E event w tok j k ->
  signature_verifies E j k ->
  Jwt.decode_payload E j = Returns claims ->
  Dict.get "iat" claims = Some iat ->
  Jwt.py_int E iat = Raises e ->
  (forall m, e <> ValueError m) ->
  (e = TypeError \/ e = OverflowError)
  /\ exists w', lambda_handler E event w = (Raises e, w').
Proof.
  intros [Ht [Hc [Hts [Hload [uri [Hd Hkey]]]]]] [Halg Hsig] Hpay Hiat Hint Hnv.
  assert (Hkind : e = TypeError \/ e = OverflowError).
  { destruct (py_int_raises E iat e Hint) as [[m Hm] | Hk]; [|exact Hk].
    exfalso. exact (Hnv m Hm). }
  split; [exact Hkind|].
  destruct (resolve_key E (after_discovery E w) uri tok j claims k
                        (fresh_client uri) (new_client uri) Hload Hpay Hkey)
    as [c' Hres].
  eexists.
  apply (lambda_handler_fault_after_discovery
           E event w _ _ tok uri (k, c') e Ht Hc Hd Hts Hres).
  - unfold Jwt.decode. rewrite Hload.
    unfold Jwt.verify_signature. rewrite Halg. cbn. rewrite Hsig, Hpay.
    unfold Jwt.validate_claims, Jwt.seq.
    unfold Jwt.validate_time at 1. rewrite Hiat, Hint.
    destruct Hkind; subst e; reflexivity.
  - intros je Hje. destruct Hkind; subst e; discriminate.
Qed.

Lemma X21_unconvertible_iat_leaves_the_handler_witness :
  let event := Scenario.request "Bearer hdr.nulliat.sig" in
  let j := Scenario.jws "hdr" "nulliat" [("alg", PyStr "RS256"); ("kid", PyStr "k1")] in
  (key_resolved Cases.env event Scenario.w0 "hdr.nulliat.sig" j Scenario.k1
   /\ signature_verifies Cases.env j Scenario.k1
   /\ Jwt.py_int Cases.env PyNone = Raises TypeError)
  /\ (TypeError = TypeError \/ TypeError = OverflowError)
  /\ exists w', lambda_handler Cases.env event Scenario.w0 = (Raises TypeError, w').
Proof.
  cbv zeta.
  assert (Hres : key_resolved Cases.env (Scenario.request "Bearer hdr.nulliat.sig")
                   Scenario.w0 "hdr.nulliat.sig"
                   (Scenario.jws "hdr" "nulliat"
                                 [("alg", PyStr "RS256"); ("kid", PyStr "k1")])
                   Scenario.k1) by resolved_in_cases.
  assert (Hsig : signature_verifies Cases.env
                   (Scenario.jws "hdr" "nulliat"
                                 [("alg", PyStr "RS256"); ("kid", PyStr "k1")])
                   Scenario.k1) by (split; reflexivity).
  assert (Hnv : forall m, TypeError <> ValueError m) by (intro m; discriminate).
  split; [exact (conj Hres (conj Hsig eq_refl))|].
  exact (X21_unconvertible_iat_leaves_the_handler
           Cases.env (Scenario.request "Bearer hdr.nulliat.sig") Scenario.w0
           "hdr.nulliat.sig"
           (Scenario.jws "hdr" "nulliat" [("alg", PyStr "RS256"); ("kid", PyStr "k1")])
           Scenario.k1
           [("sub", PyStr "user-123"); ("iss", PyStr "https://idp");
            ("aud", PyStr "api"); ("exp", PyInt 1000); ("iat", PyNone)]
           PyNone TypeError Hres Hsig eq_refl eq_refl eq_refl Hnv).
Defined.
